(** * Gateway lifecycle supervisor: a shallow embedding

    The development follows the TypeScript sources:

    - [Lifecycle]  : src/gateway/lifecycle.ts
    - [Part000]    : src/unnamed/part_000, which holds the GatewayState
                     Durable Object and the lifecycle module it is shipped
                     with
    - [LockModel]  : the promise slot of [GatewayState.runWithLock], as a
                     transition system over concurrently issued calls

    Asynchronous code is embedded in a state-and-exception monad over a
    machine that carries the hidden state of the platform, a wall clock,
    the shared [GatewayStateRef] object (mutated in place by the engine)
    and the trace of capability calls made so far.  The platform is an
    arbitrary record of functions over an arbitrary hidden state, so a
    statement quantified over it speaks about every behaviour of the
    capabilities.  Console logging is not part of the model. *)

From Stdlib Require Import ZArith NArith List String Ascii Bool Lia DecimalString.
Import ListNotations.
Open Scope string_scope.
Open Scope Z_scope.

(* ===================================================================== *)
(** * JavaScript values used by the sources *)
(* ===================================================================== *)

(** A thrown value: an [Error] object with its message, or any other value
    with its [String(e)] rendering. *)
Inductive JsValue : Type :=
| JsError (message : string)
| JsOther (text : string).

(** [e instanceof Error ? e.message : String(e)] *)
Definition errorMessage (e : JsValue) : string :=
  match e with
  | JsError m => m
  | JsOther t => t
  end.

(** The double-quote character, for the shell commands of the sources. *)
Definition dq : string := String (ascii_of_nat 34) EmptyString.

(** Number to text, as a template literal prints an integer. *)
Definition showZ (z : Z) : string := NilZero.string_of_int (Z.to_int z).

(** [s || d] on strings: the empty string is falsy. *)
Definition strOr (s d : string) : string :=
  match s with
  | EmptyString => d
  | _ => s
  end.

(** [s.replace(/^\/+/, '')] *)
Fixpoint stripLeadingSlashes (s : string) : string :=
  match s with
  | String c r => if Ascii.eqb c "/"%char then stripLeadingSlashes r else s
  | EmptyString => EmptyString
  end.

(** White space removed by [String.prototype.trim], on ASCII text. *)
Definition isWhite (c : ascii) : bool :=
  let n := nat_of_ascii c in
  ((9 <=? n)%nat && (n <=? 13)%nat) || (n =? 32)%nat.

Fixpoint trimStart (s : string) : string :=
  match s with
  | String c r => if isWhite c then trimStart r else s
  | EmptyString => EmptyString
  end.

Fixpoint trimEnd (s : string) : string :=
  match s with
  | String c r =>
      match trimEnd r with
      | EmptyString => if isWhite c then EmptyString else String c EmptyString
      | r' => String c r'
      end
  | EmptyString => EmptyString
  end.

Definition trim (s : string) : string := trimEnd (trimStart s).

(** [s.includes(t)] *)
Fixpoint includes (s t : string) : bool :=
  if prefix t s then true
  else match s with
       | String _ r => includes r t
       | EmptyString => false
       end.

(** A path that is empty or made of slashes only. *)
Fixpoint onlySlashes (s : string) : bool :=
  match s with
  | String c r => Ascii.eqb c "/"%char && onlySlashes r
  | EmptyString => true
  end.

(** A status code of the server-error class. *)
Definition isServerError (code : Z) : bool := (500 <=? code) && (code <? 600).

(* ===================================================================== *)
(** * Data model *)
(* ===================================================================== *)

(** [Process] of the sandbox SDK: the two fields the sources read. *)
Record Process : Type := mkProcess {
  proc_id : string;
  proc_status : string
}.

(** Result of [process.getLogs()]; both fields may be undefined. *)
Record Logs : Type := mkLogs {
  stdout : option string;
  stderr : option string
}.

(** [interface GatewayStateRef] *)
Record GatewayStateRef : Type := mkState {
  gatewayProcessId : option string;
  lastGatewayStartAttempt : Z;
  gatewayReady : bool;
  lastHealthCheck : Z
}.

Definition set_gatewayProcessId (v : option string) (r : GatewayStateRef) :=
  mkState v (lastGatewayStartAttempt r) (gatewayReady r) (lastHealthCheck r).
Definition set_lastGatewayStartAttempt (v : Z) (r : GatewayStateRef) :=
  mkState (gatewayProcessId r) v (gatewayReady r) (lastHealthCheck r).
Definition set_gatewayReady (v : bool) (r : GatewayStateRef) :=
  mkState (gatewayProcessId r) (lastGatewayStartAttempt r) v (lastHealthCheck r).
Definition set_lastHealthCheck (v : Z) (r : GatewayStateRef) :=
  mkState (gatewayProcessId r) (lastGatewayStartAttempt r) (gatewayReady r) v.

(** The state built by the constructor of [GatewayState]. *)
Definition initialState : GatewayStateRef := mkState None 0 false 0.

(* ===================================================================== *)
(** * The platform *)
(* ===================================================================== *)

(** A capability call steps the hidden state of the platform, takes some
    time (milliseconds) and either rejects with a thrown value or
    resolves. *)
Definition Cap (W A : Type) : Type := W -> W * N * (JsValue + A).

(** Everything the sources call and do not define.

    The first group is the [Sandbox] and [Process] interface of
    [@cloudflare/sandbox]; methods of a process take the process as their
    first argument.  The second group is the timer of the runtime:
    [timerLateness ms] is how long after [ms] milliseconds a
    [setTimeout(_, ms)] callback runs.

    Modelled from the spec: the third group stands for the modules
    [../config], [./env], [./r2], [./process] and [./utils], which the
    sources import and which are not part of the given files.  Their types
    follow the collaborator interfaces of the specification: signature
    search returns a process or none, mounting succeeds or raises,
    environment assembly is pure. *)
Record Host (W MoltbotEnv : Type) : Type := mkHost {
  containerFetch : string -> Z -> Cap W Z;
  startProcess : string -> option (list (string * string)) -> Cap W Process;
  listProcesses : Cap W (list Process);
  kill : Process -> Cap W unit;
  waitForPort : Process -> Z -> Z -> Cap W unit;
  getLogs : Process -> Cap W Logs;

  timerLateness : Z -> W -> W * N;

  MOLTBOT_PORT : Z;
  STARTUP_TIMEOUT_MS : Z;
  buildEnvVars : MoltbotEnv -> list (string * string);
  mountR2Storage : MoltbotEnv -> Cap W unit;
  findExistingMoltbotProcess : W -> W * N * option Process;
  waitForProcess : Process -> Z -> Cap W unit
}.

Arguments containerFetch {W MoltbotEnv}.
Arguments startProcess {W MoltbotEnv}.
Arguments listProcesses {W MoltbotEnv}.
Arguments kill {W MoltbotEnv}.
Arguments waitForPort {W MoltbotEnv}.
Arguments getLogs {W MoltbotEnv}.
Arguments timerLateness {W MoltbotEnv}.
Arguments MOLTBOT_PORT {W MoltbotEnv}.
Arguments STARTUP_TIMEOUT_MS {W MoltbotEnv}.
Arguments buildEnvVars {W MoltbotEnv}.
Arguments mountR2Storage {W MoltbotEnv}.
Arguments findExistingMoltbotProcess {W MoltbotEnv}.
Arguments waitForProcess {W MoltbotEnv}.

(** One entry of the trace per capability call, with what the platform
    answered. *)
Inductive Event : Type :=
| EvContainerFetch (url : string) (port : Z) (dt : N) (r : JsValue + Z)
| EvStartProcess (command : string) (env : option (list (string * string)))
    (r : JsValue + Process)
| EvListProcesses (r : JsValue + list Process)
| EvKill (p : Process) (r : JsValue + unit)
| EvWaitForPort (p : Process) (port timeout : Z) (r : JsValue + unit)
| EvGetLogs (p : Process) (r : JsValue + Logs)
| EvFindExisting (r : option Process)
| EvMountR2 (r : JsValue + unit)
| EvWaitForProcess (p : Process) (timeout : Z) (r : JsValue + unit)
| EvSetTimeout (ms : Z).

(** The machine the asynchronous code runs on. *)
Record Machine (W : Type) : Type := mkMachine {
  world : W;
  clock : Z;
  stateRef : GatewayStateRef;
  startLock : bool;
  trace : list Event
}.

Arguments mkMachine {W}.
Arguments world {W}.
Arguments clock {W}.
Arguments stateRef {W}.
Arguments startLock {W}.
Arguments trace {W}.

(** How a run of asynchronous code ends: the promise resolves, rejects, or
    never settles. *)
Inductive Outcome (A : Type) : Type :=
| Returned (a : A)
| Threw (e : JsValue)
| Pending.

Arguments Returned {A}.
Arguments Threw {A}.
Arguments Pending {A}.

Definition M (W A : Type) : Type := Machine W -> Outcome A * Machine W.

Section Monad.
Context {W : Type}.

Definition ret {A} (a : A) : M W A := fun m => (Returned a, m).

Definition bind {A B} (c : M W A) (k : A -> M W B) : M W B :=
  fun m =>
    match c m with
    | (Returned a, m') => k a m'
    | (Threw e, m') => (Threw e, m')
    | (Pending, m') => (Pending, m')
    end.

Definition throw {A} (e : JsValue) : M W A := fun m => (Threw e, m).

Definition pending {A} : M W A := fun m => (Pending, m).

(** [try { c } catch (e) { h e }] *)
Definition tryCatch {A} (c : M W A) (h : JsValue -> M W A) : M W A :=
  fun m =>
    match c m with
    | (Threw e, m') => h e m'
    | r => r
    end.

(** [try { c } finally { f }], for a finaliser that cannot throw. *)
Definition tryFinally {A} (c : M W A) (f : Machine W -> Machine W) : M W A :=
  fun m => let (r, m') := c m in (r, f m').

(** [Date.now()] *)
Definition dateNow : M W Z := fun m => (Returned (clock m), m).

Definition getRef : M W GatewayStateRef := fun m => (Returned (stateRef m), m).

Definition modifyRef (f : GatewayStateRef -> GatewayStateRef) : M W unit :=
  fun m =>
    (Returned tt,
     mkMachine (world m) (clock m) (f (stateRef m)) (startLock m) (trace m)).

Definition setLock (b : bool) (m : Machine W) : Machine W :=
  mkMachine (world m) (clock m) (stateRef m) b (trace m).

(** The machine after a capability answered. *)
Definition advance (m : Machine W) (w : W) (dt : Z) (ev : Event) : Machine W :=
  mkMachine w (clock m + dt) (stateRef m) (startLock m) (trace m ++ [ev]).

(** [await] of a capability call. *)
Definition call {A} (c : Cap W A) (ev : (JsValue + A) -> Event) : M W A :=
  fun m =>
    match c (world m) with
    | (w, dt, r) =>
        let m' := advance m w (Z.of_N dt) (ev r) in
        match r with
        | inl e => (Threw e, m')
        | inr a => (Returned a, m')
        end
    end.

(** [await new Promise((r) => setTimeout(r, ms))] *)
Definition sleep {E} (host : Host W E) (ms : Z) : M W unit :=
  fun m =>
    match timerLateness host ms (world m) with
    | (w, late) => (Returned tt, advance m w (ms + Z.of_N late) (EvSetTimeout ms))
    end.

(** [for (const x of l) { body x }] *)
Fixpoint forOf {A} (l : list A) (body : A -> M W unit) : M W unit :=
  match l with
  | [] => ret tt
  | x :: r => bind (body x) (fun _ => forOf r body)
  end.
End Monad.

(** [m'] comes after [m] by capability calls [evs] that left the cached
    state and the lock slot as they were; the clock never runs back. *)
Definition undisturbed {W} (m m' : Machine W) (evs : list Event) : Prop :=
  stateRef m' = stateRef m /\ startLock m' = startLock m /\
  clock m <= clock m' /\ trace m' = (trace m ++ evs)%list.

(** The same without a promise about the cached state. *)
Definition follows {W} (m m' : Machine W) (evs : list Event) : Prop :=
  startLock m' = startLock m /\ clock m <= clock m' /\
  trace m' = (trace m ++ evs)%list.

(** What [Promise.race([request, timer])] settles with, and after how
    long, when the request settles with [r] after [dt] milliseconds and the
    timer, armed for [limit] milliseconds right after the request was
    issued, fires [late] milliseconds late: the request wins when it
    settles no later than the timer fires (it was issued first, so it also
    wins a tie); otherwise the race rejects with the error of the timer. *)
Definition raced (limit : Z) (dt late : N) (r : JsValue + Z)
    : N * (JsValue + Z) :=
  if Z.of_N dt <=? limit + Z.of_N late then (dt, r)
  else (Z.to_N (limit + Z.of_N late), inl (JsError "health check timeout")).

(** What the probe of part_000 makes of what the race settled with: a
    response with a status from 200 to 499. *)
Definition strictVerdict (r : JsValue + Z) : bool :=
  match r with
  | inr code => (200 <=? code) && (code <? 500)
  | inl _ => false
  end.

(** What the probe of lifecycle.ts makes of it: any response counts. *)
Definition looseVerdict (r : JsValue + Z) : bool :=
  match r with
  | inr code => 0 <? code
  | inl _ => false
  end.

(** The trace of [m] ends with the events [suffix]. *)
Definition endsWith {W} (m : Machine W) (suffix : list Event) : Prop :=
  exists before, trace m = (before ++ suffix)%list.

(** How a fresh start can fail, read off the end of the trace: the mount
    raised [e], the spawn raised [e], or the spawned process [p] did not
    open its port, the wait raising [e], and its logs were asked for. *)
Inductive StartFailure {W E} (host : Host W E) (e : JsValue) (m : Machine W)
    : Prop :=
| MountFailed :
    endsWith m [EvMountR2 (inl e)] -> StartFailure host e m
| SpawnFailed envo :
    endsWith m [EvStartProcess "/usr/local/bin/start-moltbot.sh" envo (inl e)] ->
    StartFailure host e m
| PortWaitFailed envo p logs :
    endsWith m [EvStartProcess "/usr/local/bin/start-moltbot.sh" envo (inr p);
                EvWaitForPort p (MOLTBOT_PORT host) (STARTUP_TIMEOUT_MS host) (inl e);
                EvGetLogs p logs] ->
    gatewayProcessId (stateRef m) = Some (proc_id p) ->
    StartFailure host e m.

(** The run in which the probe finds the gateway healthy and neither
    search for its process finds one. *)
Definition healthyButUnknown (evs : list Event) : Prop :=
  exists url port dt code,
    evs = [EvContainerFetch url port dt (inr code); EvFindExisting None;
           EvSetTimeout 300; EvFindExisting None].

(** A shell command handed to [startProcess] by an event. *)
Definition commandOf (ev : Event) : option string :=
  match ev with
  | EvStartProcess command _ _ => Some command
  | _ => None
  end.

Declare Scope js_scope.
Delimit Scope js_scope with js.
Notation "x <- c ;; k" := (bind c (fun x => k))
  (at level 61, c at next level, right associativity) : js_scope.
Notation "c ;; k" := (bind c (fun _ => k))
  (at level 61, right associativity) : js_scope.
Open Scope js_scope.

(* ===================================================================== *)
(** * Capability calls as monadic actions *)
(* ===================================================================== *)

Section Calls.
Context {W MoltbotEnv : Type} (host : Host W MoltbotEnv).

Definition doContainerFetch (url : string) (port : Z) : M W Z :=
  fun m =>
    match containerFetch host url port (world m) with
    | (w, dt, r) =>
        let m' := advance m w (Z.of_N dt) (EvContainerFetch url port dt r) in
        match r with
        | inl e => (Threw e, m')
        | inr a => (Returned a, m')
        end
    end.

(** [Promise.race([containerFetch(..), timeout(limit)])]: the request is
    issued, then the timer is armed; the await ends with what [raced]
    tells, and the entry of the trace records that outcome and the time it
    took. *)
Definition raceContainerFetch (url : string) (port limit : Z) : M W Z :=
  fun m =>
    match containerFetch host url port (world m) with
    | (w, dt, r) =>
        match timerLateness host limit w with
        | (w', late) =>
            match raced limit dt late r with
            | (dt', r') =>
                let m' :=
                  advance m w' (Z.of_N dt') (EvContainerFetch url port dt' r') in
                match r' with
                | inl e => (Threw e, m')
                | inr a => (Returned a, m')
                end
            end
        end
    end.

Definition doStartProcess (command : string)
    (env : option (list (string * string))) : M W Process :=
  call (startProcess host command env) (EvStartProcess command env).

Definition doListProcesses : M W (list Process) :=
  call (listProcesses host) EvListProcesses.

Definition doKill (p : Process) : M W unit :=
  call (kill host p) (EvKill p).

Definition doWaitForPort (p : Process) (port timeout : Z) : M W unit :=
  call (waitForPort host p port timeout) (EvWaitForPort p port timeout).

Definition doGetLogs (p : Process) : M W Logs :=
  call (getLogs host p) (EvGetLogs p).

Definition doMountR2Storage (env : MoltbotEnv) : M W unit :=
  call (mountR2Storage host env) EvMountR2.

Definition doWaitForProcess (p : Process) (timeout : Z) : M W unit :=
  call (waitForProcess host p timeout) (EvWaitForProcess p timeout).

Definition doFindExistingMoltbotProcess : M W (option Process) :=
  fun m =>
    match findExistingMoltbotProcess host (world m) with
    | (w, dt, r) => (Returned r, advance m w (Z.of_N dt) (EvFindExisting r))
    end.

Definition GATEWAY_WS_URL : string := "ws://localhost:18789".
Definition CLAWDBOT_DATA_DIR : string := "/root/.clawdbot".
Definition STOP_GRACEFUL_TIMEOUT_MS : Z := 10000.

Definition isLive (p : Process) : bool :=
  String.eqb (proc_status p) "running" || String.eqb (proc_status p) "starting".

(** [stopGateway], layer 1: graceful stop via the CLI. *)
Definition stopCommand : string := "clawdbot gateway stop --url " ++ GATEWAY_WS_URL.

Definition gracefulStop : M W unit :=
  tryCatch
    (proc <- doStartProcess stopCommand None ;;
     doWaitForProcess proc STOP_GRACEFUL_TIMEOUT_MS ;;
     logs <- doGetLogs proc ;;
     ret tt)
    (fun _ => ret tt).

(** Layer 2: force kill by process id, [if (processId)]; null and the
    empty string are falsy. *)
Definition forceKill (processId : option string) : M W unit :=
  match processId with
  | Some (String c r as pid) =>
      tryCatch
        (processes <- doListProcesses ;;
         match find (fun p => String.eqb (proc_id p) pid) processes with
         | Some proc => if isLive proc then doKill proc else ret tt
         | None => ret tt
         end)
        (fun _ => ret tt)
  | _ => ret tt
  end.

(** Layer 3: find any gateway process and kill it. *)
Definition sweepKill : M W unit :=
  existing <- doFindExistingMoltbotProcess ;;
  match existing with
  | Some p => tryCatch (doKill p) (fun _ => ret tt)
  | None => ret tt
  end.

(** [stopGateway]: the three numbered blocks in order; the text of this
    function is the same in both lifecycle files. *)
Definition stopGateway (processId : option string) : M W unit :=
  gracefulStop ;;
  forceKill processId ;;
  sweepKill.

Definition startCommand : string := "/usr/local/bin/start-moltbot.sh".

(** [Object.keys(envVars).length > 0 ? envVars : undefined] *)
Definition envOption (envVars : list (string * string))
    : option (list (string * string)) :=
  match envVars with
  | [] => None
  | _ => Some envVars
  end.

(** [`Moltbot gateway failed to start. Stderr: ${logs.stderr || '(empty)'}`] *)
Definition startFailureMessage (logs : Logs) : string :=
  "Moltbot gateway failed to start. Stderr: " ++
  match stderr logs with
  | Some s => strOr s "(empty)"
  | None => "(empty)"
  end.

(** Step "start new gateway" of [ensureGatewayRunningLogic]; the text of
    this part is the same in both lifecycle files. *)
Definition startNewGateway (env : MoltbotEnv) : M W unit :=
  now <- dateNow ;;
  modifyRef (set_lastGatewayStartAttempt now) ;;
  let envVars := buildEnvVars host env in
  process <-
    tryCatch
      (p <- doStartProcess startCommand (envOption envVars) ;;
       modifyRef (set_gatewayProcessId (Some (proc_id p))) ;;
       ret p)
      (fun startErr => throw startErr) ;;
  tryCatch
    (doWaitForPort process (MOLTBOT_PORT host) (STARTUP_TIMEOUT_MS host) ;;
     modifyRef (set_gatewayReady true) ;;
     now <- dateNow ;;
     modifyRef (set_lastHealthCheck now))
    (fun e =>
       tryCatch
         (logs <- doGetLogs process ;;
          throw (JsError (startFailureMessage logs)))
         (fun logErr => throw e)).

(** Step "existing process might be starting"; the same text in both
    files.  [true] stands for the [return] inside the [try]. *)
Definition adoptExisting : M W bool :=
  existingProcess <- doFindExistingMoltbotProcess ;;
  match existingProcess with
  | Some p =>
      tryCatch
        (doWaitForPort p (MOLTBOT_PORT host) (STARTUP_TIMEOUT_MS host) ;;
         modifyRef (set_gatewayReady true) ;;
         modifyRef (set_gatewayProcessId (Some (proc_id p))) ;;
         now <- dateNow ;;
         modifyRef (set_lastGatewayStartAttempt now) ;;
         now <- dateNow ;;
         modifyRef (set_lastHealthCheck now) ;;
         ret true)
        (fun e =>
           tryCatch (doKill p) (fun killErr => ret tt) ;;
           ret false)
  | None => ret false
  end.
End Calls.

(* ===================================================================== *)
(** * src/gateway/lifecycle.ts *)
(* ===================================================================== *)

Module Lifecycle.
Section Defs.
Context {W MoltbotEnv : Type} (host : Host W MoltbotEnv) (env : MoltbotEnv).

Definition PORT_FREE_WAIT_MS : Z := 3000.

Definition healthUrl : string :=
  "http://localhost:" ++ showZ (MOLTBOT_PORT host) ++ "/".

(** Any response, 4xx and 5xx included, means the gateway is listening. *)
Definition isGatewayHealthy : M W bool :=
  tryCatch
    (res <- doContainerFetch host healthUrl (MOLTBOT_PORT host) ;;
     ret (0 <? res))
    (fun _ => ret false).

Definition clearCommand : string :=
  "rm -f /tmp/clawdbot-gateway.lock " ++ dq ++ CLAWDBOT_DATA_DIR ++ "/gateway.lock" ++ dq
  ++ " " ++ CLAWDBOT_DATA_DIR ++ "/*.lock 2>/dev/null || true".

Definition clearLockFiles : M W unit :=
  tryCatch
    (proc <- doStartProcess host clearCommand None ;;
     doWaitForProcess host proc 5000)
    (fun _ => ret tt).

(** The [while (Date.now() < deadline)] loop, by fuel. *)
Fixpoint portFreeLoop (fuel : nat) (deadline : Z) : M W unit :=
  match fuel with
  | O => pending
  | S fuel' =>
      now <- dateNow ;;
      if now <? deadline then
        healthy <- isGatewayHealthy ;;
        if negb healthy then ret tt
        else sleep host 1000 ;; portFreeLoop fuel' deadline
      else ret tt
  end.

(** Enough fuel for the loop: fifteen polls one second apart and the
    test that ends it (see [Lifecycle_waitForPortFree_total]). *)
Definition portFreeFuel : nat := 16.

Definition waitForPortFree : M W unit :=
  sleep host PORT_FREE_WAIT_MS ;;
  now <- dateNow ;;
  portFreeLoop portFreeFuel (now + 15000).

Definition ensureGatewayRunningLogic : M W unit :=
  st <- getRef ;;
  (* 1) fast path: cached ready *)
  if gatewayReady st then ret tt
  else
    (* 2) lightweight health check before starting *)
    healthy <- isGatewayHealthy ;;
    if healthy then
      modifyRef (set_gatewayReady true) ;;
      now <- dateNow ;;
      modifyRef (set_lastHealthCheck now) ;;
      existing <- doFindExistingMoltbotProcess host ;;
      match existing with
      | Some p => modifyRef (set_gatewayProcessId (Some (proc_id p)))
      | None => ret tt
      end
    else
      (* 3) existing process might be starting *)
      adopted <- adoptExisting host ;;
      if adopted then ret tt
      else
        (* 4) mount R2 *)
        doMountR2Storage host env ;;
        (* 5) start new gateway *)
        startNewGateway host env.

Definition restartGatewayLogic : M W unit :=
  st <- getRef ;;
  let processId := gatewayProcessId st in
  stopGateway host processId ;;
  modifyRef (set_gatewayProcessId None) ;;
  modifyRef (set_gatewayReady false) ;;
  clearLockFiles ;;
  waitForPortFree ;;
  ensureGatewayRunningLogic.
End Defs.
End Lifecycle.

(* ===================================================================== *)
(** * src/unnamed/part_000: lifecycle module and GatewayState object *)
(* ===================================================================== *)

(** Body of a response, before [JSON.stringify].  A timestamp that the
    source prints with [toISOString] is kept as its millisecond value. *)
Inductive Body : Type :=
| BodyOk (gatewayReady : bool) (processId : option string)
| BodyError (error : string)
| BodyState (gatewayReady : bool) (gatewayProcessId : option string)
    (lastGatewayStartAttempt lastHealthCheck : option Z).

Record Response : Type := mkResponse {
  status : Z;
  body : Body
}.

Module Part000.
Section Defs.
Context {W MoltbotEnv : Type} (host : Host W MoltbotEnv) (env : MoltbotEnv).

Definition GATEWAY_LOCK_PATHS : list string :=
  [ "/tmp/clawdbot-gateway.lock"; CLAWDBOT_DATA_DIR ++ "/gateway.lock" ].
Definition HEALTH_CHECK_TIMEOUT_MS : Z := 500.
Definition PORT_FREE_POLL_MS : Z := 500.
Definition PORT_FREE_DEADLINE_MS : Z := 15000.

Definition healthUrl : string :=
  "http://localhost:" ++ showZ (MOLTBOT_PORT host) ++ "/".

(** Connection succeeded, status not 5xx, and within timeout. *)
Definition isGatewayHealthy : M W bool :=
  tryCatch
    (res <- raceContainerFetch host healthUrl (MOLTBOT_PORT host)
              HEALTH_CHECK_TIMEOUT_MS ;;
     ret ((200 <=? res) && (res <? 500)))
    (fun _ => ret false).

Definition testCommand (lockPath : string) : string :=
  "test -f " ++ dq ++ lockPath ++ dq ++ " && echo " ++ dq ++ lockPath ++ dq
  ++ " || true".

Definition rmCommand (lockPath : string) : string :=
  "rm -f " ++ dq ++ lockPath ++ dq.

(** [logs.stdout?.trim() === lockPath] *)
Definition echoed (logs : Logs) (lockPath : string) : bool :=
  match stdout logs with
  | Some s => String.eqb (trim s) lockPath
  | None => false
  end.

(** The body of the [for] loop of [clearLockFiles]. *)
Definition clearOne (lockPath : string) : M W unit :=
  proc <- doStartProcess host (testCommand lockPath) None ;;
  doWaitForProcess host proc 3000 ;;
  logs <- doGetLogs host proc ;;
  if echoed logs lockPath then
    rmProc <- doStartProcess host (rmCommand lockPath) None ;;
    doWaitForProcess host rmProc 3000
  else ret tt.

Definition clearLockFiles : M W unit :=
  tryCatch (forOf GATEWAY_LOCK_PATHS clearOne) (fun _ => ret tt).

(** The [while (Date.now() < deadline)] loop, by fuel. *)
Fixpoint portFreeLoop (fuel : nat) (deadline : Z) : M W unit :=
  match fuel with
  | O => pending
  | S fuel' =>
      now <- dateNow ;;
      if now <? deadline then
        healthy <- isGatewayHealthy ;;
        if negb healthy then ret tt
        else sleep host PORT_FREE_POLL_MS ;; portFreeLoop fuel' deadline
      else ret tt
  end.

(** Enough fuel for the loop: thirty polls half a second apart and the
    test that ends it (see [Part000_waitForPortFree_total]). *)
Definition portFreeFuel : nat := 31.

Definition waitForPortFree : M W unit :=
  now <- dateNow ;;
  portFreeLoop portFreeFuel (now + PORT_FREE_DEADLINE_MS).

Definition ensureGatewayRunningLogic : M W unit :=
  st <- getRef ;;
  (* 1) fast path: cached ready *)
  if gatewayReady st then ret tt
  else
    (* 2) health check before starting *)
    healthy <- isGatewayHealthy ;;
    if healthy then
      modifyRef (set_gatewayReady true) ;;
      now <- dateNow ;;
      modifyRef (set_lastHealthCheck now) ;;
      first <- doFindExistingMoltbotProcess host ;;
      existing <-
        match first with
        | None => sleep host 300 ;; doFindExistingMoltbotProcess host
        | Some _ => ret first
        end ;;
      match existing with
      | Some p =>
          modifyRef (set_gatewayProcessId (Some (proc_id p))) ;;
          now <- dateNow ;;
          modifyRef (set_lastGatewayStartAttempt now)
      | None => ret tt
      end
    else
      (* 3) existing process might be starting *)
      adopted <- adoptExisting host ;;
      if adopted then ret tt
      else
        (* 4) port in use: kill any gateway and free the port *)
        occupied <- isGatewayHealthy ;;
        (if occupied then
           st <- getRef ;;
           stopGateway host (gatewayProcessId st) ;;
           modifyRef (set_gatewayProcessId None) ;;
           waitForPortFree
         else ret tt) ;;
        (* 5) mount R2 *)
        doMountR2Storage host env ;;
        (* 6) start new gateway *)
        startNewGateway host env.

Definition restartGatewayLogic : M W unit :=
  st <- getRef ;;
  let processId := gatewayProcessId st in
  stopGateway host processId ;;
  modifyRef (set_gatewayProcessId None) ;;
  modifyRef (set_gatewayReady false) ;;
  clearLockFiles ;;
  waitForPortFree ;;
  ensureGatewayRunningLogic.

(** ** class GatewayState *)

(** [runWithLock] for one call at a time: a call that finds the slot
    occupied waits for a holder that, with no other call in flight,
    never comes; otherwise the operation runs with the slot installed and
    the [finally] clears it.  Interleavings of several calls are the
    subject of [LockModel]. *)
Definition runWithLock {A} (fn : M W A) : M W A :=
  fun m =>
    if startLock m then (Pending, m)
    else tryFinally fn (setLock false) (setLock true m).

Definition okResponse : M W Response :=
  st <- getRef ;;
  ret (mkResponse 200 (BodyOk (gatewayReady st) (gatewayProcessId st))).

Definition errorResponse (e : JsValue) : M W Response :=
  ret (mkResponse 503 (BodyError (errorMessage e))).

Definition handleEnsure : M W Response :=
  tryCatch
    (runWithLock ensureGatewayRunningLogic ;; okResponse)
    errorResponse.

Definition handleRestart : M W Response :=
  tryCatch
    (runWithLock restartGatewayLogic ;; okResponse)
    errorResponse.

(** [t ? new Date(t).toISOString() : null] *)
Definition stamp (t : Z) : option Z := if t =? 0 then None else Some t.

Definition handleGetState : M W Response :=
  st <- getRef ;;
  ret (mkResponse 200
         (BodyState (gatewayReady st) (gatewayProcessId st)
            (stamp (lastGatewayStartAttempt st)) (stamp (lastHealthCheck st)))).

(** [url.pathname.replace(/^\/+/, '') || 'ensure'] *)
Definition routeOf (pathname : string) : string :=
  strOr (stripLeadingSlashes pathname) "ensure".

Definition notFound : Response := mkResponse 404 (BodyError "Not found").

Definition fetch (pathname : string) : M W Response :=
  let path := routeOf pathname in
  if String.eqb path "ensure" then handleEnsure
  else if String.eqb path "restart" then handleRestart
  else if String.eqb path "state" then handleGetState
  else ret notFound.
End Defs.
End Part000.

(** An event that starts no command, or starts the test or the removal of
    one of [paths]. *)
Definition touchesOnly (paths : list string) (ev : Event) : Prop :=
  match commandOf ev with
  | Some c =>
      exists p, In p paths /\ (c = Part000.testCommand p \/ c = Part000.rmCommand p)
  | None => True
  end.

(** A shell command with a glob star in it. *)
Definition hasWildcard (command : string) : bool := includes command "*".

Definition isFetch (ev : Event) : Prop :=
  match ev with
  | EvContainerFetch _ _ _ _ => True
  | _ => False
  end.

(** What a run of [ensureGatewayRunningLogic] of part_000, from a state
    that is not ready, comes to: ready with a process id, unless the probe
    was healthy and no process was found to name; or rejected, not ready,
    with the failure at the end of the trace. *)
Definition ensured {W E} (host : Host W E) (m : Machine W) (o : Outcome unit)
    (m' : Machine W) (evs : list Event) : Prop :=
  match o with
  | Returned _ =>
      gatewayReady (stateRef m') = true /\
      (gatewayProcessId (stateRef m') = None ->
       gatewayProcessId (stateRef m) = None /\ healthyButUnknown evs)
  | Threw e =>
      gatewayReady (stateRef m') = false /\ StartFailure host e m'
  | Pending => False
  end.

(** The machine on which [restartGatewayLogic] goes on after the stop: the
    cached process id and the ready flag are cleared. *)
Definition cleared {W} (m : Machine W) : Machine W :=
  mkMachine (world m) (clock m)
    (set_gatewayReady false (set_gatewayProcessId None (stateRef m)))
    (startLock m) (trace m).

(* ===================================================================== *)
(** * The promise slot of runWithLock under concurrent calls *)
(* ===================================================================== *)

(** JavaScript runs one task at a time and switches only at an [await].
    A call of [runWithLock] therefore moves in atomic steps:

    - issued, or woken from [await this.startLock] by a fulfilled promise,
      it tests [this.startLock]: occupied, it awaits the installed
      promise; empty, it starts the operation and installs its own promise
      (the operation cannot settle before the assignment, since
      [await fn()] yields first);
    - woken by a rejected promise, the [await] throws and the call rejects
      without running its operation;
    - when its operation settles, the [finally] empties the slot and the
      promise settles with the operation's result.

    The operation itself is opaque here: when and how it settles is up to
    the schedule. *)
Module LockModel.

Inductive Result : Type := Fulfilled | Rejected.

Inductive Call : Type :=
| NotIssued
| Awaiting (holder : nat)
| Running
| Settled (r : Result).

(** [startLock] holds the promise of a call, named by the call. *)
Record Owner : Type := mkOwner {
  slot : option nat;
  calls : nat -> Call
}.

Definition initial : Owner := mkOwner None (fun _ => NotIssued).

Definition upd (f : nat -> Call) (i : nat) (c : Call) : nat -> Call :=
  fun j => if Nat.eqb j i then c else f j.

Inductive Action : Type :=
| Issue (i : nat)
| Wake (i : nat)
| Finish (i : nat) (r : Result).

(** The test of the [while] loop and what follows it. *)
Definition enter (o : Owner) (i : nat) : Owner :=
  match slot o with
  | Some p => mkOwner (slot o) (upd (calls o) i (Awaiting p))
  | None => mkOwner (Some i) (upd (calls o) i Running)
  end.

Definition step (o : Owner) (a : Action) : option Owner :=
  match a with
  | Issue i =>
      match calls o i with
      | NotIssued => Some (enter o i)
      | _ => None
      end
  | Wake i =>
      match calls o i with
      | Awaiting p =>
          match calls o p with
          | Settled Fulfilled => Some (enter o i)
          | Settled Rejected =>
              Some (mkOwner (slot o) (upd (calls o) i (Settled Rejected)))
          | _ => None
          end
      | _ => None
      end
  | Finish i r =>
      match calls o i with
      | Running => Some (mkOwner None (upd (calls o) i (Settled r)))
      | _ => None
      end
  end.

Fixpoint run (o : Owner) (acts : list Action) : option Owner :=
  match acts with
  | [] => Some o
  | a :: rest =>
      match step o a with
      | Some o' => run o' rest
      | None => None
      end
  end.

Inductive reachable : Owner -> Prop :=
| reach_initial : reachable initial
| reach_step o a o' : reachable o -> step o a = Some o' -> reachable o'.

(** The slot names exactly the running call, and whoever waits, waits
    for a call that runs or has settled. *)
Definition coherent (o : Owner) : Prop :=
  (forall i, slot o = Some i <-> calls o i = Running) /\
  (forall i p, calls o i = Awaiting p ->
     calls o p = Running \/ exists r, calls o p = Settled r).

(** Two calls issued together: call 0 runs, call 1 waits for it. *)
Definition busy : Owner := enter (enter initial 0%nat) 1%nat.

End LockModel.

(* ===================================================================== *)
(** * Scripted platforms for concrete runs *)
(* ===================================================================== *)

(** A platform that gives the same answer to every call of a capability;
    every call takes [latency] milliseconds. *)
Record Script : Type := mkScript {
  onFetch : JsValue + Z;
  onStart : JsValue + Process;
  onList : JsValue + list Process;
  onKill : JsValue + unit;
  onPort : JsValue + unit;
  onLogs : JsValue + Logs;
  onMount : JsValue + unit;
  onFind : option Process;
  onWaitProcess : JsValue + unit;
  latency : N
}.

Definition scripted (sc : Script) : Host unit unit :=
  {| containerFetch := fun _ _ w => (w, latency sc, onFetch sc);
     startProcess := fun _ _ w => (w, latency sc, onStart sc);
     listProcesses := fun w => (w, latency sc, onList sc);
     kill := fun _ w => (w, latency sc, onKill sc);
     waitForPort := fun _ _ _ w => (w, latency sc, onPort sc);
     getLogs := fun _ w => (w, latency sc, onLogs sc);
     timerLateness := fun _ w => (w, 0%N);
     MOLTBOT_PORT := 18789;
     STARTUP_TIMEOUT_MS := 180000;
     buildEnvVars := fun _ => [];
     mountR2Storage := fun _ w => (w, latency sc, onMount sc);
     findExistingMoltbotProcess := fun w => (w, latency sc, onFind sc);
     waitForProcess := fun _ _ w => (w, latency sc, onWaitProcess sc) |}.

Definition gw1 : Process := mkProcess "proc-1" "starting".

(** Nothing listens, nothing is found, the spawned process never opens its
    port, and its logs show a boot error. *)
Definition bootFailure : Script :=
  {| onFetch := inl (JsError "connection refused");
     onStart := inr gw1;
     onList := inr [];
     onKill := inr tt;
     onPort := inl (JsError "waitForPort timeout");
     onLogs := inr (mkLogs None (Some "boot error: disk full"));
     onMount := inr tt;
     onFind := None;
     onWaitProcess := inr tt;
     latency := 5%N |}.

(** The port answers with [code]; process discovery finds nothing. *)
Definition answering (code : Z) : Script :=
  {| onFetch := inr code;
     onStart := inr gw1;
     onList := inr [];
     onKill := inr tt;
     onPort := inr tt;
     onLogs := inr (mkLogs None None);
     onMount := inr tt;
     onFind := None;
     onWaitProcess := inr tt;
     latency := 5%N |}.

(** A gateway runs and answers, and every kill raises. *)
Definition unkillable : Script :=
  {| onFetch := inr 200;
     onStart := inr gw1;
     onList := inr [mkProcess "proc-0" "running"];
     onKill := inl (JsError "kill failed");
     onPort := inr tt;
     onLogs := inr (mkLogs (Some "stopped") None);
     onMount := inr tt;
     onFind := Some (mkProcess "proc-0" "running");
     onWaitProcess := inr tt;
     latency := 5%N |}.

(** A cold start that succeeds. *)
Definition coldStart : Script :=
  {| onFetch := inl (JsError "connection refused");
     onStart := inr gw1;
     onList := inr [];
     onKill := inr tt;
     onPort := inr tt;
     onLogs := inr (mkLogs None None);
     onMount := inr tt;
     onFind := None;
     onWaitProcess := inr tt;
     latency := 5%N |}.

(** The port answers 404 exactly 500 ms after the request; timers are
    punctual. *)
Definition onTheDot : Script :=
  {| onFetch := inr 404;
     onStart := inr gw1;
     onList := inr [];
     onKill := inr tt;
     onPort := inr tt;
     onLogs := inr (mkLogs None None);
     onMount := inr tt;
     onFind := None;
     onWaitProcess := inr tt;
     latency := 500%N |}.

(** The machine of a freshly constructed [GatewayState] at time [t]. *)
Definition boot (t : Z) : Machine unit := mkMachine tt t initialState false [].

Definition machineWith (st : GatewayStateRef) : Machine unit :=
  mkMachine tt 1000 st false [].

(* ===================================================================== *)
(** * src/gateway/sandbox-options.ts *)
(* ===================================================================== *)

(** [String.prototype.toLowerCase], on ASCII text. *)
Definition lowerAscii (c : ascii) : ascii :=
  let n := nat_of_ascii c in
  if ((65 <=? n)%nat && (n <=? 90)%nat)%bool then ascii_of_nat (n + 32) else c.

Fixpoint toLowerCase (s : string) : string :=
  match s with
  | String c r => String (lowerAscii c) (toLowerCase r)
  | EmptyString => EmptyString
  end.

(** The field of [MoltbotEnv] that [buildSandboxOptions] reads. *)
Record SleepEnv : Type := mkSleepEnv {
  SANDBOX_SLEEP_AFTER : option string
}.

(** [SandboxOptions], with the two fields the function sets. *)
Record SandboxOptions : Type := mkOptions {
  keepAlive : option bool;
  sleepAfter : option string
}.

Definition buildSandboxOptions (env : SleepEnv) : SandboxOptions :=
  let sleepAfter :=
    strOr (match SANDBOX_SLEEP_AFTER env with
           | Some s => toLowerCase s
           | None => EmptyString
           end) "never" in
  if String.eqb sleepAfter "never" then mkOptions (Some true) None
  else mkOptions None (Some sleepAfter).

(* ===================================================================== *)
(** * Vocabulary for runs of the engine *)
(* ===================================================================== *)

Definition isFetchb (ev : Event) : bool :=
  match ev with
  | EvContainerFetch _ _ _ _ => true
  | _ => false
  end.

(** Number of health probes in a stretch of the trace. *)
Definition probes (evs : list Event) : nat := List.length (filter isFetchb evs).

(** The calls of the force-kill layer of [stopGateway] for a cached id
    [pid]: the listing raised; or no listed process has that id; or the
    first listed process that has it is neither running nor starting; or
    that process is live and was sent the one kill. *)
Inductive ForceKillCalls (pid : string) : list Event -> Prop :=
| ListingRaised e :
    ForceKillCalls pid [EvListProcesses (inl e)]
| NotListed ps :
    find (fun p => String.eqb (proc_id p) pid) ps = None ->
    ForceKillCalls pid [EvListProcesses (inr ps)]
| NotLive ps p :
    find (fun p => String.eqb (proc_id p) pid) ps = Some p ->
    isLive p = false ->
    ForceKillCalls pid [EvListProcesses (inr ps)]
| KillSent ps p k :
    find (fun p => String.eqb (proc_id p) pid) ps = Some p ->
    In p ps -> proc_id p = pid -> isLive p = true ->
    ForceKillCalls pid [EvListProcesses (inr ps); EvKill p k].

(** [n] slashes. *)
Fixpoint slashes (n : nat) : string :=
  match n with
  | O => EmptyString
  | S k => String "/"%char (slashes k)
  end.

(** Where the process named in the cached state after a port wait came
    from: the search by signature, or the spawn of the start script. *)
Definition introduces (p : Process) (ev : Event) : Prop :=
  ev = EvFindExisting (Some p) \/
  exists envo, ev = EvStartProcess "/usr/local/bin/start-moltbot.sh" envo (inr p).

(** Both timestamps of the cached state lie in the past of the clock. *)
Definition stampsPast {W} (m : Machine W) : Prop :=
  lastHealthCheck (stateRef m) <= clock m /\
  lastGatewayStartAttempt (stateRef m) <= clock m.

(** One round of the loop of [clearLockFiles] of part_000 for the path
    [p], as the calls it made; the flag tells whether the round finished,
    so that the loop goes on, or raised. *)
Inductive Round (p : string) : bool -> list Event -> Prop :=
| TestNotStarted e :
    Round p false [EvStartProcess (Part000.testCommand p) None (inl e)]
| TestNotAwaited q e :
    Round p false [EvStartProcess (Part000.testCommand p) None (inr q);
                   EvWaitForProcess q 3000 (inl e)]
| LogsUnavailable q e :
    Round p false [EvStartProcess (Part000.testCommand p) None (inr q);
                   EvWaitForProcess q 3000 (inr tt);
                   EvGetLogs q (inl e)]
| LockAbsent q logs :
    Part000.echoed logs p = false ->
    Round p true [EvStartProcess (Part000.testCommand p) None (inr q);
                  EvWaitForProcess q 3000 (inr tt);
                  EvGetLogs q (inr logs)]
| RemovalNotStarted q logs e :
    Part000.echoed logs p = true ->
    Round p false [EvStartProcess (Part000.testCommand p) None (inr q);
                   EvWaitForProcess q 3000 (inr tt);
                   EvGetLogs q (inr logs);
                   EvStartProcess (Part000.rmCommand p) None (inl e)]
| RemovalNotAwaited q logs q' e :
    Part000.echoed logs p = true ->
    Round p false [EvStartProcess (Part000.testCommand p) None (inr q);
                   EvWaitForProcess q 3000 (inr tt);
                   EvGetLogs q (inr logs);
                   EvStartProcess (Part000.rmCommand p) None (inr q');
                   EvWaitForProcess q' 3000 (inl e)]
| LockRemoved q logs q' :
    Part000.echoed logs p = true ->
    Round p true [EvStartProcess (Part000.testCommand p) None (inr q);
                  EvWaitForProcess q 3000 (inr tt);
                  EvGetLogs q (inr logs);
                  EvStartProcess (Part000.rmCommand p) None (inr q');
                  EvWaitForProcess q' 3000 (inr tt)].

(** Steps 4 to 6 of [ensureGatewayRunningLogic] of part_000, the part it
    runs when the probe failed and no existing process could be adopted:
    free the port if something still answers, mount the storage, start a
    new gateway. *)
Definition freshStart {W MoltbotEnv : Type} (host : Host W MoltbotEnv)
    (env : MoltbotEnv) : M W unit :=
  occupied <- Part000.isGatewayHealthy host ;;
  (if occupied then
     st <- getRef ;;
     stopGateway host (gatewayProcessId st) ;;
     modifyRef (set_gatewayProcessId None) ;;
     Part000.waitForPortFree host
   else ret tt) ;;
  doMountR2Storage host env ;;
  startNewGateway host env.

(** What a successful run of the Ensure algorithm leaves, when it ended
    with the port wait of a process: the last two calls are the one that
    introduced the process and its successful port wait, the cached state
    names that process, is ready, and carries the time of the end of the
    call as [lastHealthCheck]. *)
Definition endedByPortWait {W E} (host : Host W E) (m' : Machine W)
    (evs : list Event) : Prop :=
  exists before p src,
    evs = (before ++
           [src;
            EvWaitForPort p (MOLTBOT_PORT host) (STARTUP_TIMEOUT_MS host)
              (inr tt)])%list /\
    introduces p src /\
    gatewayProcessId (stateRef m') = Some (proc_id p) /\
    gatewayReady (stateRef m') = true /\
    lastHealthCheck (stateRef m') = clock m'.

(** What it leaves when the first probe was healthy: after the probe
    there was one search for the process, or, the first finding none, a
    pause of 300 ms and a second search, and nothing else.  [ready] is
    set and [lastHealthCheck] is a time within the call.  When a search
    found a process, [processId] is its id and [lastGatewayStartAttempt]
    the time the call ended; when both found none, both fields are what
    they were. *)
Definition endedByProbe {W} (m m' : Machine W) (rest : list Event) : Prop :=
  gatewayReady (stateRef m') = true /\
  clock m <= lastHealthCheck (stateRef m') <= clock m' /\
  ((exists p,
      (rest = [EvFindExisting (Some p)] \/
       rest = [EvFindExisting None; EvSetTimeout 300; EvFindExisting (Some p)]) /\
      gatewayProcessId (stateRef m') = Some (proc_id p) /\
      lastGatewayStartAttempt (stateRef m') = clock m') \/
   (rest = [EvFindExisting None; EvSetTimeout 300; EvFindExisting None] /\
    gatewayProcessId (stateRef m') = gatewayProcessId (stateRef m) /\
    lastGatewayStartAttempt (stateRef m') = lastGatewayStartAttempt (stateRef m))).

(** The last part of a run of the Ensure algorithm that got as far as
    mounting the storage, as its calls, its outcome and the cached state
    it leaves in [m']: the mount raised, and that value is thrown; the
    spawn raised, and that value is thrown; the spawned process [q] did
    not open its port, its logs were asked for and the call rejects, with
    [processId] naming [q]; or [q] opened its port and the call resolves,
    ready, with [processId] naming [q]. *)
Inductive StartAttempt {W E} (host : Host W E) (env : E) (m' : Machine W)
    : Outcome unit -> list Event -> Prop :=
| MountRaised e :
    gatewayReady (stateRef m') = false ->
    StartAttempt host env m' (Threw e) [EvMountR2 (inl e)]
| SpawnRaised e :
    gatewayReady (stateRef m') = false ->
    StartAttempt host env m' (Threw e)
      [EvMountR2 (inr tt);
       EvStartProcess startCommand (envOption (buildEnvVars host env)) (inl e)]
| PortNeverOpened q e thrown logs :
    gatewayReady (stateRef m') = false ->
    gatewayProcessId (stateRef m') = Some (proc_id q) ->
    StartAttempt host env m' (Threw thrown)
      [EvMountR2 (inr tt);
       EvStartProcess startCommand (envOption (buildEnvVars host env)) (inr q);
       EvWaitForPort q (MOLTBOT_PORT host) (STARTUP_TIMEOUT_MS host) (inl e);
       EvGetLogs q logs]
| GatewayStarted q :
    gatewayReady (stateRef m') = true ->
    gatewayProcessId (stateRef m') = Some (proc_id q) ->
    lastHealthCheck (stateRef m') = clock m' ->
    StartAttempt host env m' (Returned tt)
      [EvMountR2 (inr tt);
       EvStartProcess startCommand (envOption (buildEnvVars host env)) (inr q);
       EvWaitForPort q (MOLTBOT_PORT host) (STARTUP_TIMEOUT_MS host) (inr tt)].

(** Where a failed start failed, read off the end of the trace: at the
    mount, at the spawn, or at the port wait of the spawned process [p],
    whose id the cached state then holds. *)
Inductive FailurePoint {W E} (host : Host W E) (m : Machine W) : Prop :=
| AtMount e :
    endsWith m [EvMountR2 (inl e)] -> FailurePoint host m
| AtSpawn envo e :
    endsWith m [EvStartProcess startCommand envo (inl e)] -> FailurePoint host m
| AtPortWait envo p e logs :
    endsWith m [EvStartProcess startCommand envo (inr p);
                EvWaitForPort p (MOLTBOT_PORT host) (STARTUP_TIMEOUT_MS host) (inl e);
                EvGetLogs p logs] ->
    gatewayProcessId (stateRef m) = Some (proc_id p) ->
    FailurePoint host m.

(** As [bootFailure], with the logs of the process out of reach. *)
Definition bootFailureNoLogs : Script :=
  {| onFetch := inl (JsError "connection refused");
     onStart := inr gw1;
     onList := inr [];
     onKill := inr tt;
     onPort := inl (JsError "waitForPort timeout");
     onLogs := inl (JsError "logs unavailable");
     onMount := inr tt;
     onFind := None;
     onWaitProcess := inr tt;
     latency := 5%N |}.

(** A process is found that never opens its port; nothing answers. *)
Definition stuck : Script :=
  {| onFetch := inl (JsError "connection refused");
     onStart := inr gw1;
     onList := inr [];
     onKill := inl (JsError "kill failed");
     onPort := inl (JsError "waitForPort timeout");
     onLogs := inr (mkLogs None None);
     onMount := inr tt;
     onFind := Some (mkProcess "proc-0" "starting");
     onWaitProcess := inr tt;
     latency := 5%N |}.

(** The answer of the ensure and restart handlers to the outcome [o] of
    the engine, and the cached state [m'] they leave: 200 with
    [gatewayReady: true] and the cached process id when the engine
    resolved, 503 with the message of the very value the engine threw, and
    a state that is not ready, when it rejected. *)
Definition answerMatches {W} (o : Outcome unit) (resp : Response)
    (m' : Machine W) : Prop :=
  match o with
  | Returned _ =>
      resp = mkResponse 200 (BodyOk true (gatewayProcessId (stateRef m'))) /\
      gatewayReady (stateRef m') = true
  | Threw e =>
      resp = mkResponse 503 (BodyError (errorMessage e)) /\
      gatewayReady (stateRef m') = false
  | Pending => False
  end.

(* ===================================================================== *)
(** * Facts about the monad and the trace *)
(* ===================================================================== *)

Lemma undisturbed_refl {W} (m : Machine W) : undisturbed m m [].
Proof.
  unfold undisturbed. rewrite app_nil_r. repeat split; lia.
Qed.

Lemma undisturbed_trans {W} (m1 m2 m3 : Machine W) e1 e2 :
  undisturbed m1 m2 e1 -> undisturbed m2 m3 e2 ->
  undisturbed m1 m3 (e1 ++ e2)%list.
Proof.
  unfold undisturbed. intros (A1 & B1 & C1 & D1) (A2 & B2 & C2 & D2).
  repeat split; try congruence; try lia.
  rewrite D2, D1, app_assoc. reflexivity.
Qed.

Lemma undisturbed_follows {W} (m m' : Machine W) evs :
  undisturbed m m' evs -> follows m m' evs.
Proof. unfold undisturbed, follows. tauto. Qed.

Lemma follows_trans {W} (m1 m2 m3 : Machine W) e1 e2 :
  follows m1 m2 e1 -> follows m2 m3 e2 -> follows m1 m3 (e1 ++ e2)%list.
Proof.
  unfold follows. intros (B1 & C1 & D1) (B2 & C2 & D2).
  repeat split; try congruence; try lia.
  rewrite D2, D1, app_assoc. reflexivity.
Qed.

Lemma bind_returned {W A B} (c : M W A) (k : A -> M W B) m a m' :
  c m = (Returned a, m') -> bind c k m = k a m'.
Proof. unfold bind. intros ->. reflexivity. Qed.

Lemma bind_threw {W A B} (c : M W A) (k : A -> M W B) m e m' :
  c m = (Threw e, m') -> bind c k m = (Threw e, m').
Proof. unfold bind. intros ->. reflexivity. Qed.

Lemma tryCatch_returned {W A} (c : M W A) h m a m' :
  c m = (Returned a, m') -> tryCatch c h m = (Returned a, m').
Proof. unfold tryCatch. intros ->. reflexivity. Qed.

Lemma tryCatch_threw {W A} (c : M W A) h m e m' :
  c m = (Threw e, m') -> tryCatch c h m = h e m'.
Proof. unfold tryCatch. intros ->. reflexivity. Qed.

(** Closes the bookkeeping goals left by a symbolic run. *)
Ltac frame :=
  unfold undisturbed, follows, advance;
  cbn [world clock stateRef startLock trace];
  repeat split; try lia;
  repeat rewrite <- app_assoc; cbn [app]; try reflexivity.

Section Probes.
Context {W MoltbotEnv : Type} (host : Host W MoltbotEnv).

Lemma Part000_isGatewayHealthy_run (m : Machine W) :
  forall w dt r w' late,
    containerFetch host (Part000.healthUrl host) (MOLTBOT_PORT host) (world m)
      = (w, dt, r) ->
    timerLateness host Part000.HEALTH_CHECK_TIMEOUT_MS w = (w', late) ->
    Part000.isGatewayHealthy host m =
      (Returned (strictVerdict (snd (raced 500 dt late r))),
       advance m w' (Z.of_N (fst (raced 500 dt late r)))
         (EvContainerFetch (Part000.healthUrl host) (MOLTBOT_PORT host)
            (fst (raced 500 dt late r)) (snd (raced 500 dt late r)))).
Proof.
  intros w dt r w' late E T.
  unfold Part000.isGatewayHealthy, tryCatch, bind, raceContainerFetch, ret.
  rewrite E, T. change Part000.HEALTH_CHECK_TIMEOUT_MS with 500.
  destruct (raced 500 dt late r) as [dt' [e | code]]; reflexivity.
Qed.

(** The probe of part_000 always resolves, with the verdict on what its
    race settled with; that outcome is its one entry in the trace. *)
Lemma Part000_isGatewayHealthy_probe (m : Machine W) :
  exists w dt r,
    Part000.isGatewayHealthy host m =
      (Returned (strictVerdict r),
       advance m w (Z.of_N dt)
         (EvContainerFetch (Part000.healthUrl host) (MOLTBOT_PORT host) dt r)).
Proof.
  destruct (containerFetch host (Part000.healthUrl host) (MOLTBOT_PORT host)
              (world m)) as [[w dt] r] eqn:E.
  destruct (timerLateness host Part000.HEALTH_CHECK_TIMEOUT_MS w)
    as [w' late] eqn:T.
  rewrite (Part000_isGatewayHealthy_run m w dt r w' late E T).
  do 3 eexists. reflexivity.
Qed.

Lemma Lifecycle_isGatewayHealthy_run (m : Machine W) :
  forall w dt r,
    containerFetch host (Lifecycle.healthUrl host) (MOLTBOT_PORT host) (world m)
      = (w, dt, r) ->
    Lifecycle.isGatewayHealthy host m =
      (Returned (looseVerdict r),
       advance m w (Z.of_N dt)
         (EvContainerFetch (Lifecycle.healthUrl host) (MOLTBOT_PORT host) dt r)).
Proof.
  intros w dt r E.
  unfold Lifecycle.isGatewayHealthy, tryCatch, bind, doContainerFetch, ret,
    looseVerdict.
  rewrite E. destruct r as [e | code]; reflexivity.
Qed.

Lemma Part000_isGatewayHealthy_quiet (m : Machine W) :
  exists b m' ev,
    Part000.isGatewayHealthy host m = (Returned b, m') /\
    undisturbed m m' [ev].
Proof.
  destruct (Part000_isGatewayHealthy_probe m) as (w & dt & r & R).
  rewrite R. do 3 eexists. split; [reflexivity | frame].
Qed.

Lemma Lifecycle_isGatewayHealthy_quiet (m : Machine W) :
  exists b m' ev,
    Lifecycle.isGatewayHealthy host m = (Returned b, m') /\
    undisturbed m m' [ev].
Proof.
  destruct (containerFetch host (Lifecycle.healthUrl host) (MOLTBOT_PORT host)
              (world m)) as [[w dt] r] eqn:E.
  rewrite (Lifecycle_isGatewayHealthy_run m w dt r E).
  do 3 eexists. split; [reflexivity | frame].
Qed.

Lemma sleep_run (ms : Z) (m : Machine W) :
  exists m', sleep host ms m = (Returned tt, m') /\
    stateRef m' = stateRef m /\ startLock m' = startLock m /\
    clock m + ms <= clock m' /\ trace m' = (trace m ++ [EvSetTimeout ms])%list.
Proof.
  unfold sleep. destruct (timerLateness host ms (world m)) as [w late].
  eexists. split; [reflexivity | frame].
Qed.
End Probes.

Section StopFacts.
Context {W MoltbotEnv : Type} (host : Host W MoltbotEnv).

Lemma gracefulStop_quiet (m : Machine W) :
  exists m' r rest,
    gracefulStop host m = (Returned tt, m') /\
    undisturbed m m' (EvStartProcess stopCommand None r :: rest).
Proof.
  unfold gracefulStop, tryCatch, bind, doStartProcess, doWaitForProcess,
    doGetLogs, call, ret.
  destruct (startProcess host stopCommand None (world m)) as [[w1 d1] [e1 | p]];
    simpl.
  - do 3 eexists. split; [reflexivity | frame].
  - destruct (waitForProcess host p STOP_GRACEFUL_TIMEOUT_MS w1)
      as [[w2 d2] [e2 | []]]; simpl.
    + do 3 eexists. split; [reflexivity | frame].
    + destruct (getLogs host p w2) as [[w3 d3] [e3 | logs]]; simpl;
        do 3 eexists; (split; [reflexivity | frame]).
Qed.

Lemma forceKill_quiet (processId : option string) (m : Machine W) :
  exists m' evs,
    forceKill host processId m = (Returned tt, m') /\ undisturbed m m' evs.
Proof.
  unfold forceKill.
  destruct processId as [[| c r] |];
    try (exists m, []; split; [reflexivity | apply undisturbed_refl]).
  unfold tryCatch, bind, doListProcesses, doKill, call, ret.
  destruct (listProcesses host (world m)) as [[w1 d1] [e1 | ps]]; simpl.
  - do 2 eexists. split; [reflexivity | frame].
  - destruct (find _ ps) as [proc |]; simpl.
    + destruct (isLive proc); simpl.
      * destruct (kill host proc w1) as [[w2 d2] [e2 | []]]; simpl;
          do 2 eexists; (split; [reflexivity | frame]).
      * do 2 eexists. split; [reflexivity | frame].
    + do 2 eexists. split; [reflexivity | frame].
Qed.

(** The events of the third layer, from what the search and the kill
    answered. *)
Lemma sweepKill_quiet (m : Machine W) :
  exists m' found rest,
    sweepKill host m = (Returned tt, m') /\
    undisturbed m m' (EvFindExisting found :: rest) /\
    match found with
    | Some p => exists k, rest = [EvKill p k]
    | None => rest = []
    end.
Proof.
  unfold sweepKill, tryCatch, bind, doFindExistingMoltbotProcess, doKill, call,
    ret.
  destruct (findExistingMoltbotProcess host (world m)) as [[w1 d1] [p |]]; simpl.
  - destruct (kill host p w1) as [[w2 d2] [e2 | []]]; simpl;
      eexists; exists (Some p); eexists;
      (split; [reflexivity | split; [frame | eexists; reflexivity]]).
  - exists (advance m w1 (Z.of_N d1) (EvFindExisting None)), None, [].
    split; [reflexivity | split; [frame | reflexivity]].
Qed.

(** [stopGateway] resolves, whatever the capabilities do: its first call
    is the graceful stop command, its signature search is always made,
    and the cached state is not touched. *)
Lemma stopGateway_quiet (processId : option string) (m : Machine W) :
  exists m' r mid found rest,
    stopGateway host processId m = (Returned tt, m') /\
    undisturbed m m'
      (EvStartProcess stopCommand None r :: mid ++ EvFindExisting found :: rest) /\
    match found with
    | Some p => exists k, rest = [EvKill p k]
    | None => rest = []
    end.
Proof.
  unfold stopGateway.
  destruct (gracefulStop_quiet m) as (m1 & r & e1 & R1 & U1).
  destruct (forceKill_quiet processId m1) as (m2 & e2 & R2 & U2).
  destruct (sweepKill_quiet m2) as (m3 & found & e3 & R3 & U3 & K).
  rewrite (bind_returned _ _ _ _ _ R1), (bind_returned _ _ _ _ _ R2), R3.
  exists m3, r, (e1 ++ e2)%list, found, e3.
  split; [reflexivity | split; [| exact K]].
  pose proof (undisturbed_trans _ _ _ _ _ (undisturbed_trans _ _ _ _ _ U1 U2) U3)
    as U.
  simpl in U. exact U.
Qed.
End StopFacts.

Section ClearFacts.
Context {W MoltbotEnv : Type} (host : Host W MoltbotEnv).

Lemma touchesOnly_weaken p paths ev :
  touchesOnly [p] ev -> In p paths -> touchesOnly paths ev.
Proof.
  unfold touchesOnly. destruct (commandOf ev) as [c |]; [| trivial].
  intros (q & [<- | []] & H) I. exists p. split; assumption.
Qed.

(** One round of the loop: it starts with the test of [lockPath], starts
    nothing but that test and the removal of [lockPath], and does not
    touch the cached state. *)
Lemma clearOne_run (lockPath : string) (m : Machine W) :
  exists o m' r rest,
    Part000.clearOne host lockPath m = (o, m') /\ o <> Pending /\
    undisturbed m m' (EvStartProcess (Part000.testCommand lockPath) None r :: rest) /\
    Forall (touchesOnly [lockPath]) rest.
Proof.
  assert (T : forall r, touchesOnly [lockPath]
              (EvStartProcess (Part000.rmCommand lockPath) None r)).
  { intros r. exists lockPath. simpl. auto. }
  unfold Part000.clearOne, bind, doStartProcess, doWaitForProcess, doGetLogs,
    call, ret.
  destruct (startProcess host (Part000.testCommand lockPath) None (world m))
    as [[w1 d1] [e1 | p]]; simpl.
  { do 4 eexists. split; [reflexivity |]. split; [discriminate |].
    split; [frame | constructor]. }
  destruct (waitForProcess host p 3000 w1) as [[w2 d2] [e2 | []]]; simpl.
  { do 4 eexists. split; [reflexivity |]. split; [discriminate |].
    split; [frame | repeat constructor]. }
  destruct (getLogs host p w2) as [[w3 d3] [e3 | logs]]; simpl.
  { do 4 eexists. split; [reflexivity |]. split; [discriminate |].
    split; [frame | repeat constructor]. }
  destruct (Part000.echoed logs lockPath); simpl.
  - destruct (startProcess host (Part000.rmCommand lockPath) None w3)
      as [[w4 d4] [e4 | q]]; simpl.
    { do 4 eexists. split; [reflexivity |]. split; [discriminate |].
      split; [frame | repeat constructor; apply T]. }
    destruct (waitForProcess host q 3000 w4) as [[w5 d5] [e5 | []]]; simpl;
      do 4 eexists; (split; [reflexivity |]); (split; [discriminate |]);
      (split; [frame | repeat constructor; apply T]).
  - do 4 eexists. split; [reflexivity |]. split; [discriminate |].
    split; [frame | repeat constructor].
Qed.

Lemma clearLoop_run (paths : list string) (m : Machine W) :
  exists o m' evs,
    forOf paths (Part000.clearOne host) m = (o, m') /\ o <> Pending /\
    undisturbed m m' evs /\ Forall (touchesOnly paths) evs /\
    match paths with
    | p :: _ => exists r rest,
        evs = EvStartProcess (Part000.testCommand p) None r :: rest
    | [] => evs = []
    end.
Proof.
  revert m. induction paths as [| p paths IH]; intros m.
  - exists (Returned tt), m, []. simpl. unfold ret.
    repeat split; try discriminate; try (apply undisturbed_refl); constructor.
  - destruct (clearOne_run p m) as (o & m1 & r & rest & R & NP & U & F).
    assert (F1 : Forall (touchesOnly (p :: paths))
                   (EvStartProcess (Part000.testCommand p) None r :: rest)).
    { constructor.
      - exists p. simpl. auto.
      - eapply Forall_impl; [| exact F]. intros ev H.
        apply (touchesOnly_weaken p); simpl; auto. }
    simpl. unfold bind. rewrite R.
    destruct o as [[] | e |]; [| | congruence].
    + destruct (IH m1) as (o2 & m2 & evs2 & R2 & NP2 & U2 & F2 & _).
      exists o2, m2. eexists. split; [exact R2 |]. split; [exact NP2 |].
      split; [exact (undisturbed_trans _ _ _ _ _ U U2) |].
      split; [| simpl; eauto].
      apply Forall_app. split; [exact F1 |].
      eapply Forall_impl; [| exact F2]. intros ev. unfold touchesOnly.
      destruct (commandOf ev); [| trivial].
      intros (q & I & H). exists q. simpl. auto.
    + exists (Threw e), m1. eexists. split; [reflexivity |].
      split; [discriminate |]. split; [exact U |]. split; [exact F1 | eauto].
Qed.

(** [clearLockFiles] of part_000 resolves, whatever the capabilities do. *)
Lemma Part000_clearLockFiles_quiet (m : Machine W) :
  exists m' r rest,
    Part000.clearLockFiles host m = (Returned tt, m') /\
    undisturbed m m'
      (EvStartProcess (Part000.testCommand "/tmp/clawdbot-gateway.lock") None r
         :: rest) /\
    Forall (touchesOnly Part000.GATEWAY_LOCK_PATHS) rest.
Proof.
  destruct (clearLoop_run Part000.GATEWAY_LOCK_PATHS m)
    as (o & m' & evs & R & NP & U & F & r & rest & E).
  subst evs. inversion F as [| ? ? _ F']; subst.
  unfold Part000.clearLockFiles, tryCatch. rewrite R.
  destruct o as [[] | e |]; [| | congruence]; unfold ret;
    exists m', r, rest; auto.
Qed.

(** [clearLockFiles] of lifecycle.ts resolves too; it starts one
    command. *)
Lemma Lifecycle_clearLockFiles_quiet (m : Machine W) :
  exists m' r rest,
    Lifecycle.clearLockFiles host m = (Returned tt, m') /\
    undisturbed m m' (EvStartProcess Lifecycle.clearCommand None r :: rest) /\
    Forall (fun ev => commandOf ev = None) rest.
Proof.
  unfold Lifecycle.clearLockFiles, tryCatch, bind, doStartProcess,
    doWaitForProcess, call, ret.
  destruct (startProcess host Lifecycle.clearCommand None (world m))
    as [[w1 d1] [e1 | p]]; simpl.
  - do 3 eexists. split; [reflexivity |]. split; [frame | constructor].
  - destruct (waitForProcess host p 5000 w1) as [[w2 d2] [e2 | []]]; simpl;
      do 3 eexists; (split; [reflexivity |]);
      (split; [frame | repeat constructor]).
Qed.
End ClearFacts.

Section PortFreeFacts.
Context {W MoltbotEnv : Type} (host : Host W MoltbotEnv).

(** With a poll left for every half second up to the deadline, the loop
    of part_000 ends: it resolves, and it begins with a probe when the
    deadline lies ahead. *)
Lemma Part000_portFreeLoop_total (fuel : nat) :
  forall deadline (m : Machine W),
    deadline - clock m <= 500 * Z.of_nat fuel ->
    exists m' evs,
      Part000.portFreeLoop host (S fuel) deadline m = (Returned tt, m') /\
      undisturbed m m' evs /\
      (clock m < deadline -> exists ev rest, evs = ev :: rest /\ isFetch ev).
Proof.
  induction fuel as [| fuel IH]; intros deadline m B.
  - exists m, []. simpl. unfold bind, dateNow.
    destruct (Z.ltb_spec (clock m) deadline); [lia |].
    split; [reflexivity | split; [apply undisturbed_refl | lia]].
  - change (Part000.portFreeLoop host (S (S fuel)) deadline m)
      with ((now <- dateNow ;;
             if now <? deadline then
               healthy <- Part000.isGatewayHealthy host ;;
               if negb healthy then ret tt
               else sleep host Part000.PORT_FREE_POLL_MS ;;
                    Part000.portFreeLoop host (S fuel) deadline
             else ret tt) m).
    unfold bind at 1, dateNow.
    destruct (Z.ltb_spec (clock m) deadline) as [L | L].
    + destruct (Part000_isGatewayHealthy_probe host m) as (w & dt & r & R1).
      rewrite (bind_returned _ _ _ _ _ R1).
      set (m1 := advance m w _ _) in *.
      assert (U1 : undisturbed m m1
                     [EvContainerFetch (Part000.healthUrl host)
                        (MOLTBOT_PORT host) dt r]) by (subst m1; frame).
      destruct (strictVerdict r); simpl.
      * destruct (sleep_run host Part000.PORT_FREE_POLL_MS m1)
          as (m2 & R2 & S2 & K2 & C2 & T2).
        rewrite (bind_returned _ _ _ _ _ R2).
        assert (U2 : undisturbed m1 m2 [EvSetTimeout Part000.PORT_FREE_POLL_MS]).
        { unfold undisturbed. unfold Part000.PORT_FREE_POLL_MS in C2.
          repeat split; try assumption; lia. }
        destruct (IH deadline m2) as (m3 & evs & R3 & U3 & _).
        { destruct U1 as (_ & _ & C1 & _).
          unfold Part000.PORT_FREE_POLL_MS in C2. lia. }
        exists m3. eexists. split; [exact R3 |]. split.
        -- exact (undisturbed_trans _ _ _ _ _
                    (undisturbed_trans _ _ _ _ _ U1 U2) U3).
        -- intros _. simpl. do 2 eexists. split; [reflexivity | exact I].
      * exists m1. eexists. split; [reflexivity |]. split; [exact U1 |].
        intros _. do 2 eexists. split; [reflexivity | exact I].
    + exists m, []. split; [reflexivity |].
      split; [apply undisturbed_refl | lia].
Qed.

(** More fuel than that changes nothing. *)
Lemma Part000_portFreeLoop_fuel (fuel : nat) :
  forall extra deadline (m : Machine W),
    deadline - clock m <= 500 * Z.of_nat fuel ->
    Part000.portFreeLoop host (S (fuel + extra)) deadline m =
    Part000.portFreeLoop host (S fuel) deadline m.
Proof.
  induction fuel as [| fuel IH]; intros extra deadline m B.
  - simpl. unfold bind, dateNow.
    destruct (Z.ltb_spec (clock m) deadline); [lia | reflexivity].
  - change (Part000.portFreeLoop host (S (S fuel)) deadline m)
      with ((now <- dateNow ;;
             if now <? deadline then
               healthy <- Part000.isGatewayHealthy host ;;
               if negb healthy then ret tt
               else sleep host Part000.PORT_FREE_POLL_MS ;;
                    Part000.portFreeLoop host (S fuel) deadline
             else ret tt) m).
    change (Part000.portFreeLoop host (S (S fuel + extra)) deadline m)
      with ((now <- dateNow ;;
             if now <? deadline then
               healthy <- Part000.isGatewayHealthy host ;;
               if negb healthy then ret tt
               else sleep host Part000.PORT_FREE_POLL_MS ;;
                    Part000.portFreeLoop host (S (fuel + extra)) deadline
             else ret tt) m).
    unfold bind at 1 4, dateNow.
    destruct (Z.ltb_spec (clock m) deadline) as [L | L]; [| reflexivity].
    destruct (Part000_isGatewayHealthy_quiet host m) as (b & m1 & ev & R1 & U1).
    rewrite !(bind_returned _ _ _ _ _ R1).
    destruct b; simpl; [| reflexivity].
    destruct (sleep_run host Part000.PORT_FREE_POLL_MS m1)
      as (m2 & R2 & S2 & K2 & C2 & T2).
    rewrite !(bind_returned _ _ _ _ _ R2).
    apply IH. destruct U1 as (_ & _ & C1 & _).
    unfold Part000.PORT_FREE_POLL_MS in C2. lia.
Qed.

(** [waitForPortFree] of part_000 resolves after at most thirty polls,
    whatever the port answers, and it makes at least one probe. *)
Lemma Part000_waitForPortFree_total (m : Machine W) :
  exists m' ev rest,
    Part000.waitForPortFree host m = (Returned tt, m') /\
    undisturbed m m' (ev :: rest) /\ isFetch ev /\
    forall extra,
      Part000.portFreeLoop host (Part000.portFreeFuel + extra)
        (clock m + Part000.PORT_FREE_DEADLINE_MS) m
      = (Returned tt, m').
Proof.
  unfold Part000.waitForPortFree, Part000.portFreeFuel,
    Part000.PORT_FREE_DEADLINE_MS.
  unfold bind at 1, dateNow.
  destruct (Part000_portFreeLoop_total 30 (clock m + 15000) m)
    as (m' & evs & R & U & F); [lia |].
  destruct F as (ev & rest & -> & F); [lia |].
  exists m', ev, rest. repeat split; try assumption; try apply U.
  intros extra.
  change (31 + extra)%nat with (S (30 + extra)).
  rewrite Part000_portFreeLoop_fuel by lia. exact R.
Qed.

Lemma Lifecycle_portFreeLoop_total (fuel : nat) :
  forall deadline (m : Machine W),
    deadline - clock m <= 1000 * Z.of_nat fuel ->
    exists m' evs,
      Lifecycle.portFreeLoop host (S fuel) deadline m = (Returned tt, m') /\
      undisturbed m m' evs /\
      (clock m < deadline -> exists ev rest, evs = ev :: rest /\ isFetch ev).
Proof.
  induction fuel as [| fuel IH]; intros deadline m B.
  - exists m, []. simpl. unfold bind, dateNow.
    destruct (Z.ltb_spec (clock m) deadline); [lia |].
    split; [reflexivity | split; [apply undisturbed_refl | lia]].
  - change (Lifecycle.portFreeLoop host (S (S fuel)) deadline m)
      with ((now <- dateNow ;;
             if now <? deadline then
               healthy <- Lifecycle.isGatewayHealthy host ;;
               if negb healthy then ret tt
               else sleep host 1000 ;;
                    Lifecycle.portFreeLoop host (S fuel) deadline
             else ret tt) m).
    unfold bind at 1, dateNow.
    destruct (Z.ltb_spec (clock m) deadline) as [L | L].
    + destruct (containerFetch host (Lifecycle.healthUrl host)
                  (MOLTBOT_PORT host) (world m)) as [[w dt] r] eqn:E.
      pose proof (Lifecycle_isGatewayHealthy_run host m w dt r E) as R1.
      rewrite (bind_returned _ _ _ _ _ R1).
      set (m1 := advance m w _ _) in *.
      assert (U1 : undisturbed m m1
                     [EvContainerFetch (Lifecycle.healthUrl host)
                        (MOLTBOT_PORT host) dt r]) by (subst m1; frame).
      destruct (looseVerdict r); simpl.
      * destruct (sleep_run host 1000 m1) as (m2 & R2 & S2 & K2 & C2 & T2).
        rewrite (bind_returned _ _ _ _ _ R2).
        assert (U2 : undisturbed m1 m2 [EvSetTimeout 1000]).
        { unfold undisturbed. repeat split; try assumption; lia. }
        destruct (IH deadline m2) as (m3 & evs & R3 & U3 & _).
        { destruct U1 as (_ & _ & C1 & _). lia. }
        exists m3. eexists. split; [exact R3 |]. split.
        -- exact (undisturbed_trans _ _ _ _ _
                    (undisturbed_trans _ _ _ _ _ U1 U2) U3).
        -- intros _. simpl. do 2 eexists. split; [reflexivity | exact I].
      * exists m1. eexists. split; [reflexivity |]. split; [exact U1 |].
        intros _. do 2 eexists. split; [reflexivity | exact I].
    + exists m, []. split; [reflexivity |].
      split; [apply undisturbed_refl | lia].
Qed.

(** [waitForPortFree] of lifecycle.ts resolves after its three-second
    pause and at most fifteen polls, the first of them always made. *)
Lemma Lifecycle_waitForPortFree_total (m : Machine W) :
  exists m' rest,
    Lifecycle.waitForPortFree host m = (Returned tt, m') /\
    undisturbed m m' (EvSetTimeout Lifecycle.PORT_FREE_WAIT_MS :: rest) /\
    exists ev rest', rest = ev :: rest' /\ isFetch ev.
Proof.
  unfold Lifecycle.waitForPortFree, Lifecycle.portFreeFuel.
  destruct (sleep_run host Lifecycle.PORT_FREE_WAIT_MS m)
    as (m1 & R1 & S1 & K1 & C1 & T1).
  rewrite (bind_returned _ _ _ _ _ R1).
  unfold bind at 1, dateNow.
  destruct (Lifecycle_portFreeLoop_total 15 (clock m1 + 15000) m1)
    as (m' & evs & R & U & F); [lia |].
  destruct F as (ev & rest & -> & F); [lia |].
  exists m', (ev :: rest). split; [exact R |]. split.
  - assert (U1 : undisturbed m m1 [EvSetTimeout Lifecycle.PORT_FREE_WAIT_MS]).
    { unfold undisturbed. unfold Lifecycle.PORT_FREE_WAIT_MS in C1.
      repeat split; try assumption; lia. }
    exact (undisturbed_trans _ _ _ _ _ U1 U).
  - eauto.
Qed.
End PortFreeFacts.

Section EnsureFacts.
Context {W MoltbotEnv : Type} (host : Host W MoltbotEnv) (env : MoltbotEnv).

Lemma endsWith_advance (m : Machine W) w dt ev :
  endsWith (advance m w dt ev) [ev].
Proof. exists (trace m). reflexivity. Qed.

(** A fresh start either resolves with [ready] set and the id of the
    spawned process recorded, or rejects with the very value the spawn or
    the port wait raised; [ready] is set on no failing run. *)
Lemma startNewGateway_run (m : Machine W) :
  exists o m' evs,
    startNewGateway host env m = (o, m') /\ follows m m' evs /\
    match o with
    | Returned _ =>
        gatewayReady (stateRef m') = true /\
        gatewayProcessId (stateRef m') <> None
    | Threw e =>
        gatewayReady (stateRef m') = gatewayReady (stateRef m) /\
        StartFailure host e m'
    | Pending => False
    end.
Proof.
  unfold startNewGateway, tryCatch, bind, dateNow, modifyRef, doStartProcess,
    doWaitForPort, doGetLogs, call, throw, ret, startCommand.
  simpl.
  destruct (startProcess host _ (envOption (buildEnvVars host env)) (world m))
    as [[w1 d1] [e1 | p]]; simpl.
  { do 3 eexists. split; [reflexivity |]. split; [frame |].
    split; [reflexivity |]. eapply SpawnFailed. exists (trace m). reflexivity. }
  destruct (waitForPort host p (MOLTBOT_PORT host) (STARTUP_TIMEOUT_MS host) w1)
    as [[w2 d2] [e2 | []]]; simpl.
  - destruct (getLogs host p w2) as [[w3 d3] [e3 | logs]]; simpl;
      do 3 eexists; (split; [reflexivity |]); (split; [frame |]);
      (split; [reflexivity |]);
      (eapply PortWaitFailed; [| reflexivity]);
      exists (trace m); simpl; repeat rewrite <- app_assoc; reflexivity.
  - do 3 eexists. split; [reflexivity |]. split; [frame |].
    split; [reflexivity | discriminate].
Qed.

(** Waiting for a process that is already there: adopted, with [ready]
    set and its id recorded, or given up with the cached state as it
    was. *)
Lemma adoptExisting_run (m : Machine W) :
  exists b m' evs,
    adoptExisting host m = (Returned b, m') /\ follows m m' evs /\
    if b then gatewayReady (stateRef m') = true /\
              gatewayProcessId (stateRef m') <> None
    else stateRef m' = stateRef m.
Proof.
  unfold adoptExisting, tryCatch, bind, dateNow, modifyRef,
    doFindExistingMoltbotProcess, doWaitForPort, doKill, call, ret.
  destruct (findExistingMoltbotProcess host (world m)) as [[w1 d1] [p |]]; simpl.
  - destruct (waitForPort host p (MOLTBOT_PORT host) (STARTUP_TIMEOUT_MS host) w1)
      as [[w2 d2] [e2 | []]]; simpl.
    + destruct (kill host p w2) as [[w3 d3] [e3 | []]]; simpl;
        exists false; do 2 eexists; (split; [reflexivity |]);
        (split; [frame | reflexivity]).
    + exists true. do 2 eexists. split; [reflexivity |]. split; [frame |].
      split; [reflexivity | discriminate].
  - exists false. do 2 eexists. split; [reflexivity |].
    split; [frame | reflexivity].
Qed.
End EnsureFacts.

Section EnsureRuns.
Context {W MoltbotEnv : Type} (host : Host W MoltbotEnv) (env : MoltbotEnv).

(** Mounting the storage and starting afresh, from a state that is not
    ready. *)
Lemma mount_then_start_run (m : Machine W) :
  gatewayReady (stateRef m) = false ->
  exists o m' evs,
    (doMountR2Storage host env ;; startNewGateway host env) m = (o, m') /\
    follows m m' evs /\
    match o with
    | Returned _ =>
        gatewayReady (stateRef m') = true /\
        gatewayProcessId (stateRef m') <> None
    | Threw e => gatewayReady (stateRef m') = false /\ StartFailure host e m'
    | Pending => False
    end.
Proof.
  intros NR. unfold bind at 1, doMountR2Storage, call.
  destruct (mountR2Storage host env (world m)) as [[w1 d1] [e1 | []]];
    cbv beta iota zeta.
  - do 3 eexists. split; [reflexivity |]. split; [frame |].
    split; [exact NR |]. apply MountFailed. apply endsWith_advance.
  - set (m1 := advance m w1 (Z.of_N d1) (EvMountR2 (inr tt))).
    destruct (startNewGateway_run host env m1) as (o & m' & evs & R & F & P).
    assert (F1 : follows m m1 [EvMountR2 (inr tt)]) by (subst m1; frame).
    exists o, m'. eexists. split; [exact R |].
    split; [exact (follows_trans _ _ _ _ _ F1 F) |].
    destruct o as [[] | e |]; [exact P | | exact P].
    destruct P as (P1 & P2). split; [| exact P2].
    rewrite P1. subst m1. exact NR.
Qed.

Lemma Part000_ensure_run (m : Machine W) :
  gatewayReady (stateRef m) = false ->
  exists o m' evs,
    Part000.ensureGatewayRunningLogic host env m = (o, m') /\
    follows m m' evs /\ ensured host m o m' evs.
Proof.
  intros NR. unfold Part000.ensureGatewayRunningLogic.
  unfold bind at 1, getRef. rewrite NR.
  destruct (Part000_isGatewayHealthy_probe host m) as (w & dt & r & R1).
  rewrite (bind_returned _ _ _ _ _ R1).
  set (m1 := advance m w _ _) in *.
  assert (F1 : follows m m1
                 [EvContainerFetch (Part000.healthUrl host) (MOLTBOT_PORT host)
                    dt r]) by (subst m1; frame).
  destruct (strictVerdict r) eqn:V.
  - (* 2) the probe is healthy *)
    destruct r as [e | code]; [discriminate V |].
    unfold bind, modifyRef, dateNow, doFindExistingMoltbotProcess, sleep, ret.
    subst m1. cbn [advance world clock stateRef startLock trace].
    destruct (findExistingMoltbotProcess host w) as [[w2 d2] [p |]];
      cbn [advance world clock stateRef startLock trace].
    + do 3 eexists. split; [reflexivity |]. split; [frame |].
      split; [reflexivity | discriminate].
    + destruct (timerLateness host 300 w2) as [w3 late].
      cbn [advance world clock stateRef startLock trace].
      destruct (findExistingMoltbotProcess host w3) as [[w4 d4] [p |]];
        cbn [advance world clock stateRef startLock trace].
      * do 3 eexists.
        split; [reflexivity |].
        split; [frame |].
        split; [reflexivity | discriminate].
      * do 3 eexists. split; [reflexivity |]. split; [frame |]. 
        split; [reflexivity |]. intros P. split; [exact P |].
        do 4 eexists. reflexivity.
  - (* 3) an existing process may be starting *)
    destruct (adoptExisting_run host m1) as (b & m2 & e2 & R2 & F2 & P2).
    rewrite (bind_returned _ _ _ _ _ R2).
    destruct b.
    + exists (Returned tt), m2. eexists. split; [reflexivity |].
      split; [exact (follows_trans _ _ _ _ _ F1 F2) |].
      destruct P2 as (P2 & P3). split; [exact P2 | intros C; contradiction].
    + assert (NR2 : gatewayReady (stateRef m2) = false).
      { rewrite P2. subst m1. exact NR. }
      pose proof (follows_trans _ _ _ _ _ F1 F2) as F12.
      (* 4) the port may still be occupied *)
      destruct (Part000_isGatewayHealthy_quiet host m2)
        as (occupied & m3 & ev3 & R3 & U3).
      rewrite (bind_returned _ _ _ _ _ R3).
      assert (exists m4 e4,
                (if occupied
                 then st <- getRef ;;
                      stopGateway host (gatewayProcessId st) ;;
                      modifyRef (set_gatewayProcessId None) ;;
                      Part000.waitForPortFree host
                 else ret tt) m3 = (Returned tt, m4) /\
                follows m3 m4 e4 /\ gatewayReady (stateRef m4) = false)
        as (m4 & e4 & R4 & F4 & NR4).
      { assert (NR3 : gatewayReady (stateRef m3) = false).
        { destruct U3 as (S3 & _). rewrite S3. exact NR2. }
        destruct occupied.
        - unfold bind at 1, getRef.
          destruct (stopGateway_quiet host (gatewayProcessId (stateRef m3)) m3)
            as (ma & ra & mid & found & rest & Ra & Ua & _).
          rewrite (bind_returned _ _ _ _ _ Ra).
          unfold bind at 1, modifyRef.
          set (mb := mkMachine _ _ _ _ _).
          destruct (Part000_waitForPortFree_total host mb)
            as (mc & evc & restc & Rc & Uc & _).
          exists mc. eexists. split; [exact Rc |].
          destruct Ua as (Sa & La & Ca & Ta).
          destruct Uc as (Sc & Lc & Cc & Tc).
          split.
          + unfold follows. subst mb. simpl in *.
            repeat split; try congruence; try lia.
            rewrite Tc, Ta, <- app_assoc. reflexivity.
          + rewrite Sc. subst mb. simpl. rewrite Sa. exact NR3.
        - exists m3, []. split; [reflexivity |].
          split; [apply undisturbed_follows, undisturbed_refl | exact NR3]. }
      rewrite (bind_returned _ _ _ _ _ R4).
      (* 5) and 6) *)
      destruct (mount_then_start_run m4 NR4) as (o & m5 & e5 & R5 & F5 & P5).
      exists o, m5. eexists. split; [exact R5 |].
      split.
      * exact (follows_trans _ _ _ _ _
                 (follows_trans _ _ _ _ _
                    (follows_trans _ _ _ _ _ F12 (undisturbed_follows _ _ _ U3))
                    F4) F5).
      * destruct o as [[] | e |]; [| exact P5 | exact P5].
        destruct P5 as (P5 & P6). split; [exact P5 | intros C; contradiction].
Qed.

Lemma Lifecycle_ensure_run (m : Machine W) :
  gatewayReady (stateRef m) = false ->
  exists o m' evs,
    Lifecycle.ensureGatewayRunningLogic host env m = (o, m') /\
    follows m m' evs /\
    match o with
    | Returned _ => gatewayReady (stateRef m') = true
    | Threw e => gatewayReady (stateRef m') = false /\ StartFailure host e m'
    | Pending => False
    end.
Proof.
  intros NR. unfold Lifecycle.ensureGatewayRunningLogic.
  unfold bind at 1, getRef. rewrite NR.
  destruct (containerFetch host (Lifecycle.healthUrl host) (MOLTBOT_PORT host)
              (world m)) as [[w dt] r] eqn:E.
  pose proof (Lifecycle_isGatewayHealthy_run host m w dt r E) as R1.
  rewrite (bind_returned _ _ _ _ _ R1).
  set (m1 := advance m w _ _) in *.
  assert (F1 : follows m m1
                 [EvContainerFetch (Lifecycle.healthUrl host) (MOLTBOT_PORT host)
                    dt r]) by (subst m1; frame).
  destruct (looseVerdict r) eqn:V.
  - unfold bind, modifyRef, dateNow, doFindExistingMoltbotProcess, ret.
    subst m1. cbn [advance world clock stateRef startLock trace].
    destruct (findExistingMoltbotProcess host w) as [[w2 d2] [p |]];
      cbn [advance world clock stateRef startLock trace];
      do 3 eexists; (split; [reflexivity |]); (split; [frame | reflexivity]).
  - destruct (adoptExisting_run host m1) as (b & m2 & e2 & R2 & F2 & P2).
    rewrite (bind_returned _ _ _ _ _ R2).
    destruct b.
    + exists (Returned tt), m2. eexists. split; [reflexivity |].
      split; [exact (follows_trans _ _ _ _ _ F1 F2) | apply P2].
    + assert (NR2 : gatewayReady (stateRef m2) = false).
      { rewrite P2. subst m1. exact NR. }
      destruct (mount_then_start_run m2 NR2) as (o & m3 & e3 & R3 & F3 & P3).
      exists o, m3. eexists. split; [exact R3 |].
      split; [exact (follows_trans _ _ _ _ _ (follows_trans _ _ _ _ _ F1 F2) F3) |].
      destruct o as [[] | e |]; [apply P3 | exact P3 | exact P3].
Qed.

(** The fast path: a ready state is returned as it is, with no call
    made. *)
Lemma Part000_ensure_fast (m : Machine W) :
  gatewayReady (stateRef m) = true ->
  Part000.ensureGatewayRunningLogic host env m = (Returned tt, m).
Proof.
  intros R. unfold Part000.ensureGatewayRunningLogic, bind, getRef.
  rewrite R. reflexivity.
Qed.

Lemma Lifecycle_ensure_fast (m : Machine W) :
  gatewayReady (stateRef m) = true ->
  Lifecycle.ensureGatewayRunningLogic host env m = (Returned tt, m).
Proof.
  intros R. unfold Lifecycle.ensureGatewayRunningLogic, bind, getRef.
  rewrite R. reflexivity.
Qed.

Lemma Part000_restart_run (m : Machine W) :
  exists m1 m2 m3 e1 e2 e3,
    stopGateway host (gatewayProcessId (stateRef m)) m = (Returned tt, m1) /\
    undisturbed m m1 e1 /\
    Part000.clearLockFiles host (cleared m1) = (Returned tt, m2) /\
    undisturbed (cleared m1) m2 e2 /\
    Part000.waitForPortFree host m2 = (Returned tt, m3) /\
    undisturbed m2 m3 e3 /\
    Part000.restartGatewayLogic host env m =
      Part000.ensureGatewayRunningLogic host env m3 /\
    (exists r rest, e1 = EvStartProcess stopCommand None r :: rest) /\
    (exists r rest,
       e2 = EvStartProcess (Part000.testCommand "/tmp/clawdbot-gateway.lock")
              None r :: rest) /\
    (exists ev rest, e3 = ev :: rest /\ isFetch ev).
Proof.
  destruct (stopGateway_quiet host (gatewayProcessId (stateRef m)) m)
    as (m1 & r1 & mid & found & rest1 & R1 & U1 & _).
  destruct (Part000_clearLockFiles_quiet host (cleared m1))
    as (m2 & r2 & rest2 & R2 & U2 & _).
  destruct (Part000_waitForPortFree_total host m2)
    as (m3 & ev3 & rest3 & R3 & U3 & I3 & _).
  exists m1, m2, m3. do 3 eexists.
  split; [exact R1 |]. split; [exact U1 |].
  split; [exact R2 |]. split; [exact U2 |].
  split; [exact R3 |]. split; [exact U3 |].
  split; [| split; [| split]];
    [| do 2 eexists; reflexivity | do 2 eexists; reflexivity
     | do 2 eexists; split; [reflexivity | exact I3]].
  unfold Part000.restartGatewayLogic.
  unfold bind at 1, getRef.
  rewrite (bind_returned _ _ _ _ _ R1).
  unfold bind at 1 2, modifyRef.
  change (mkMachine _ _ _ _ _) with (cleared m1).
  rewrite (bind_returned _ _ _ _ _ R2), (bind_returned _ _ _ _ _ R3).
  reflexivity.
Qed.

Lemma Lifecycle_restart_run (m : Machine W) :
  exists m1 m2 m3 e1 e2 e3,
    stopGateway host (gatewayProcessId (stateRef m)) m = (Returned tt, m1) /\
    undisturbed m m1 e1 /\
    Lifecycle.clearLockFiles host (cleared m1) = (Returned tt, m2) /\
    undisturbed (cleared m1) m2 e2 /\
    Lifecycle.waitForPortFree host m2 = (Returned tt, m3) /\
    undisturbed m2 m3 e3 /\
    Lifecycle.restartGatewayLogic host env m =
      Lifecycle.ensureGatewayRunningLogic host env m3 /\
    (exists r rest, e1 = EvStartProcess stopCommand None r :: rest) /\
    (exists r rest, e2 = EvStartProcess Lifecycle.clearCommand None r :: rest) /\
    (exists ev rest,
       e3 = EvSetTimeout Lifecycle.PORT_FREE_WAIT_MS :: ev :: rest /\ isFetch ev).
Proof.
  destruct (stopGateway_quiet host (gatewayProcessId (stateRef m)) m)
    as (m1 & r1 & mid & found & rest1 & R1 & U1 & _).
  destruct (Lifecycle_clearLockFiles_quiet host (cleared m1))
    as (m2 & r2 & rest2 & R2 & U2 & _).
  destruct (Lifecycle_waitForPortFree_total host m2)
    as (m3 & rest3 & R3 & U3 & ev & rest' & -> & I3).
  exists m1, m2, m3. do 3 eexists.
  split; [exact R1 |]. split; [exact U1 |].
  split; [exact R2 |]. split; [exact U2 |].
  split; [exact R3 |]. split; [exact U3 |].
  split; [| split; [| split]];
    [| do 2 eexists; reflexivity | do 2 eexists; reflexivity
     | do 2 eexists; split; [reflexivity | exact I3]].
  unfold Lifecycle.restartGatewayLogic.
  unfold bind at 1, getRef.
  rewrite (bind_returned _ _ _ _ _ R1).
  unfold bind at 1 2, modifyRef.
  change (mkMachine _ _ _ _ _) with (cleared m1).
  rewrite (bind_returned _ _ _ _ _ R2), (bind_returned _ _ _ _ _ R3).
  reflexivity.
Qed.
End EnsureRuns.

Section OwnerFacts.
Context {W MoltbotEnv : Type} (host : Host W MoltbotEnv) (env : MoltbotEnv).

Lemma StartFailure_setLock e b (m : Machine W) :
  StartFailure host e m -> StartFailure host e (setLock b m).
Proof.
  intros [H | envo H | envo p logs H P].
  - apply MountFailed. exact H.
  - apply (SpawnFailed host e _ envo). exact H.
  - apply (PortWaitFailed host e _ envo p logs); assumption.
Qed.

(** A handler around an engine operation [op]: 200 with the cached state
    when the operation resolves, 503 with the message of the thrown value
    when it rejects; the slot is empty again either way. *)
Lemma handler_run (op : M W unit) (m : Machine W) :
  startLock m = false ->
  forall o m1, op (setLock true m) = (o, m1) ->
  tryCatch (Part000.runWithLock op ;; Part000.okResponse)
    Part000.errorResponse m =
  (match o with
   | Returned _ =>
       Returned (mkResponse 200
                   (BodyOk (gatewayReady (stateRef m1))
                      (gatewayProcessId (stateRef m1))))
   | Threw e => Returned (mkResponse 503 (BodyError (errorMessage e)))
   | Pending => Pending
   end, setLock false m1).
Proof.
  intros L o m1 R.
  unfold tryCatch, bind, Part000.runWithLock, tryFinally,
    Part000.okResponse, Part000.errorResponse, getRef, ret, bind.
  rewrite L, R. destruct o as [[] | e |]; reflexivity.
Qed.

(** Every rejected [ensure] of part_000 rejects with a value raised by
    the mount, the spawn or the port wait, and leaves [ready] false. *)
Lemma Part000_ensure_rejected (m : Machine W) e m' :
  Part000.ensureGatewayRunningLogic host env m = (Threw e, m') ->
  gatewayReady (stateRef m') = false /\ StartFailure host e m'.
Proof.
  intros R. destruct (gatewayReady (stateRef m)) eqn:G.
  - rewrite (Part000_ensure_fast host env m G) in R. discriminate R.
  - destruct (Part000_ensure_run host env m G) as (o & m2 & evs & R2 & _ & P).
    rewrite R in R2. injection R2 as <- <-. exact P.
Qed.

Lemma Part000_restart_rejected (m : Machine W) e m' :
  Part000.restartGatewayLogic host env m = (Threw e, m') ->
  gatewayReady (stateRef m') = false /\ StartFailure host e m'.
Proof.
  destruct (Part000_restart_run host env m)
    as (m1 & m2 & m3 & e1 & e2 & e3 & _ & _ & _ & _ & _ & _ & -> & _).
  apply Part000_ensure_rejected.
Qed.
End OwnerFacts.

(* ===================================================================== *)
(** * Startup failure and the state a failed call leaves *)
(* ===================================================================== *)

(** C1.  A fresh start whose port never opens is meant to fail with a
    message that embeds the captured stderr.  On the run where the logs are
    there and show "boot error: disk full", [ensure] and [restart] answer
    503 with the message of the port wait instead: the error built from the
    logs is thrown inside the [try] whose [catch] rethrows the first one.
    The message that reaches the caller does not contain the stderr text;
    lifecycle.ts behaves the same. *)
Theorem startup_failure_drops_stderr :
  let ensureRun := Part000.handleEnsure (scripted bootFailure) tt (boot 1000) in
  let restartRun := Part000.handleRestart (scripted bootFailure) tt (boot 1000) in
  fst ensureRun = Returned (mkResponse 503 (BodyError "waitForPort timeout")) /\
  fst restartRun = Returned (mkResponse 503 (BodyError "waitForPort timeout")) /\
  fst (Lifecycle.ensureGatewayRunningLogic (scripted bootFailure) tt (boot 1000))
    = Threw (JsError "waitForPort timeout") /\
  last (trace (snd ensureRun)) (EvSetTimeout 0)
    = EvGetLogs gw1 (inr (mkLogs None (Some "boot error: disk full"))) /\
  includes "waitForPort timeout" "boot error: disk full" = false /\
  includes (startFailureMessage (mkLogs None (Some "boot error: disk full")))
    "boot error: disk full" = true.
Proof.
  cbv zeta. repeat split; vm_compute; reflexivity.
Qed.

(** C2, as stated, fails: after the failed [ensure] of the boot-failure
    run the cached [processId] is no longer the value from before the
    attempt; it names the process spawned by the failed start, and
    [getState] reports it. *)
Lemma failed_ensure_keeps_spawned_id :
  let before := boot 1000 in
  let run := Part000.handleEnsure (scripted bootFailure) tt before in
  fst run = Returned (mkResponse 503 (BodyError "waitForPort timeout")) /\
  gatewayProcessId (stateRef (snd run)) <> gatewayProcessId (stateRef before) /\
  gatewayProcessId (stateRef (snd run)) = Some (proc_id gw1) /\
  fst (Part000.handleGetState (snd run))
    = Returned (mkResponse 200 (BodyState false (Some "proc-1") (Some 1020) None)).
Proof.
  cbv zeta. repeat split; try (vm_compute; reflexivity).
  vm_compute. discriminate.
Qed.

Lemma StartFailure_point {W E} (host : Host W E) e b (m : Machine W) :
  StartFailure host e m -> FailurePoint host (setLock b m).
Proof.
  intros [H | envo H | envo p logs H P].
  - exact (AtMount host (setLock b m) e H).
  - exact (AtSpawn host (setLock b m) envo e H).
  - exact (AtPortWait host (setLock b m) envo p e logs H P).
Qed.

(** C2, amended.  A failed [ensure] or [restart] answers 503 with an error
    message and no state, and nothing is rolled back: the cached [ready]
    is false; the call failed at the mount, at the spawn, or at the port
    wait of the freshly spawned process, and in the last case [processId]
    is left holding the id of that process; [getState] right afterwards
    reports this cached state. *)
Theorem failed_call_leaves_progress {W MoltbotEnv : Type}
    (host : Host W MoltbotEnv) (env : MoltbotEnv) (m m' : Machine W)
    (resp : Response) :
  startLock m = false ->
  Part000.handleEnsure host env m = (Returned resp, m') \/
  Part000.handleRestart host env m = (Returned resp, m') ->
  status resp = 503 ->
  (exists message, body resp = BodyError message) /\
  gatewayReady (stateRef m') = false /\
  FailurePoint host m' /\
  Part000.handleGetState m' =
    (Returned
       (mkResponse 200
          (BodyState false (gatewayProcessId (stateRef m'))
             (Part000.stamp (lastGatewayStartAttempt (stateRef m')))
             (Part000.stamp (lastHealthCheck (stateRef m'))))),
     m').
Proof.
  intros L H S.
  assert (forall op : M W unit,
            (forall e m1, op (setLock true m) = (Threw e, m1) ->
               gatewayReady (stateRef m1) = false /\ StartFailure host e m1) ->
            tryCatch (Part000.runWithLock op ;; Part000.okResponse)
              Part000.errorResponse m = (Returned resp, m') ->
            (exists message, body resp = BodyError message) /\
            gatewayReady (stateRef m') = false /\ FailurePoint host m') as K.
  { intros op Hop R.
    destruct (op (setLock true m)) as [o m1] eqn:E.
    rewrite (handler_run op m L o m1 E) in R.
    destruct o as [[] | e |]; [| | discriminate R].
    { injection R as <- <-. discriminate S. }
    injection R as <- <-.
    destruct (Hop e m1 eq_refl) as (G & F).
    split; [eexists; reflexivity |]. split; [exact G |].
    exact (StartFailure_point host e false m1 F). }
  assert (A : (exists message, body resp = BodyError message) /\
              gatewayReady (stateRef m') = false /\ FailurePoint host m').
  { destruct H as [H | H].
    - apply (K (Part000.ensureGatewayRunningLogic host env)); [| exact H].
      intros e m1. apply Part000_ensure_rejected.
    - apply (K (Part000.restartGatewayLogic host env)); [| exact H].
      intros e m1. apply Part000_restart_rejected. }
  destruct A as (A1 & A2 & A3). repeat split; try assumption.
  unfold Part000.handleGetState, bind, getRef, ret. rewrite A2. reflexivity.
Qed.

Lemma failed_call_leaves_progress_witness :
  let run := Part000.handleEnsure (scripted bootFailureNoLogs) tt (boot 1000) in
  (exists message, body (mkResponse 503 (BodyError "waitForPort timeout"))
                   = BodyError message) /\
  gatewayReady (stateRef (snd run)) = false /\
  FailurePoint (scripted bootFailureNoLogs) (snd run) /\
  Part000.handleGetState (snd run) =
    (Returned
       (mkResponse 200
          (BodyState false (gatewayProcessId (stateRef (snd run)))
             (Part000.stamp (lastGatewayStartAttempt (stateRef (snd run))))
             (Part000.stamp (lastHealthCheck (stateRef (snd run)))))),
     snd run).
Proof.
  cbv zeta.
  apply (failed_call_leaves_progress (scripted bootFailureNoLogs) tt (boot 1000)).
  - reflexivity.
  - left. vm_compute. reflexivity.
  - reflexivity.
Defined.

(** C3, as stated, fails: the port answers 200 and neither search finds a
    process; [ensure] succeeds with [ready] set while [processId] is still
    null, and [getState] reports just that. *)
Lemma ready_without_process_id :
  let run :=
    Part000.ensureGatewayRunningLogic (scripted (answering 200)) tt (boot 1000) in
  fst run = Returned tt /\
  gatewayReady (stateRef (snd run)) = true /\
  gatewayProcessId (stateRef (snd run)) = None /\
  fst (Part000.handleGetState (snd run))
    = Returned (mkResponse 200 (BodyState true None None (Some 1005))).
Proof.
  cbv zeta. repeat split; vm_compute; reflexivity.
Qed.

(** C3, amended.  When [ensure] of part_000 succeeds from a state that was
    not ready, [ready] is true and [getState] reports it; [processId] is
    non-null except on the run where it was null before, the probe found
    the gateway healthy and both searches for its process found none. *)
Theorem ensure_success_state {W MoltbotEnv : Type}
    (host : Host W MoltbotEnv) (env : MoltbotEnv) (m m' : Machine W) :
  gatewayReady (stateRef m) = false ->
  Part000.ensureGatewayRunningLogic host env m = (Returned tt, m') ->
  gatewayReady (stateRef m') = true /\
  (gatewayProcessId (stateRef m') = None ->
   gatewayProcessId (stateRef m) = None /\
   exists evs, trace m' = (trace m ++ evs)%list /\ healthyButUnknown evs) /\
  fst (Part000.handleGetState m')
    = Returned (mkResponse 200
                  (BodyState true (gatewayProcessId (stateRef m'))
                     (Part000.stamp (lastGatewayStartAttempt (stateRef m')))
                     (Part000.stamp (lastHealthCheck (stateRef m'))))).
Proof.
  intros NR R.
  destruct (Part000_ensure_run host env m NR) as (o & m2 & evs & R2 & F & P).
  rewrite R in R2. injection R2 as <- <-.
  destruct P as (G & P). split; [exact G |]. split.
  - intros N. destruct (P N) as (P1 & P2). split; [exact P1 |].
    exists evs. split; [apply F | exact P2].
  - unfold Part000.handleGetState, bind, getRef, ret. simpl. rewrite G.
    reflexivity.
Qed.

Lemma ensure_success_state_witness :
  let m' :=
    snd (Part000.ensureGatewayRunningLogic (scripted coldStart) tt (boot 1000)) in
  gatewayReady (stateRef m') = true /\
  (gatewayProcessId (stateRef m') = None ->
   gatewayProcessId (stateRef (boot 1000)) = None /\
   exists evs, trace m' = (trace (boot 1000) ++ evs)%list /\ healthyButUnknown evs) /\
  fst (Part000.handleGetState m')
    = Returned (mkResponse 200
                  (BodyState true (gatewayProcessId (stateRef m'))
                     (Part000.stamp (lastGatewayStartAttempt (stateRef m')))
                     (Part000.stamp (lastHealthCheck (stateRef m'))))).
Proof.
  cbv zeta.
  apply (ensure_success_state (scripted coldStart) tt (boot 1000)).
  - reflexivity.
  - vm_compute. reflexivity.
Defined.

(* ===================================================================== *)
(** * The health probe *)
(* ===================================================================== *)

(** C4, as stated, fails on lifecycle.ts: the port answers 503, a server
    error, within the time limit, and the probe reports healthy. *)
Lemma loose_probe_accepts_server_error :
  isServerError 503 = true /\
  fst (Lifecycle.isGatewayHealthy (scripted (answering 503)) (boot 1000))
    = Returned true.
Proof.
  split; vm_compute; reflexivity.
Qed.

(** C4, amended.  Neither probe ever rejects.  The probe of part_000
    reports healthy exactly when the request settles with a response no
    later than the race timer fires, that is within the 500 ms limit plus
    however late the timer runs (the request is issued first and wins a
    tie), and the status lies in 200..499; the probe of lifecycle.ts has
    no time limit and reports healthy for any response with a positive
    status, 5xx included.  A thrown error, and for part_000 a timer that
    fires first, gives false. *)
Theorem probe_verdicts {W MoltbotEnv : Type} (host : Host W MoltbotEnv)
    (m : Machine W) :
  (forall w dt r w' late,
     containerFetch host (Part000.healthUrl host) (MOLTBOT_PORT host) (world m)
       = (w, dt, r) ->
     timerLateness host Part000.HEALTH_CHECK_TIMEOUT_MS w = (w', late) ->
     exists b m',
       Part000.isGatewayHealthy host m = (Returned b, m') /\
       (b = true <->
        exists code, r = inr code /\
                     Z.of_N dt <= Part000.HEALTH_CHECK_TIMEOUT_MS + Z.of_N late /\
                     200 <= code < 500)) /\
  (forall w dt r,
     containerFetch host (Lifecycle.healthUrl host) (MOLTBOT_PORT host) (world m)
       = (w, dt, r) ->
     exists m',
       Lifecycle.isGatewayHealthy host m = (Returned (looseVerdict r), m') /\
       (looseVerdict r = true <-> exists code, r = inr code /\ 0 < code)).
Proof.
  split.
  - intros w dt r w' late E T. do 2 eexists.
    split; [exact (Part000_isGatewayHealthy_run host m w dt r w' late E T) |].
    unfold raced, Part000.HEALTH_CHECK_TIMEOUT_MS.
    destruct (Z.leb_spec (Z.of_N dt) (500 + Z.of_N late)) as [L | L];
      cbv beta iota; cbn [snd strictVerdict].
    + destruct r as [e | code]; cbv beta iota.
      * split; [discriminate | intros (c & H & _); discriminate H].
      * unfold strictVerdict.
        rewrite andb_true_iff, Z.leb_le, Z.ltb_lt. split.
        -- intros (A & B). exists code. auto.
        -- intros (c & H & A & B & C). injection H as ->. auto.
    + split; [discriminate | intros (c & _ & A & _); lia].
  - intros w dt r E.
    eexists. split; [exact (Lifecycle_isGatewayHealthy_run host m w dt r E) |].
    unfold looseVerdict. destruct r as [e | code].
    + split; [discriminate | intros (c & H & _); discriminate H].
    + rewrite Z.ltb_lt. split.
      * intros A. exists code. auto.
      * intros (c & H & A). injection H as ->. exact A.
Qed.

Lemma probe_verdicts_witness :
  exists b m',
    Part000.isGatewayHealthy (scripted onTheDot) (boot 1000) = (Returned b, m') /\
    (b = true <->
     exists code, @inr JsValue Z 404 = inr code /\
                  Z.of_N 500 <= Part000.HEALTH_CHECK_TIMEOUT_MS + Z.of_N 0 /\
                  200 <= code < 500).
Proof.
  apply (proj1 (probe_verdicts (scripted onTheDot) (boot 1000)) tt 500%N
           (inr 404) tt 0%N).
  - reflexivity.
  - reflexivity.
Defined.

(* ===================================================================== *)
(** * Lock artifacts *)
(* ===================================================================== *)

(** C5, as stated, fails on lifecycle.ts: the one command its
    [clearLockFiles] starts sweeps the data directory with a wildcard. *)
Lemma legacy_clear_sweeps_wildcard :
  let run := Lifecycle.clearLockFiles (scripted coldStart) (boot 1000) in
  hd_error (trace (snd run))
    = Some (EvStartProcess Lifecycle.clearCommand None (inr gw1)) /\
  hasWildcard Lifecycle.clearCommand = true /\
  includes Lifecycle.clearCommand "/root/.clawdbot/*.lock" = true.
Proof.
  cbv zeta. repeat split; vm_compute; reflexivity.
Qed.

Lemma lock_commands_literal (ev : Event) :
  touchesOnly Part000.GATEWAY_LOCK_PATHS ev ->
  match commandOf ev with
  | Some c => hasWildcard c = false
  | None => True
  end.
Proof.
  unfold touchesOnly. destruct (commandOf ev) as [c |]; [| trivial].
  intros (p & I & H). simpl in I.
  destruct I as [<- | [<- | []]]; destruct H as [-> | ->]; vm_compute;
    reflexivity.
Qed.

(** C5, amended.  [clearLockFiles] of part_000 always resolves, leaves the
    cached state alone, and starts no command but the test and the removal
    of the two enumerated lock paths, none of which holds a wildcard.
    [clearLockFiles] of lifecycle.ts always resolves as well and starts a
    single command, which removes the two paths and every [*.lock] file of
    the data directory. *)
Theorem clear_lock_commands {W MoltbotEnv : Type} (host : Host W MoltbotEnv)
    (m : Machine W) :
  Part000.GATEWAY_LOCK_PATHS
    = ["/tmp/clawdbot-gateway.lock"; "/root/.clawdbot/gateway.lock"] /\
  (exists m' evs,
     Part000.clearLockFiles host m = (Returned tt, m') /\
     undisturbed m m' evs /\
     Forall (touchesOnly Part000.GATEWAY_LOCK_PATHS) evs /\
     Forall (fun ev => match commandOf ev with
                       | Some c => hasWildcard c = false
                       | None => True
                       end) evs) /\
  (exists m' r rest,
     Lifecycle.clearLockFiles host m = (Returned tt, m') /\
     undisturbed m m' (EvStartProcess Lifecycle.clearCommand None r :: rest) /\
     Forall (fun ev => commandOf ev = None) rest /\
     hasWildcard Lifecycle.clearCommand = true).
Proof.
  split; [reflexivity |]. split.
  - destruct (Part000_clearLockFiles_quiet host m) as (m' & r & rest & R & U & F).
    assert (F' : Forall (touchesOnly Part000.GATEWAY_LOCK_PATHS)
                   (EvStartProcess
                      (Part000.testCommand "/tmp/clawdbot-gateway.lock") None r
                    :: rest)).
    { constructor; [| exact F]. exists "/tmp/clawdbot-gateway.lock".
      simpl. auto. }
    exists m'. eexists. split; [exact R |]. split; [exact U |].
    split; [exact F' |].
    eapply Forall_impl; [| exact F']. exact lock_commands_literal.
  - destruct (Lifecycle_clearLockFiles_quiet host m) as (m' & r & rest & R & U & F).
    exists m', r, rest. repeat split; try assumption; try apply U.
Qed.

(* ===================================================================== *)
(** * The fast path *)
(* ===================================================================== *)

Lemma Part000_ensure_resolved {W MoltbotEnv : Type} (host : Host W MoltbotEnv)
    (env : MoltbotEnv) (m m' : Machine W) :
  Part000.ensureGatewayRunningLogic host env m = (Returned tt, m') ->
  gatewayReady (stateRef m') = true.
Proof.
  intros R. destruct (gatewayReady (stateRef m)) eqn:G.
  - rewrite (Part000_ensure_fast host env m G) in R.
    injection R as <-. exact G.
  - destruct (Part000_ensure_run host env m G) as (o & m2 & evs & R2 & _ & P).
    rewrite R in R2. injection R2 as <- <-. apply P.
Qed.

Lemma Lifecycle_ensure_resolved {W MoltbotEnv : Type} (host : Host W MoltbotEnv)
    (env : MoltbotEnv) (m m' : Machine W) :
  Lifecycle.ensureGatewayRunningLogic host env m = (Returned tt, m') ->
  gatewayReady (stateRef m') = true.
Proof.
  intros R. destruct (gatewayReady (stateRef m)) eqn:G.
  - rewrite (Lifecycle_ensure_fast host env m G) in R.
    injection R as <-. exact G.
  - destruct (Lifecycle_ensure_run host env m G) as (o & m2 & evs & R2 & _ & P).
    rewrite R in R2. injection R2 as <- <-. exact P.
Qed.

(** C6.  On a machine whose cached [ready] is true, and so on any machine
    that a successful [ensure] has just left, [ensure] resolves at once:
    the whole machine (hidden platform state, clock, every field of the
    cached state, lock slot and trace of capability calls) is returned as
    it was.  This holds for the engine of part_000 and for the one of
    lifecycle.ts. *)
Theorem ensure_fast_path {W MoltbotEnv : Type} (host : Host W MoltbotEnv)
    (env : MoltbotEnv) (m0 m : Machine W) :
  gatewayReady (stateRef m) = true \/
  Part000.ensureGatewayRunningLogic host env m0 = (Returned tt, m) \/
  Lifecycle.ensureGatewayRunningLogic host env m0 = (Returned tt, m) ->
  Part000.ensureGatewayRunningLogic host env m = (Returned tt, m) /\
  Lifecycle.ensureGatewayRunningLogic host env m = (Returned tt, m).
Proof.
  intros H.
  assert (G : gatewayReady (stateRef m) = true).
  { destruct H as [H | [H | H]].
    - exact H.
    - exact (Part000_ensure_resolved host env m0 m H).
    - exact (Lifecycle_ensure_resolved host env m0 m H). }
  split.
  - exact (Part000_ensure_fast host env m G).
  - exact (Lifecycle_ensure_fast host env m G).
Qed.

Lemma ensure_fast_path_witness :
  let m :=
    snd (Part000.ensureGatewayRunningLogic (scripted coldStart) tt (boot 1000)) in
  Part000.ensureGatewayRunningLogic (scripted coldStart) tt m = (Returned tt, m) /\
  Lifecycle.ensureGatewayRunningLogic (scripted coldStart) tt m = (Returned tt, m).
Proof.
  cbv zeta.
  apply (ensure_fast_path (scripted coldStart) tt (boot 1000)).
  right. left. vm_compute. reflexivity.
Defined.

(* ===================================================================== *)
(** * Restart and stop *)
(* ===================================================================== *)

(** C7.  [restartGatewayLogic] goes through its phases in order on every
    machine, ready or not: [stopGateway] with the cached process id runs
    first and resolves (its first call being the graceful stop command);
    then [processId] is null and [ready] false; then [clearLockFiles]
    resolves; then [waitForPortFree] resolves, after at least one probe;
    and what restart does from there is exactly the Ensure algorithm, which
    it enters with [ready] false and [processId] null.  The same holds for
    lifecycle.ts with its own [clearLockFiles] and [waitForPortFree]. *)
Theorem restart_phases {W MoltbotEnv : Type} (host : Host W MoltbotEnv)
    (env : MoltbotEnv) (m : Machine W) :
  (exists m1 m2 m3 e1 e2 e3,
     stopGateway host (gatewayProcessId (stateRef m)) m = (Returned tt, m1) /\
     undisturbed m m1 e1 /\
     Part000.clearLockFiles host (cleared m1) = (Returned tt, m2) /\
     undisturbed (cleared m1) m2 e2 /\
     Part000.waitForPortFree host m2 = (Returned tt, m3) /\
     undisturbed m2 m3 e3 /\
     Part000.restartGatewayLogic host env m =
       Part000.ensureGatewayRunningLogic host env m3 /\
     gatewayReady (stateRef m3) = false /\
     gatewayProcessId (stateRef m3) = None /\
     trace m3 = (trace m ++ e1 ++ e2 ++ e3)%list /\
     (exists r rest, e1 = EvStartProcess stopCommand None r :: rest) /\
     (exists r rest,
        e2 = EvStartProcess (Part000.testCommand "/tmp/clawdbot-gateway.lock")
               None r :: rest) /\
     (exists ev rest, e3 = ev :: rest /\ isFetch ev)) /\
  (exists m1 m2 m3 e1 e2 e3,
     stopGateway host (gatewayProcessId (stateRef m)) m = (Returned tt, m1) /\
     undisturbed m m1 e1 /\
     Lifecycle.clearLockFiles host (cleared m1) = (Returned tt, m2) /\
     undisturbed (cleared m1) m2 e2 /\
     Lifecycle.waitForPortFree host m2 = (Returned tt, m3) /\
     undisturbed m2 m3 e3 /\
     Lifecycle.restartGatewayLogic host env m =
       Lifecycle.ensureGatewayRunningLogic host env m3 /\
     gatewayReady (stateRef m3) = false /\
     gatewayProcessId (stateRef m3) = None /\
     trace m3 = (trace m ++ e1 ++ e2 ++ e3)%list /\
     (exists r rest, e1 = EvStartProcess stopCommand None r :: rest) /\
     (exists r rest, e2 = EvStartProcess Lifecycle.clearCommand None r :: rest) /\
     (exists ev rest,
        e3 = EvSetTimeout Lifecycle.PORT_FREE_WAIT_MS :: ev :: rest /\ isFetch ev)).
Proof.
  assert (K : forall (m1 m2 m3 : Machine W) e1 e2 e3,
            undisturbed m m1 e1 -> undisturbed (cleared m1) m2 e2 ->
            undisturbed m2 m3 e3 ->
            gatewayReady (stateRef m3) = false /\
            gatewayProcessId (stateRef m3) = None /\
            trace m3 = (trace m ++ e1 ++ e2 ++ e3)%list).
  { intros m1 m2 m3 e1 e2 e3 (S1 & _ & _ & T1) (S2 & _ & _ & T2) (S3 & _ & _ & T3).
    rewrite S3, S2, T3, T2. simpl. rewrite T1, <- !app_assoc. auto. }
  split.
  - destruct (Part000_restart_run host env m)
      as (m1 & m2 & m3 & e1 & e2 & e3 & R1 & U1 & R2 & U2 & R3 & U3 & E & H).
    destruct (K m1 m2 m3 e1 e2 e3 U1 U2 U3) as (A & B & C).
    exists m1, m2, m3, e1, e2, e3. tauto.
  - destruct (Lifecycle_restart_run host env m)
      as (m1 & m2 & m3 & e1 & e2 & e3 & R1 & U1 & R2 & U2 & R3 & U3 & E & H).
    destruct (K m1 m2 m3 e1 e2 e3 U1 U2 U3) as (A & B & C).
    exists m1, m2, m3, e1, e2, e3. tauto.
Qed.

(** C8.  [stopGateway] resolves for every behaviour of the capabilities:
    each of its three layers resolves on its own, whatever its calls raise,
    so the next one runs; the signature search of the last layer is always
    made and a process it finds is always sent a kill.  Inside restart the
    stop therefore never ends the sequence: lock clearing, the port-free
    wait and the Ensure algorithm follow.  The search by signature itself
    is taken to return a process or none, as the capability is typed. *)
Theorem stop_is_best_effort {W MoltbotEnv : Type} (host : Host W MoltbotEnv)
    (env : MoltbotEnv) (processId : option string) (m : Machine W) :
  (exists m', gracefulStop host m = (Returned tt, m')) /\
  (exists m', forceKill host processId m = (Returned tt, m')) /\
  (exists m', sweepKill host m = (Returned tt, m')) /\
  (exists m' r mid found rest,
     stopGateway host processId m = (Returned tt, m') /\
     undisturbed m m'
       (EvStartProcess stopCommand None r :: mid ++ EvFindExisting found :: rest) /\
     match found with
     | Some p => exists k, rest = [EvKill p k]
     | None => rest = []
     end) /\
  (exists m3 stopped r cleared probe waited,
     Part000.restartGatewayLogic host env m =
       Part000.ensureGatewayRunningLogic host env m3 /\
     trace m3 =
       (trace m ++ stopped
          ++ (EvStartProcess (Part000.testCommand "/tmp/clawdbot-gateway.lock")
                None r :: cleared)
          ++ probe :: waited)%list /\
     isFetch probe).
Proof.
  split.
  { destruct (gracefulStop_quiet host m) as (m' & _ & _ & R & _). eauto. }
  split.
  { destruct (forceKill_quiet host processId m) as (m' & _ & R & _). eauto. }
  split.
  { destruct (sweepKill_quiet host m) as (m' & _ & _ & R & _). eauto. }
  split.
  { exact (stopGateway_quiet host processId m). }
  destruct (Part000_restart_run host env m)
    as (m1 & m2 & m3 & e1 & e2 & e3 & R1 & U1 & R2 & U2 & R3 & U3 & E
        & _ & (r & rest2 & ->) & (ev & rest3 & -> & I)).
  exists m3, e1, r, rest2, ev, rest3. split; [exact E |]. split; [| exact I].
  destruct U1 as (_ & _ & _ & T1). destruct U2 as (_ & _ & _ & T2).
  destruct U3 as (_ & _ & _ & T3).
  rewrite T3, T2. simpl. rewrite T1, <- !app_assoc. reflexivity.
Qed.

(** The run of C8 on a platform where a gateway runs and every kill
    raises: restart still answers, now with the gateway found healthy. *)
Example restart_with_failing_kills :
  let run :=
    Part000.handleRestart (scripted unkillable) tt
      (machineWith (mkState (Some "proc-0") 5 true 5)) in
  fst run = Returned (mkResponse 200 (BodyOk true (Some "proc-0"))) /\
  (List.length (filter (fun ev => match ev with
                             | EvKill _ (inl _) => true
                             | _ => false
                             end) (trace (snd run))) = 2)%nat.
Proof.
  cbv zeta. split; vm_compute; reflexivity.
Qed.

(* ===================================================================== *)
(** * Dispatch *)
(* ===================================================================== *)

Lemma onlySlashes_strip (s : string) :
  onlySlashes s = true -> stripLeadingSlashes s = EmptyString.
Proof.
  induction s as [| c r IH]; simpl; [reflexivity |].
  destruct (Ascii.eqb c "/"); simpl; [exact IH | discriminate].
Qed.

Lemma handler_status {W} (op : M W unit) (m m' : Machine W) resp :
  tryCatch (Part000.runWithLock op ;; Part000.okResponse)
    Part000.errorResponse m = (Returned resp, m') ->
  status resp = 200 \/ status resp = 503.
Proof.
  unfold tryCatch, bind, Part000.runWithLock, tryFinally,
    Part000.okResponse, Part000.errorResponse, getRef, ret, bind.
  destruct (startLock m); [discriminate |].
  destruct (op (setLock true m)) as [[[] | e |] m1]; intros H;
    try discriminate H; injection H as <- _; auto.
Qed.

(** C10.  A path that is empty or made of slashes only is served by the
    ensure handler; and a response of [fetch] has status 404 exactly when
    the path, its leading slashes removed and [ensure] put for the empty
    rest, is none of [ensure], [restart] and [state]. *)
Theorem fetch_routes {W MoltbotEnv : Type} (host : Host W MoltbotEnv)
    (env : MoltbotEnv) (pathname : string) (m : Machine W) :
  (onlySlashes pathname = true ->
   Part000.fetch host env pathname m = Part000.handleEnsure host env m) /\
  (forall resp m',
     Part000.fetch host env pathname m = (Returned resp, m') ->
     (status resp = 404 <->
      Part000.routeOf pathname <> "ensure" /\
      Part000.routeOf pathname <> "restart" /\
      Part000.routeOf pathname <> "state")).
Proof.
  split.
  - intros S. unfold Part000.fetch, Part000.routeOf.
    rewrite (onlySlashes_strip pathname S). reflexivity.
  - intros resp m'. unfold Part000.fetch.
    destruct (String.eqb_spec (Part000.routeOf pathname) "ensure") as [E | E].
    { intros H. apply handler_status in H.
      split; [intros S; rewrite S in H; destruct H; discriminate | tauto]. }
    destruct (String.eqb_spec (Part000.routeOf pathname) "restart") as [R | R].
    { intros H. apply handler_status in H.
      split; [intros S; rewrite S in H; destruct H; discriminate | tauto]. }
    destruct (String.eqb_spec (Part000.routeOf pathname) "state") as [S | S].
    { unfold Part000.handleGetState, bind, getRef, ret. intros H.
      injection H as <- _. simpl. split; [discriminate | tauto]. }
    unfold ret. intros H. injection H as <- _. simpl. tauto.
Qed.

Lemma fetch_routes_witness :
  Part000.fetch (scripted coldStart) tt "//" (boot 7)
    = Part000.handleEnsure (scripted coldStart) tt (boot 7) /\
  (status Part000.notFound = 404 <->
   Part000.routeOf "/status" <> "ensure" /\
   Part000.routeOf "/status" <> "restart" /\
   Part000.routeOf "/status" <> "state").
Proof.
  split.
  - apply (proj1 (fetch_routes (scripted coldStart) tt "//" (boot 7))).
    reflexivity.
  - apply (proj2 (fetch_routes (scripted coldStart) tt "/status" (boot 7))
             Part000.notFound (boot 7)).
    reflexivity.
Defined.

(* ===================================================================== *)
(** * The lock *)
(* ===================================================================== *)

Section LockFacts.
Import LockModel.

Lemma upd_same f i c : upd f i c i = c.
Proof. unfold upd. rewrite Nat.eqb_refl. reflexivity. Qed.

Lemma upd_other f i c j : j <> i -> upd f i c j = f j.
Proof.
  intros N. unfold upd. destruct (Nat.eqb_spec j i); [contradiction | reflexivity].
Qed.

Lemma coherent_initial : coherent initial.
Proof.
  split; simpl.
  - intros i. split; discriminate.
  - intros i p H. discriminate H.
Qed.

(** Entering the loop keeps the slot coherent, for a call that nobody
    waits for and that does not run. *)
Lemma coherent_enter o i :
  coherent o -> calls o i <> Running -> (forall r, calls o i <> Settled r) ->
  coherent (enter o i).
Proof.
  intros (C1 & C2) NRun NSet. unfold enter.
  destruct (slot o) as [p |] eqn:S; split; simpl.
  - intros j. destruct (Nat.eq_dec j i) as [-> | N].
    + rewrite upd_same. split; [| discriminate].
      intros H. apply C1 in H. contradiction.
    + rewrite upd_other by exact N. apply C1.
  - intros j q. destruct (Nat.eq_dec j i) as [-> | N].
    + rewrite upd_same. intros H. injection H as <-.
      assert (P : calls o p = Running) by (apply C1; reflexivity).
      assert (p <> i) by (intros ->; contradiction).
      rewrite upd_other by assumption. auto.
    + rewrite upd_other by exact N. intros H.
      assert (q <> i).
      { intros ->. destruct (C2 _ _ H) as [R | (r & R)];
          [contradiction | exact (NSet r R)]. }
      rewrite upd_other by assumption. exact (C2 _ _ H).
  - intros j. destruct (Nat.eq_dec j i) as [-> | N].
    + rewrite upd_same. tauto.
    + rewrite upd_other by exact N. split.
      * intros H. injection H as ->. contradiction.
      * intros H. apply C1 in H. discriminate H.
  - intros j q. destruct (Nat.eq_dec j i) as [-> | N].
    + rewrite upd_same. discriminate.
    + rewrite upd_other by exact N. intros H.
      assert (q <> i).
      { intros ->. destruct (C2 _ _ H) as [R | (r & R)];
          [contradiction | exact (NSet r R)]. }
      rewrite upd_other by assumption. exact (C2 _ _ H).
Qed.

Lemma coherent_step o a o' :
  coherent o -> step o a = Some o' -> coherent o'.
Proof.
  intros C. destruct a as [i | i | i r]; simpl.
  - destruct (calls o i) eqn:E; try discriminate.
    intros H. injection H as <-.
    apply coherent_enter; [exact C | |]; rewrite E; discriminate.
  - destruct (calls o i) as [| p | |] eqn:E; try discriminate.
    destruct (calls o p) as [| | | [|]] eqn:P; try discriminate;
      intros H; injection H as <-.
    + apply coherent_enter; [exact C | |]; rewrite E; discriminate.
    + destruct C as (C1 & C2). split; simpl.
      * intros j. destruct (Nat.eq_dec j i) as [-> | N].
        -- rewrite upd_same. split; [| discriminate].
           intros H. apply C1 in H. rewrite E in H. discriminate H.
        -- rewrite upd_other by exact N. apply C1.
      * intros j q. destruct (Nat.eq_dec j i) as [-> | N].
        -- rewrite upd_same. discriminate.
        -- rewrite upd_other by exact N. intros H.
           assert (q <> i).
           { intros ->. destruct (C2 _ _ H) as [R | (r & R)];
               rewrite E in R; discriminate R. }
           rewrite upd_other by assumption. exact (C2 _ _ H).
  - destruct (calls o i) eqn:E; try discriminate.
    intros H. injection H as <-.
    destruct C as (C1 & C2). split; simpl.
    + intros j. split; [discriminate |].
      destruct (Nat.eq_dec j i) as [-> | N].
      * rewrite upd_same. discriminate.
      * rewrite upd_other by exact N. intros H.
        apply C1 in H. apply C1 in E. congruence.
    + intros j q. destruct (Nat.eq_dec j i) as [-> | N].
      * rewrite upd_same. discriminate.
      * rewrite upd_other by exact N. intros H.
        destruct (Nat.eq_dec q i) as [-> | Q].
        -- rewrite upd_same. eauto.
        -- rewrite upd_other by exact Q. exact (C2 _ _ H).
Qed.

Lemma reachable_coherent o : reachable o -> coherent o.
Proof.
  induction 1 as [| o a o' _ IH S].
  - exact coherent_initial.
  - exact (coherent_step o a o' IH S).
Qed.

Lemma run_reachable acts : forall o o',
  reachable o -> run o acts = Some o' -> reachable o'.
Proof.
  induction acts as [| a rest IH]; intros o o' R; simpl.
  - intros H. injection H as <-. exact R.
  - destruct (step o a) as [o1 |] eqn:S; [| discriminate].
    apply IH. exact (reach_step o a o1 R S).
Qed.

(** C9.  In every state that a schedule of concurrently issued calls
    leads to, at most one call runs its operation.  When the running
    call settles, with either result, the slot is emptied and no call
    runs, so a call issued afterwards starts its operation at once.  No
    waiting call is stuck: the call it waits for has settled and it can
    wake, or that call is the running one and can settle. *)
Theorem lock_is_exclusive (acts : list Action) (o : Owner) :
  run initial acts = Some o ->
  (forall i j, calls o i = Running -> calls o j = Running -> i = j) /\
  (forall i r, calls o i = Running ->
     exists o', step o (Finish i r) = Some o' /\
       slot o' = None /\ (forall j, calls o' j <> Running) /\
       forall j, calls o' j = NotIssued ->
         exists o'', step o' (Issue j) = Some o'' /\ calls o'' j = Running) /\
  (forall i p, calls o i = Awaiting p ->
     (exists o', step o (Wake i) = Some o') \/
     (calls o p = Running /\ forall r, exists o', step o (Finish p r) = Some o')).
Proof.
  intros H.
  pose proof (run_reachable acts initial o reach_initial H) as R.
  pose proof (reachable_coherent o R) as (C1 & C2).
  split; [| split].
  - intros i j Hi Hj. apply C1 in Hi, Hj. congruence.
  - intros i r Hi.
    assert (S : step o (Finish i r)
                = Some (mkOwner None (upd (calls o) i (Settled r)))).
    { simpl. rewrite Hi. reflexivity. }
    eexists. split; [exact S |].
    pose proof (reach_step o _ _ R S) as R'.
    pose proof (reachable_coherent _ R') as (D1 & _).
    split; [reflexivity |]. split.
    + intros j Hj. apply D1 in Hj. discriminate Hj.
    + intros j Hj. simpl. simpl in Hj. rewrite Hj. unfold enter. simpl.
      eexists. split; [reflexivity |]. simpl. apply upd_same.
  - intros i p Hi. destruct (C2 i p Hi) as [Hp | (r & Hp)].
    + right. split; [exact Hp |]. intros r. simpl. rewrite Hp. eauto.
    + left. simpl. rewrite Hi, Hp. destruct r; eauto.
Qed.

Lemma lock_is_exclusive_witness :
  (forall i j, calls busy i = Running -> calls busy j = Running -> i = j) /\
  (forall i r, calls busy i = Running ->
     exists o', step busy (Finish i r) = Some o' /\
       slot o' = None /\ (forall j, calls o' j <> Running) /\
       forall j, calls o' j = NotIssued ->
         exists o'', step o' (Issue j) = Some o'' /\ calls o'' j = Running) /\
  (forall i p, calls busy i = Awaiting p ->
     (exists o', step busy (Wake i) = Some o') \/
     (calls busy p = Running /\
      forall r, exists o', step busy (Finish p r) = Some o')).
Proof.
  apply (lock_is_exclusive [Issue 0%nat; Issue 1%nat] busy).
  reflexivity.
Defined.

(** The first of two calls throws: the second, which waited for it, is
    woken by the rejection and settles as rejected without having run;
    a third call then finds the slot empty and runs. *)
Example waiter_sees_rejection :
  match run busy [Finish 0%nat Rejected; Wake 1%nat; Issue 2%nat] with
  | Some o =>
      calls o 0%nat = Settled Rejected /\ calls o 1%nat = Settled Rejected /\
      calls o 2%nat = Running /\ slot o = Some 2%nat
  | None => False
  end.
Proof.
  vm_compute. repeat split.
Qed.
End LockFacts.

(* ===================================================================== *)
(** * Sandbox options *)
(* ===================================================================== *)

Lemma lowerAscii_idem (c : ascii) : lowerAscii (lowerAscii c) = lowerAscii c.
Proof.
  destruct c as [[] [] [] [] [] [] [] []]; vm_compute; reflexivity.
Qed.

Lemma toLowerCase_idem (s : string) : toLowerCase (toLowerCase s) = toLowerCase s.
Proof.
  induction s as [| c r IH]; simpl; [reflexivity |].
  rewrite lowerAscii_idem, IH. reflexivity.
Qed.

Lemma toLowerCase_empty (s : string) : toLowerCase s = EmptyString -> s = EmptyString.
Proof. destruct s; [reflexivity | discriminate]. Qed.

(** X1.  [buildSandboxOptions] sets exactly one of its two fields.  It
    answers [{ keepAlive: true }] when the variable is unset, empty, or
    spells "never" in any letter case; otherwise it answers
    [{ sleepAfter }] with the value in lower case, which is then neither
    empty nor "never". *)
Theorem sandbox_options_cases (env : SleepEnv) :
  (buildSandboxOptions env = mkOptions (Some true) None /\
   (SANDBOX_SLEEP_AFTER env = None \/
    SANDBOX_SLEEP_AFTER env = Some EmptyString \/
    exists s, SANDBOX_SLEEP_AFTER env = Some s /\ toLowerCase s = "never")) \/
  (exists s,
     SANDBOX_SLEEP_AFTER env = Some s /\
     buildSandboxOptions env = mkOptions None (Some (toLowerCase s)) /\
     toLowerCase s <> "never" /\ s <> EmptyString /\
     toLowerCase (toLowerCase s) = toLowerCase s).
Proof.
  unfold buildSandboxOptions. destruct env as [[s |]]; simpl.
  - destruct s as [| c r].
    + left. simpl. auto.
    + set (t := String c r). change (String (lowerAscii c) (toLowerCase r))
        with (toLowerCase t). 
      assert (E : strOr (toLowerCase t) "never" = toLowerCase t) by reflexivity.
      rewrite E. destruct (String.eqb_spec (toLowerCase t) "never") as [N | N].
      * left. split; [reflexivity |]. right. right. exists t. auto.
      * right. exists t. repeat split; try assumption; try discriminate.
        apply toLowerCase_idem.
  - left. auto.
Qed.

(* ===================================================================== *)
(** * Dispatch, continued *)
(* ===================================================================== *)

Lemma strip_slashes (n : nat) (s : string) :
  stripLeadingSlashes (slashes n ++ s) = stripLeadingSlashes s.
Proof.
  induction n as [| n IH]; simpl; [reflexivity | exact IH].
Qed.

Lemma slashes_empty (n : nat) : slashes n ++ EmptyString = slashes n.
Proof.
  induction n as [| n IH]; simpl; [reflexivity | rewrite IH; reflexivity].
Qed.

(** X2.  [fetch] ignores any number of leading slashes: the three names,
    behind however many slashes, reach their handlers, and slashes alone
    reach the ensure handler. *)
Theorem fetch_ignores_leading_slashes {W MoltbotEnv : Type}
    (host : Host W MoltbotEnv) (env : MoltbotEnv) (n : nat) (m : Machine W) :
  Part000.fetch host env (slashes n ++ "ensure") m = Part000.handleEnsure host env m /\
  Part000.fetch host env (slashes n ++ "restart") m = Part000.handleRestart host env m /\
  Part000.fetch host env (slashes n ++ "state") m = Part000.handleGetState m /\
  Part000.fetch host env (slashes n) m = Part000.handleEnsure host env m /\
  forall s, Part000.fetch host env (slashes n ++ s) m = Part000.fetch host env s m.
Proof.
  assert (K : forall s, Part000.fetch host env (slashes n ++ s) m
                        = Part000.fetch host env s m).
  { intros s. unfold Part000.fetch, Part000.routeOf.
    rewrite strip_slashes. reflexivity. }
  repeat split; try (rewrite K; reflexivity); [| exact K].
  rewrite <- (slashes_empty n) at 1. rewrite K. reflexivity.
Qed.

(* ===================================================================== *)
(** * The lock, continued *)
(* ===================================================================== *)

Section LockMore.
Import LockModel.

(** X3.  What the callers queued behind an operation get: when the
    running call [p] throws, a call [i] that awaited it is woken by the
    rejection and rejects as well, without its own operation ever running
    and with the slot left empty; when [p] resolves, [i] finds the slot
    empty, installs itself and runs. *)
Theorem waiter_shares_outcome (o : Owner) (i p : nat) :
  calls o i = Awaiting p -> calls o p = Running ->
  (exists o1 o2,
     step o (Finish p Rejected) = Some o1 /\ step o1 (Wake i) = Some o2 /\
     calls o2 i = Settled Rejected /\ calls o2 p = Settled Rejected /\
     slot o2 = None) /\
  (exists o1 o2,
     step o (Finish p Fulfilled) = Some o1 /\ step o1 (Wake i) = Some o2 /\
     calls o2 i = Running /\ calls o2 p = Settled Fulfilled /\
     slot o2 = Some i).
Proof.
  intros Hi Hp.
  assert (N : i <> p) by (intros ->; rewrite Hi in Hp; discriminate Hp).
  split.
  - do 2 eexists. split; [simpl; rewrite Hp; reflexivity |].
    split; [simpl; rewrite upd_other by exact N; rewrite Hi, upd_same;
            reflexivity |].
    simpl. split; [apply upd_same |]. split; [| reflexivity].
    rewrite upd_other by (intros E; apply N; symmetry; exact E). apply upd_same.
  - do 2 eexists. split; [simpl; rewrite Hp; reflexivity |].
    split; [simpl; rewrite upd_other by exact N; rewrite Hi, upd_same;
            reflexivity |].
    unfold enter. simpl. split; [apply upd_same |]. split; [| reflexivity].
    rewrite upd_other by (intros E; apply N; symmetry; exact E). apply upd_same.
Qed.

Lemma waiter_shares_outcome_witness :
  (exists o1 o2,
     step busy (Finish 0%nat Rejected) = Some o1 /\
     step o1 (Wake 1%nat) = Some o2 /\
     calls o2 1%nat = Settled Rejected /\ calls o2 0%nat = Settled Rejected /\
     slot o2 = None) /\
  (exists o1 o2,
     step busy (Finish 0%nat Fulfilled) = Some o1 /\
     step o1 (Wake 1%nat) = Some o2 /\
     calls o2 1%nat = Running /\ calls o2 0%nat = Settled Fulfilled /\
     slot o2 = Some 1%nat).
Proof.
  apply (waiter_shares_outcome busy 1%nat 0%nat); reflexivity.
Defined.

End LockMore.

(* ===================================================================== *)
(** * Stop and lock clearing, continued *)
(* ===================================================================== *)

(** Reduces a run up to the next capability call. *)
Ltac upto :=
  cbv beta iota zeta; cbn [advance world clock stateRef startLock trace].

(** X5.  The force-kill layer of [stopGateway] never raises and never
    touches the cached state.  With a null or empty [processId] it makes no
    call at all.  Otherwise it lists the processes exactly once; it sends
    a kill, one only, exactly when the first listed process whose id is the
    cached [processId] is running or starting, and to that process;
    nothing is killed when the listing raises, when no listed process has
    that id, or when that process is not live. *)
Theorem forceKill_is_targeted {W MoltbotEnv : Type} (host : Host W MoltbotEnv)
    (processId : option string) (m : Machine W) :
  exists m' evs,
    forceKill host processId m = (Returned tt, m') /\
    undisturbed m m' evs /\
    match processId with
    | Some (String c r) => ForceKillCalls (String c r) evs
    | _ => evs = []
    end.
Proof.
  unfold forceKill.
  destruct processId as [[| c r] |];
    try (exists m, []; split; [reflexivity |];
         split; [apply undisturbed_refl | reflexivity]).
  unfold tryCatch, bind, doListProcesses, doKill, call, ret.
  destruct (listProcesses host (world m)) as [[w1 d1] [e1 | ps]]; upto.
  - do 2 eexists. split; [reflexivity |]. split; [frame | constructor].
  - destruct (find (fun p => String.eqb (proc_id p) (String c r)) ps)
      as [proc |] eqn:F; upto.
    + pose proof (find_some _ _ F) as (I & Q). apply String.eqb_eq in Q.
      destruct (isLive proc) eqn:L; upto.
      * destruct (kill host proc w1) as [[w2 d2] [e2 | []]]; upto;
          do 2 eexists; (split; [reflexivity |]); (split; [frame |]);
          apply (KillSent _ ps proc); assumption.
      * do 2 eexists. split; [reflexivity |]. split; [frame |].
        apply (NotLive _ ps proc); assumption.
    + do 2 eexists. split; [reflexivity |]. split; [frame |].
      apply NotListed. exact F.
Qed.

Section ClearRounds.
Context {W MoltbotEnv : Type} (host : Host W MoltbotEnv).

Lemma clearOne_round (p : string) (m : Machine W) :
  exists o m' c evs,
    Part000.clearOne host p m = (o, m') /\ undisturbed m m' evs /\
    Round p c evs /\
    if c then o = Returned tt else exists e, o = Threw e.
Proof.
  unfold Part000.clearOne, bind, doStartProcess, doWaitForProcess, doGetLogs,
    call, ret.
  destruct (startProcess host (Part000.testCommand p) None (world m))
    as [[w1 d1] [e1 | q]]; upto.
  { exists (Threw e1). eexists. exists false. eexists.
    split; [reflexivity |]. split; [frame |]. split; [constructor | eauto]. }
  destruct (waitForProcess host q 3000 w1) as [[w2 d2] [e2 | []]];
    upto.
  { exists (Threw e2). eexists. exists false. eexists.
    split; [reflexivity |]. split; [frame |]. split; [constructor | eauto]. }
  destruct (getLogs host q w2) as [[w3 d3] [e3 | logs]]; upto.
  { exists (Threw e3). eexists. exists false. eexists.
    split; [reflexivity |]. split; [frame |]. split; [constructor | eauto]. }
  destruct (Part000.echoed logs p) eqn:E; upto.
  - destruct (startProcess host (Part000.rmCommand p) None w3)
      as [[w4 d4] [e4 | q']]; upto.
    { exists (Threw e4). eexists. exists false. eexists.
      split; [reflexivity |]. split; [frame |].
      split; [apply RemovalNotStarted; exact E | eauto]. }
      destruct (waitForProcess host q' 3000 w4) as [[w5 d5] [e5 | []]];
      upto.
    + exists (Threw e5). eexists. exists false. eexists.
      split; [reflexivity |]. split; [frame |].
      split; [apply RemovalNotAwaited; exact E | eauto].
    + exists (Returned tt). eexists. exists true. eexists.
      split; [reflexivity |]. split; [frame |].
      split; [apply LockRemoved; exact E | reflexivity].
  - exists (Returned tt). eexists. exists true. eexists.
    split; [reflexivity |]. split; [frame |].
    split; [apply LockAbsent; exact E | reflexivity].
Qed.

(** X6.  [clearLockFiles] of part_000 handles the two lock paths in
    order, each in one round of calls: a removal is started only for a
    path whose test process printed exactly that path (after trimming), and
    a round that raises ends the whole function, so that a failure on the
    first path leaves the second untested.  The function itself always
    resolves. *)
Theorem clearLockFiles_rounds (m : Machine W) :
  exists m' c1 e1 e2,
    Part000.clearLockFiles host m = (Returned tt, m') /\
    undisturbed m m' (e1 ++ e2) /\
    Round "/tmp/clawdbot-gateway.lock" c1 e1 /\
    if c1 then exists c2, Round "/root/.clawdbot/gateway.lock" c2 e2
    else e2 = [].
Proof.
  unfold Part000.clearLockFiles, tryCatch, Part000.GATEWAY_LOCK_PATHS.
  change (CLAWDBOT_DATA_DIR ++ "/gateway.lock")%string
    with "/root/.clawdbot/gateway.lock".
  cbn [forOf]. unfold bind at 1.
  destruct (clearOne_round "/tmp/clawdbot-gateway.lock" m)
    as (o1 & m1 & c1 & e1 & R1 & U1 & S1 & O1).
  rewrite R1. destruct c1.
  - subst o1. unfold bind at 1.
    destruct (clearOne_round "/root/.clawdbot/gateway.lock" m1)
      as (o2 & m2 & c2 & e2 & R2 & U2 & S2 & O2).
    rewrite R2. exists m2, true, e1, e2.
    pose proof (undisturbed_trans _ _ _ _ _ U1 U2) as U.
    destruct c2.
    + subst o2. unfold ret. split; [reflexivity |]. split; [exact U | eauto].
    + destruct O2 as (e & ->). unfold ret.
      split; [reflexivity |]. split; [exact U | eauto].
  - destruct O1 as (e & ->). unfold ret. exists m1, false, e1, [].
    rewrite app_nil_r. auto.
Qed.
End ClearRounds.

(* ===================================================================== *)
(** * The port-free wait, continued *)
(* ===================================================================== *)

Lemma probes_app (a b : list Event) : probes (a ++ b) = (probes a + probes b)%nat.
Proof. unfold probes. rewrite filter_app, length_app. reflexivity. Qed.

Section PortFreeBounds.
Context {W MoltbotEnv : Type} (host : Host W MoltbotEnv).

Lemma Part000_portFreeLoop_probes (fuel : nat) :
  forall deadline (m : Machine W),
    deadline - clock m <= 500 * Z.of_nat fuel ->
    exists m' evs,
      Part000.portFreeLoop host (S fuel) deadline m = (Returned tt, m') /\
      undisturbed m m' evs /\
      (probes evs <= fuel)%nat /\
      Forall (fun ev => isFetch ev \/ ev = EvSetTimeout 500) evs /\
      (deadline <= clock m' \/
       exists before url port dt r,
         evs = (before ++ [EvContainerFetch url port dt r])%list /\
         strictVerdict r = false).
Proof.
  induction fuel as [| fuel IH]; intros deadline m B.
  - exists m, []. simpl. unfold bind, dateNow.
    destruct (Z.ltb_spec (clock m) deadline); [lia |].
    split; [reflexivity |]. split; [apply undisturbed_refl |].
    split; [unfold probes; simpl; lia |]. split; [constructor | left; lia].
  - change (Part000.portFreeLoop host (S (S fuel)) deadline m)
      with ((now <- dateNow ;;
             if now <? deadline then
               healthy <- Part000.isGatewayHealthy host ;;
               if negb healthy then ret tt
               else sleep host Part000.PORT_FREE_POLL_MS ;;
                    Part000.portFreeLoop host (S fuel) deadline
             else ret tt) m).
    unfold bind at 1, dateNow.
    destruct (Z.ltb_spec (clock m) deadline) as [L | L].
    + destruct (Part000_isGatewayHealthy_probe host m) as (w & dt & r & R1).
      rewrite (bind_returned _ _ _ _ _ R1).
      set (ev := EvContainerFetch (Part000.healthUrl host) (MOLTBOT_PORT host) dt r)
        in *.
      set (m1 := advance m w _ _) in *.
      assert (U1 : undisturbed m m1 [ev]) by (subst m1; frame).
      destruct (strictVerdict r) eqn:V; cbn [negb].
      * destruct (sleep_run host Part000.PORT_FREE_POLL_MS m1)
          as (m2 & R2 & S2 & K2 & C2 & T2).
        rewrite (bind_returned _ _ _ _ _ R2).
        unfold Part000.PORT_FREE_POLL_MS in *.
        assert (U2 : undisturbed m1 m2 [EvSetTimeout 500]).
        { unfold undisturbed. repeat split; try assumption; lia. }
        destruct (IH deadline m2) as (m3 & evs & R3 & U3 & P3 & F3 & X3).
        { destruct U1 as (_ & _ & C1 & _). lia. }
        exists m3, ([ev] ++ [EvSetTimeout 500] ++ evs)%list.
        split; [exact R3 |]. split.
        { rewrite app_assoc.
          exact (undisturbed_trans _ _ _ _ _
                   (undisturbed_trans _ _ _ _ _ U1 U2) U3). }
        split.
        { rewrite !probes_app. unfold probes at 1 2. simpl. lia. }
        split.
        { constructor; [left; exact I |]. constructor; [right; reflexivity |].
          exact F3. }
        destruct X3 as [X3 | (before & url & port & dt' & r' & -> & V')];
          [left; exact X3 |].
        right. exists ([ev] ++ [EvSetTimeout 500] ++ before)%list, url, port, dt', r'.
        split; [rewrite <- !app_assoc; reflexivity | exact V'].
      * exists m1, [ev]. split; [reflexivity |]. split; [exact U1 |].
        split; [unfold probes; simpl; lia |].
        split; [constructor; [left; exact I | constructor] |].
        right. exists [], (Part000.healthUrl host), (MOLTBOT_PORT host), dt, r.
        split; [reflexivity | exact V].
    + exists m, []. split; [reflexivity |]. split; [apply undisturbed_refl |].
      split; [unfold probes; simpl; lia |]. split; [constructor | left; lia].
Qed.

(** X7.  [waitForPortFree] of part_000 always resolves and never touches
    the cached state; it makes between one and thirty probes and nothing
    else but 500 ms pauses, and when it resolves either its last probe
    did not find a healthy gateway or the 15 s deadline has passed. *)
Theorem Part000_waitForPortFree_bounded (m : Machine W) :
  exists m' evs,
    Part000.waitForPortFree host m = (Returned tt, m') /\
    undisturbed m m' evs /\
    (1 <= probes evs <= 30)%nat /\
    Forall (fun ev => isFetch ev \/ ev = EvSetTimeout 500) evs /\
    (clock m + 15000 <= clock m' \/
     exists before url port dt r,
       evs = (before ++ [EvContainerFetch url port dt r])%list /\
       strictVerdict r = false).
Proof.
  destruct (Part000_portFreeLoop_probes 30 (clock m + 15000) m)
    as (m' & evs & R & U & P & F & X); [lia |].
  destruct (Part000_waitForPortFree_total host m)
    as (m2 & ev & rest & R2 & U2 & I2 & _).
  assert (E : (Returned tt, m2) = (Returned tt, m')).
  { rewrite <- R2, <- R. reflexivity. }
  injection E as ->.
  assert (evs = ev :: rest) as ->.
  { destruct U as (_ & _ & _ & T). destruct U2 as (_ & _ & _ & T2).
    rewrite T in T2. apply app_inv_head in T2. exact T2. }
  exists m', (ev :: rest). split; [exact R2 |]. split; [exact U |].
  split; [| split; assumption].
  split; [| exact P].
  unfold probes. simpl. destruct ev; try contradiction. simpl. lia.
Qed.

Lemma Lifecycle_portFreeLoop_probes (fuel : nat) :
  forall deadline (m : Machine W),
    deadline - clock m <= 1000 * Z.of_nat fuel ->
    exists m' evs,
      Lifecycle.portFreeLoop host (S fuel) deadline m = (Returned tt, m') /\
      undisturbed m m' evs /\
      (probes evs <= fuel)%nat /\
      Forall (fun ev => isFetch ev \/ ev = EvSetTimeout 1000) evs /\
      (clock m < deadline -> (1 <= probes evs)%nat) /\
      (deadline <= clock m' \/
       exists before url port dt r,
         evs = (before ++ [EvContainerFetch url port dt r])%list /\
         looseVerdict r = false).
Proof.
  induction fuel as [| fuel IH]; intros deadline m B.
  - exists m, []. simpl. unfold bind, dateNow.
    destruct (Z.ltb_spec (clock m) deadline); [lia |].
    split; [reflexivity |]. split; [apply undisturbed_refl |].
    split; [unfold probes; simpl; lia |]. split; [constructor |].
    split; [lia | left; lia].
  - change (Lifecycle.portFreeLoop host (S (S fuel)) deadline m)
      with ((now <- dateNow ;;
             if now <? deadline then
               healthy <- Lifecycle.isGatewayHealthy host ;;
               if negb healthy then ret tt
               else sleep host 1000 ;;
                    Lifecycle.portFreeLoop host (S fuel) deadline
             else ret tt) m).
    unfold bind at 1, dateNow.
    destruct (Z.ltb_spec (clock m) deadline) as [L | L].
    + destruct (containerFetch host (Lifecycle.healthUrl host) (MOLTBOT_PORT host)
                  (world m)) as [[w dt] r] eqn:E.
      pose proof (Lifecycle_isGatewayHealthy_run host m w dt r E) as R1.
      rewrite (bind_returned _ _ _ _ _ R1).
      set (ev := EvContainerFetch (Lifecycle.healthUrl host) (MOLTBOT_PORT host)
                   dt r) in *.
      set (m1 := advance m w _ _) in *.
      assert (U1 : undisturbed m m1 [ev]) by (subst m1; frame).
      destruct (looseVerdict r) eqn:V; cbn [negb].
      * destruct (sleep_run host 1000 m1) as (m2 & R2 & S2 & K2 & C2 & T2).
        rewrite (bind_returned _ _ _ _ _ R2).
        assert (U2 : undisturbed m1 m2 [EvSetTimeout 1000]).
        { unfold undisturbed. repeat split; try assumption; lia. }
        destruct (IH deadline m2) as (m3 & evs & R3 & U3 & P3 & F3 & _ & X3).
        { destruct U1 as (_ & _ & C1 & _). lia. }
        exists m3, ([ev] ++ [EvSetTimeout 1000] ++ evs)%list.
        split; [exact R3 |]. split.
        { rewrite app_assoc.
          exact (undisturbed_trans _ _ _ _ _
                   (undisturbed_trans _ _ _ _ _ U1 U2) U3). }
        split.
        { rewrite !probes_app. unfold probes at 1 2. simpl. lia. }
        split.
        { constructor; [left; exact I |]. constructor; [right; reflexivity |].
          exact F3. }
        split.
        { intros _. rewrite !probes_app. unfold probes at 1. simpl. lia. }
        destruct X3 as [X3 | (before & url & port & dt' & r' & -> & V')];
          [left; exact X3 |].
        right. exists ([ev] ++ [EvSetTimeout 1000] ++ before)%list, url, port, dt', r'.
        split; [rewrite <- !app_assoc; reflexivity | exact V'].
      * exists m1, [ev]. split; [reflexivity |]. split; [exact U1 |].
        split; [unfold probes; simpl; lia |].
        split; [constructor; [left; exact I | constructor] |].
        split; [intros _; unfold probes; simpl; lia |].
        right. exists [], (Lifecycle.healthUrl host), (MOLTBOT_PORT host), dt, r.
        split; [reflexivity | exact V].
    + exists m, []. split; [reflexivity |]. split; [apply undisturbed_refl |].
      split; [unfold probes; simpl; lia |]. split; [constructor |].
      split; [lia | left; lia].
Qed.

(** X8.  [waitForPortFree] of lifecycle.ts always resolves and never
    touches the cached state; it first pauses for 3 s, whatever the state
    of the port, then makes between one and fifteen probes with 1 s pauses
    between them, and resolves when a probe gets no response or 15 s
    have passed since the first pause ended. *)
Theorem Lifecycle_waitForPortFree_bounded (m : Machine W) :
  exists m' evs,
    Lifecycle.waitForPortFree host m = (Returned tt, m') /\
    undisturbed m m' (EvSetTimeout 3000 :: evs) /\
    clock m + 3000 <= clock m' /\
    (1 <= probes evs <= 15)%nat /\
    Forall (fun ev => isFetch ev \/ ev = EvSetTimeout 1000) evs /\
    (clock m + 18000 <= clock m' \/
     exists before url port dt r,
       evs = (before ++ [EvContainerFetch url port dt r])%list /\
       looseVerdict r = false).
Proof.
  unfold Lifecycle.waitForPortFree, Lifecycle.portFreeFuel.
  destruct (sleep_run host Lifecycle.PORT_FREE_WAIT_MS m)
    as (m1 & R1 & S1 & K1 & C1 & T1).
  rewrite (bind_returned _ _ _ _ _ R1).
  unfold bind at 1, dateNow. unfold Lifecycle.PORT_FREE_WAIT_MS in *.
  destruct (Lifecycle_portFreeLoop_probes 15 (clock m1 + 15000) m1)
    as (m' & evs & R & U & P & F & Q & X); [lia |].
  exists m', evs. split; [exact R |].
  assert (U1 : undisturbed m m1 [EvSetTimeout 3000]).
  { unfold undisturbed. repeat split; try assumption; lia. }
  split; [exact (undisturbed_trans _ _ _ _ _ U1 U) |].
  destruct U as (_ & _ & C & _).
  split; [lia |]. split; [split; [apply Q; lia | exact P] |].
  split; [exact F |].
  destruct X as [X | X]; [left; lia | right; exact X].
Qed.
End PortFreeBounds.

(* ===================================================================== *)
(** * Runs of the Ensure algorithm, in detail *)
(* ===================================================================== *)

(** Settles a goal about the two timestamps. *)
Ltac stamps :=
  unfold stampsPast, set_gatewayProcessId, set_lastGatewayStartAttempt,
    set_gatewayReady, set_lastHealthCheck in *;
  cbn [advance world clock stateRef startLock trace gatewayProcessId
       lastGatewayStartAttempt gatewayReady lastHealthCheck] in *;
  try lia.

Section EnsureTraces.
Context {W MoltbotEnv : Type} (host : Host W MoltbotEnv) (env : MoltbotEnv).

Lemma stampsPast_undisturbed (m m' : Machine W) evs :
  undisturbed m m' evs -> stampsPast m -> stampsPast m'.
Proof.
  intros (S & _ & C & _) (A & B). unfold stampsPast. rewrite S. lia.
Qed.

Lemma adoptExisting_trace (m : Machine W) :
  exists b m' evs,
    adoptExisting host m = (Returned b, m') /\ follows m m' evs /\
    (stampsPast m -> stampsPast m') /\
    if b then
      exists p,
        evs = [EvFindExisting (Some p);
               EvWaitForPort p (MOLTBOT_PORT host) (STARTUP_TIMEOUT_MS host)
                 (inr tt)] /\
        stateRef m' = mkState (Some (proc_id p)) (clock m') true (clock m')
    else
      stateRef m' = stateRef m /\
      (evs = [EvFindExisting None] \/
       exists p e k,
         evs = [EvFindExisting (Some p);
                EvWaitForPort p (MOLTBOT_PORT host) (STARTUP_TIMEOUT_MS host)
                  (inl e);
                EvKill p k]).
Proof.
  unfold adoptExisting, tryCatch, bind, dateNow, modifyRef,
    doFindExistingMoltbotProcess, doWaitForPort, doKill, call, ret.
  destruct (findExistingMoltbotProcess host (world m)) as [[w1 d1] [p |]]; upto.
  - destruct (waitForPort host p (MOLTBOT_PORT host) (STARTUP_TIMEOUT_MS host) w1)
      as [[w2 d2] [e2 | []]]; upto.
    + destruct (kill host p w2) as [[w3 d3] [e3 | []]]; upto;
        exists false; do 2 eexists; (split; [reflexivity |]);
        (split; [frame |]); (split; [intros H; stamps |]);
        (split; [reflexivity |]); right; do 3 eexists; reflexivity.
    + exists true. do 2 eexists. split; [reflexivity |]. split; [frame |].
      split; [intros H; stamps |]. exists p. split; reflexivity.
  - exists false. do 2 eexists. split; [reflexivity |].
    split; [frame |]. split; [intros H; stamps |]. split; [reflexivity |].
    left. reflexivity.
Qed.

(** Mounting the storage and starting afresh, from a state that is not
    ready, call by call. *)
Lemma startAttempt_run (m : Machine W) :
  gatewayReady (stateRef m) = false ->
  exists o m' evs,
    (doMountR2Storage host env ;; startNewGateway host env) m = (o, m') /\
    follows m m' evs /\
    (stampsPast m -> stampsPast m') /\
    StartAttempt host env m' o evs /\
    match o with
    | Threw e => StartFailure host e m'
    | _ => True
    end.
Proof.
  intros NR.
  unfold startNewGateway, tryCatch, bind, dateNow, modifyRef, doStartProcess,
    doWaitForPort, doGetLogs, doMountR2Storage, call, throw, ret.
  destruct (mountR2Storage host env (world m)) as [[w0 d0] [e0 | []]]; upto.
  { do 3 eexists. split; [reflexivity |]. split; [frame |].
    split; [intros H; stamps |].
    split; [apply MountRaised; exact NR |].
    apply MountFailed. exists (trace m). reflexivity. }
  destruct (startProcess host startCommand (envOption (buildEnvVars host env)) w0)
    as [[w1 d1] [e1 | p]]; upto.
  { do 3 eexists. split; [reflexivity |]. split; [frame |].
    split; [intros H; stamps |].
    split; [apply SpawnRaised; exact NR |].
    eapply SpawnFailed. exists (trace m ++ [EvMountR2 (inr tt)])%list.
    reflexivity. }
  destruct (waitForPort host p (MOLTBOT_PORT host) (STARTUP_TIMEOUT_MS host) w1)
    as [[w2 d2] [e2 | []]]; upto.
  - destruct (getLogs host p w2) as [[w3 d3] [e3 | logs]]; upto;
      do 3 eexists; (split; [reflexivity |]); (split; [frame |]);
      (split; [intros H; stamps |]);
      (split; [apply PortNeverOpened; [exact NR | reflexivity] |]);
      (eapply PortWaitFailed; [| reflexivity]);
      exists (trace m ++ [EvMountR2 (inr tt)])%list; cbn [advance trace];
      repeat rewrite <- app_assoc; reflexivity.
  - do 3 eexists. split; [reflexivity |]. split; [frame |].
    split; [intros H; stamps |].
    split; [apply GatewayStarted; reflexivity | exact I].
Qed.
End EnsureTraces.

Section EnsureTraces2.
Context {W MoltbotEnv : Type} (host : Host W MoltbotEnv) (env : MoltbotEnv).

(** Steps 4 to 6, call by call: the second probe; the stop and the
    port-free wait when that probe was healthy, nothing otherwise; then the
    mount and the start. *)
Lemma freshStart_trace (m : Machine W) :
  gatewayReady (stateRef m) = false ->
  exists o m' dt r pre attempt,
    freshStart host env m = (o, m') /\
    follows m m'
      (EvContainerFetch (Part000.healthUrl host) (MOLTBOT_PORT host) dt r
         :: pre ++ attempt) /\
    (stampsPast m -> stampsPast m') /\
    (if strictVerdict r
     then exists r0 rest0, pre = EvStartProcess stopCommand None r0 :: rest0
     else pre = []) /\
    StartAttempt host env m' o attempt /\
    match o with
    | Threw e => StartFailure host e m'
    | _ => True
    end.
Proof.
  intros NR. unfold freshStart.
  destruct (Part000_isGatewayHealthy_probe host m) as (w & dt & r & R1).
  rewrite (bind_returned _ _ _ _ _ R1).
  set (ev := EvContainerFetch (Part000.healthUrl host) (MOLTBOT_PORT host) dt r)
    in *.
  set (m1 := advance m w _ _) in *.
  assert (U1 : undisturbed m m1 [ev]) by (subst m1; frame).
  assert (exists m2 pre,
            (if strictVerdict r
             then st <- getRef ;;
                  stopGateway host (gatewayProcessId st) ;;
                  modifyRef (set_gatewayProcessId None) ;;
                  Part000.waitForPortFree host
             else ret tt) m1 = (Returned tt, m2) /\
            follows m1 m2 pre /\ gatewayReady (stateRef m2) = false /\
            (stampsPast m1 -> stampsPast m2) /\
            (if strictVerdict r
             then exists r0 rest0, pre = EvStartProcess stopCommand None r0 :: rest0
             else pre = []))
    as (m2 & pre & R2 & F2 & NR2 & SP2 & Shape).
  { assert (NR1 : gatewayReady (stateRef m1) = false).
    { destruct U1 as (S1 & _). rewrite S1. exact NR. }
    destruct (strictVerdict r).
    - unfold bind at 1, getRef.
      destruct (stopGateway_quiet host (gatewayProcessId (stateRef m1)) m1)
        as (ma & ra & mid & found & rest & Ra & Ua & _).
      rewrite (bind_returned _ _ _ _ _ Ra).
      unfold bind at 1, modifyRef.
      set (mb := mkMachine _ _ _ _ _).
      destruct (Part000_waitForPortFree_total host mb)
        as (mc & evc & restc & Rc & Uc & _).
      exists mc. eexists. split; [exact Rc |].
      pose proof Ua as (Sa & La & Ca & Ta).
      pose proof Uc as (Sc & Lc & Cc & Tc).
      split; [| split; [| split]].
      + unfold follows. subst mb. cbn [startLock clock trace] in *.
        repeat split; try congruence; try lia.
        rewrite Tc, Ta, <- app_assoc. reflexivity.
      + rewrite Sc. subst mb. cbn [stateRef]. unfold set_gatewayProcessId.
        cbn [gatewayReady]. rewrite Sa. exact NR1.
      + intros H. apply (stampsPast_undisturbed _ _ _ Uc).
        pose proof (stampsPast_undisturbed _ _ _ Ua H) as Ha.
        subst mb. stamps.
      + do 2 eexists. cbn [app]. reflexivity.
    - exists m1, []. split; [reflexivity |].
      split; [apply undisturbed_follows, undisturbed_refl |]. auto. }
  rewrite (bind_returned _ _ _ _ _ R2).
  destruct (startAttempt_run host env m2 NR2) as (o & m' & att & R & F & SP & A & X).
  exists o, m', dt, r, pre, att. split; [exact R |].
  split.
  { exact (follows_trans _ _ _ _ _
             (follows_trans _ _ _ _ _ (undisturbed_follows _ _ _ U1) F2) F). }
  split.
  { intros H. exact (SP (SP2 (stampsPast_undisturbed _ _ _ U1 H))). }
  auto.
Qed.

(** Every run of [ensureGatewayRunningLogic] of part_000 from a state
    that is not ready, in detail. *)
Lemma Part000_ensure_trace (m : Machine W) :
  gatewayReady (stateRef m) = false ->
  exists o m' w dt r rest,
    Part000.ensureGatewayRunningLogic host env m = (o, m') /\
    Part000.isGatewayHealthy host m =
      (Returned (strictVerdict r),
       advance m w (Z.of_N dt)
         (EvContainerFetch (Part000.healthUrl host) (MOLTBOT_PORT host) dt r)) /\
    follows m m'
      (EvContainerFetch (Part000.healthUrl host) (MOLTBOT_PORT host) dt r :: rest) /\
    (stampsPast m -> stampsPast m') /\
    match o with
    | Returned _ =>
        if strictVerdict r
        then endedByProbe m m' rest /\
             lastHealthCheck (stateRef m') = clock m + Z.of_N dt
        else endedByPortWait host m' rest
    | Threw e =>
        strictVerdict r = false /\
        gatewayReady (stateRef m') = false /\ StartFailure host e m'
    | Pending => False
    end.
Proof.
  intros NR. unfold Part000.ensureGatewayRunningLogic.
  unfold bind at 1, getRef. rewrite NR.
  destruct (Part000_isGatewayHealthy_probe host m) as (w & dt & r & R1).
  rewrite (bind_returned _ _ _ _ _ R1).
  set (ev := EvContainerFetch (Part000.healthUrl host) (MOLTBOT_PORT host) dt r)
    in *.
  set (m1 := advance m w _ _) in *.
  assert (U1 : undisturbed m m1 [ev]) by (subst m1; frame).
  pose proof (undisturbed_follows _ _ _ U1) as F1.
  destruct (strictVerdict r) eqn:V.
  - (* 2) the probe is healthy *)
    unfold bind, modifyRef, dateNow, doFindExistingMoltbotProcess, sleep, ret.
    subst m1. upto.
    destruct (findExistingMoltbotProcess host w) as [[w2 d2] [p |]]; upto.
    + exists (Returned tt). eexists. exists w, dt, r. eexists.
      split; [reflexivity |]. split; [rewrite V; exact R1 |]. split; [frame |].
      split; [intros H; stamps |]. rewrite V.
      split; [| reflexivity].
      split; [reflexivity |]. split; [stamps |].
      left. exists p. split; [left; reflexivity |]. split; reflexivity.
    + destruct (timerLateness host 300 w2) as [w3 late]. upto.
      destruct (findExistingMoltbotProcess host w3) as [[w4 d4] [p |]]; upto.
      * exists (Returned tt). eexists. exists w, dt, r. eexists.
        split; [reflexivity |]. split; [rewrite V; exact R1 |]. split; [frame |].
        split; [intros H; stamps |]. rewrite V.
        split; [| reflexivity].
        split; [reflexivity |]. split; [stamps |].
        left. exists p. split; [right; reflexivity |]. split; reflexivity.
      * exists (Returned tt). eexists. exists w, dt, r. eexists.
        split; [reflexivity |]. split; [rewrite V; exact R1 |]. split; [frame |].
        split; [intros H; stamps |]. rewrite V.
        split; [| reflexivity].
        split; [reflexivity |]. split; [stamps |].
        right. split; [reflexivity |]. split; reflexivity.
  - (* 3) an existing process may be starting *)
    destruct (adoptExisting_trace host m1) as (b & m2 & e2 & R2 & F2 & SP2 & P2).
    rewrite (bind_returned _ _ _ _ _ R2).
    destruct b.
    + destruct P2 as (p & -> & S).
      exists (Returned tt), m2, w, dt, r. eexists.
      split; [reflexivity |]. split; [rewrite V; exact R1 |].
      split; [exact (follows_trans _ _ _ _ _ F1 F2) |].
      split; [intros H; exact (SP2 (stampsPast_undisturbed _ _ _ U1 H)) |].
      rewrite V. exists [], p, (EvFindExisting (Some p)).
      split; [reflexivity |]. split; [left; reflexivity |].
      rewrite S. auto.
    + destruct P2 as (S2 & Shape).
      assert (NR2 : gatewayReady (stateRef m2) = false).
      { rewrite S2. subst m1. exact NR. }
      destruct (freshStart_trace m2 NR2)
        as (o & m' & dt3 & r3 & pre & att & R3 & F3 & SP3 & _ & A & X).
      unfold freshStart in R3.
      exists o, m', w, dt, r. eexists. split; [exact R3 |].
      split; [rewrite V; exact R1 |].
      split; [exact (follows_trans _ _ _ _ _ (follows_trans _ _ _ _ _ F1 F2) F3) |].
      split; [intros H; exact (SP3 (SP2 (stampsPast_undisturbed _ _ _ U1 H))) |].
      inversion A as [e G | e G | q e thrown logs G Q | q G Q H]; subst o att.
      * rewrite V. auto.
      * rewrite V. auto.
      * rewrite V. auto.
      * rewrite V.
        exists (e2 ++
                EvContainerFetch (Part000.healthUrl host) (MOLTBOT_PORT host)
                  dt3 r3 :: pre ++ [EvMountR2 (inr tt)])%list, q.
        exists (EvStartProcess startCommand (envOption (buildEnvVars host env))
                  (inr q)).
        split; [| split; [right; eexists; reflexivity | auto]].
        rewrite <- app_assoc. cbn [app]. rewrite <- app_assoc. reflexivity.
Qed.
End EnsureTraces2.

(* ===================================================================== *)
(** * What the Ensure and Restart algorithms guarantee *)
(* ===================================================================== *)

Section EngineGuarantees.
Context {W MoltbotEnv : Type} (host : Host W MoltbotEnv) (env : MoltbotEnv).

(** X9.  When the first probe of [ensure] of part_000 answers true, the
    call resolves, whatever the rest of the platform does, and after the
    probe it makes one search for the gateway process, or, that search
    finding none, pauses 300 ms once and searches a second time, and makes
    no other call: it starts no process, mounts nothing, kills nothing and
    waits for no port.  [ready] is set and [lastHealthCheck] is the time
    the probe ended.  When a search found a process, [processId] is its id
    and [lastGatewayStartAttempt] the time the call ended; when both found
    none, both fields are what they were. *)
Theorem healthy_probe_starts_nothing (m m1 : Machine W) :
  gatewayReady (stateRef m) = false ->
  Part000.isGatewayHealthy host m = (Returned true, m1) ->
  exists m' rest,
    Part000.ensureGatewayRunningLogic host env m = (Returned tt, m') /\
    trace m' = (trace m1 ++ rest)%list /\
    endedByProbe m m' rest /\
    lastHealthCheck (stateRef m') = clock m1.
Proof.
  intros NR H.
  destruct (Part000_ensure_trace host env m NR)
    as (o & m' & w & dt & r & rest & R & E & F & _ & P).
  rewrite H in E. injection E as V ->.
  rewrite <- V in P. destruct o as [[] | e |].
  - exists m', rest. split; [exact R |].
    destruct F as (_ & _ & T). destruct P as (P & Q).
    split; [| split; [exact P | exact Q]].
    rewrite T. cbn [advance trace]. rewrite <- app_assoc. reflexivity.
  - destruct P as (P & _). discriminate P.
  - contradiction.
Qed.

(** X10.  [ready] is never set on trust: when [ensure] of part_000
    resolves from a state that was not ready, its first call was a probe,
    and either that probe was healthy (and nothing but the search for the
    process followed), or the call ended with the successful port wait of
    a process that the search or the spawn of the start script had just
    returned, and [processId] names that very process. *)
Theorem ready_needs_evidence (m m' : Machine W) :
  gatewayReady (stateRef m) = false ->
  Part000.ensureGatewayRunningLogic host env m = (Returned tt, m') ->
  exists dt r rest,
    trace m' =
      (trace m ++
       EvContainerFetch (Part000.healthUrl host) (MOLTBOT_PORT host) dt r :: rest)%list /\
    ((strictVerdict r = true /\ endedByProbe m m' rest) \/
     (strictVerdict r = false /\ endedByPortWait host m' rest)).
Proof.
  intros NR R.
  destruct (Part000_ensure_trace host env m NR)
    as (o & m2 & w & dt & r & rest & R2 & _ & F & _ & P).
  rewrite R in R2. injection R2 as <- <-.
  exists dt, r, rest. split; [apply F |].
  destruct (strictVerdict r); [left; split; [reflexivity | apply P] | auto].
Qed.

(** X11.  A successful [restart] of part_000 leaves [ready] true, and
    never carries the old process id over: [processId] is null, or it is
    the id of a process that the search or the spawn returned during this
    very restart. *)
Theorem restart_result (m m' : Machine W) :
  Part000.restartGatewayLogic host env m = (Returned tt, m') ->
  gatewayReady (stateRef m') = true /\
  (gatewayProcessId (stateRef m') = None \/
   exists evs p src,
     trace m' = (trace m ++ evs)%list /\ In src evs /\ introduces p src /\
     gatewayProcessId (stateRef m') = Some (proc_id p)).
Proof.
  intros R.
  destruct (Part000_restart_run host env m)
    as (m1 & m2 & m3 & e1 & e2 & e3 & _ & U1 & _ & U2 & _ & U3 & E & _).
  rewrite E in R. clear E.
  assert (S3 : stateRef m3 = stateRef (cleared m1)).
  { destruct U2 as (S2 & _). destruct U3 as (S3 & _). congruence. }
  assert (T3 : trace m3 = (trace m ++ e1 ++ e2 ++ e3)%list).
  { destruct U1 as (_ & _ & _ & T1). destruct U2 as (_ & _ & _ & T2).
    destruct U3 as (_ & _ & _ & T3). rewrite T3, T2. cbn [cleared trace].
    rewrite T1, <- !app_assoc. reflexivity. }
  assert (NR : gatewayReady (stateRef m3) = false) by (rewrite S3; reflexivity).
  assert (NP : gatewayProcessId (stateRef m3) = None) by (rewrite S3; reflexivity).
  destruct (Part000_ensure_trace host env m3 NR)
    as (o & m4 & w & dt & r & rest & R4 & _ & F & _ & P).
  rewrite R in R4. injection R4 as <- <-.
  destruct F as (_ & _ & T).
  destruct (strictVerdict r).
  - destruct P as ((G & _ & [(p & Sh & Q & _) | (_ & Q & _)]) & _).
    + split; [exact G |]. right.
      eexists. exists p, (EvFindExisting (Some p)).
      split; [rewrite T, T3, <- !app_assoc; reflexivity |].
      split; [| split; [left; reflexivity | exact Q]].
      do 3 (apply in_or_app; right). right.
      destruct Sh as [-> | ->]; cbn [In]; auto.
    + split; [exact G |]. left. congruence.
  - destruct P as (before & p & src & -> & I & Q & G & _).
    split; [exact G |]. right.
    eexists. exists p, src.
    split; [rewrite T, T3, <- !app_assoc; reflexivity |].
    split; [| split; [exact I | exact Q]].
    do 3 (apply in_or_app; right). right. apply in_or_app. right.
    left. reflexivity.
Qed.

(** X12.  Timestamps are never ahead of the clock (a clock that does not
    run backwards): if [lastHealthCheck] and [lastGatewayStartAttempt] lie
    in the past when [ensure] or [restart] of part_000 is entered, they lie
    in the past when it ends, however it ends. *)
Theorem timestamps_stay_past (m m' : Machine W) (o : Outcome unit) :
  stampsPast m ->
  Part000.ensureGatewayRunningLogic host env m = (o, m') \/
  Part000.restartGatewayLogic host env m = (o, m') ->
  stampsPast m'.
Proof.
  assert (K : forall (m m' : Machine W) o,
            stampsPast m ->
            Part000.ensureGatewayRunningLogic host env m = (o, m') ->
            stampsPast m').
  { clear m m' o. intros m m' o SP R.
    destruct (gatewayReady (stateRef m)) eqn:G.
    - rewrite (Part000_ensure_fast host env m G) in R.
      injection R as _ <-. exact SP.
    - destruct (Part000_ensure_trace host env m G)
        as (o2 & m2 & w & dt & r & rest & R2 & _ & _ & SP2 & _).
      rewrite R in R2. injection R2 as _ <-. exact (SP2 SP). }
  intros SP [R | R]; [exact (K m m' o SP R) |].
  destruct (Part000_restart_run host env m)
    as (m1 & m2 & m3 & e1 & e2 & e3 & _ & U1 & _ & U2 & _ & U3 & E & _).
  rewrite E in R. apply (K m3 m' o); [| exact R].
  apply (stampsPast_undisturbed _ _ _ U3).
  apply (stampsPast_undisturbed _ _ _ U2).
  pose proof (stampsPast_undisturbed _ _ _ U1 SP) as H.
  unfold cleared. stamps.
Qed.

Lemma adoptExisting_stuck (m : Machine W) w2 d2 p w3 d3 e :
  findExistingMoltbotProcess host (world m) = (w2, d2, Some p) ->
  waitForPort host p (MOLTBOT_PORT host) (STARTUP_TIMEOUT_MS host) w2
    = (w3, d3, inl e) ->
  exists w4 d4 k,
    kill host p w3 = (w4, d4, k) /\
    adoptExisting host m =
      (Returned false,
       advance
         (advance
            (advance m w2 (Z.of_N d2) (EvFindExisting (Some p)))
            w3 (Z.of_N d3)
            (EvWaitForPort p (MOLTBOT_PORT host) (STARTUP_TIMEOUT_MS host) (inl e)))
         w4 (Z.of_N d4) (EvKill p k)).
Proof.
  intros F P.
  unfold adoptExisting, tryCatch, bind, dateNow, modifyRef,
    doFindExistingMoltbotProcess, doWaitForPort, doKill, call, ret.
  rewrite F. upto. rewrite P. upto.
  destruct (kill host p w3) as [[w4 d4] [e4 | []]]; upto;
    do 3 eexists; split; reflexivity.
Qed.

(** X13.  A stuck process is killed before anything else is tried: when
    the probe of [ensure] of part_000 answers false, an existing gateway
    process is found and its port wait fails, the next call is a kill of
    that process.  Whether the kill succeeds or raises, the call goes on:
    it probes a second time; when that probe answers true it stops the
    gateway, beginning with the stop command, and otherwise calls nothing
    in between; then it mounts the storage and, the mount succeeding,
    spawns the start script and waits for its port, and these are its last
    calls.  The call resolves or rejects; it does not hang. *)
Theorem stuck_process_is_killed (m m1 : Machine W) w2 d2 p w3 d3 e :
  gatewayReady (stateRef m) = false ->
  Part000.isGatewayHealthy host m = (Returned false, m1) ->
  findExistingMoltbotProcess host (world m1) = (w2, d2, Some p) ->
  waitForPort host p (MOLTBOT_PORT host) (STARTUP_TIMEOUT_MS host) w2
    = (w3, d3, inl e) ->
  exists o m' k dt r pre attempt,
    Part000.ensureGatewayRunningLogic host env m = (o, m') /\
    o <> Pending /\
    snd (kill host p w3) = k /\
    trace m' =
      (trace m1 ++
       [EvFindExisting (Some p);
        EvWaitForPort p (MOLTBOT_PORT host) (STARTUP_TIMEOUT_MS host) (inl e);
        EvKill p k] ++
       EvContainerFetch (Part000.healthUrl host) (MOLTBOT_PORT host) dt r
         :: pre ++ attempt)%list /\
    (if strictVerdict r
     then exists r0 rest0, pre = EvStartProcess stopCommand None r0 :: rest0
     else pre = []) /\
    StartAttempt host env m' o attempt.
Proof.
  intros NR H F P. unfold Part000.ensureGatewayRunningLogic.
  unfold bind at 1, getRef. rewrite NR.
  rewrite (bind_returned _ _ _ _ _ H). cbv iota.
  assert (NR1 : gatewayReady (stateRef m1) = false).
  { destruct (Part000_isGatewayHealthy_quiet host m) as (b & m0 & ev & R0 & U0).
    rewrite H in R0. injection R0 as _ <-.
    destruct U0 as (S0 & _). rewrite S0. exact NR. }
  destruct (adoptExisting_stuck m1 w2 d2 p w3 d3 e F P)
    as (w4 & d4 & k & K & R2).
  rewrite (bind_returned _ _ _ _ _ R2).
  set (m2 := advance _ w4 _ _).
  destruct (freshStart_trace host env m2 NR1)
    as (o & m' & dt & r & pre & att & R3 & F3 & _ & Sh & A & _).
  unfold freshStart in R3.
  exists o, m', k, dt, r, pre, att. split; [exact R3 |].
  split; [inversion A; discriminate |].
  split; [rewrite K; reflexivity |].
  split; [| split; [exact Sh | exact A]].
  destruct F3 as (_ & _ & T). rewrite T. subst m2. cbn [advance trace].
  rewrite <- !app_assoc. reflexivity.
Qed.

(** X14.  lifecycle.ts on a healthy probe: any response at all counts, the
    call resolves after exactly one search for the process (no pause, no
    second search), [ready] and [lastHealthCheck] are set,
    [lastGatewayStartAttempt] is left as it was, and [processId] is the id
    of the process found, or unchanged when none is found. *)
Theorem legacy_healthy_probe (m : Machine W) (w : W) (dt : N) (r : JsValue + Z) :
  gatewayReady (stateRef m) = false ->
  containerFetch host (Lifecycle.healthUrl host) (MOLTBOT_PORT host) (world m)
    = (w, dt, r) ->
  looseVerdict r = true ->
  exists m' found,
    Lifecycle.ensureGatewayRunningLogic host env m = (Returned tt, m') /\
    trace m' =
      (trace m ++
       [EvContainerFetch (Lifecycle.healthUrl host) (MOLTBOT_PORT host) dt r;
        EvFindExisting found])%list /\
    stateRef m' =
      mkState
        (match found with
         | Some p => Some (proc_id p)
         | None => gatewayProcessId (stateRef m)
         end)
        (lastGatewayStartAttempt (stateRef m)) true (clock m + Z.of_N dt).
Proof.
  intros NR E V. unfold Lifecycle.ensureGatewayRunningLogic.
  unfold bind at 1, getRef. rewrite NR.
  rewrite (bind_returned _ _ _ _ _ (Lifecycle_isGatewayHealthy_run host m w dt r E)).
  rewrite V.
  unfold bind, modifyRef, dateNow, doFindExistingMoltbotProcess, ret. upto.
  destruct (findExistingMoltbotProcess host w) as [[w2 d2] [p |]]; upto;
    do 2 eexists; (split; [reflexivity |]);
    (split; [cbn [advance trace]; rewrite <- app_assoc; reflexivity
            | reflexivity]).
Qed.
End EngineGuarantees.

(* ===================================================================== *)
(** * The request boundary *)
(* ===================================================================== *)

Section Boundary.
Context {W MoltbotEnv : Type} (host : Host W MoltbotEnv) (env : MoltbotEnv).

Lemma Part000_ensure_settles (m : Machine W) :
  exists o m1,
    Part000.ensureGatewayRunningLogic host env m = (o, m1) /\
    startLock m1 = startLock m /\
    match o with
    | Returned _ => gatewayReady (stateRef m1) = true
    | Threw _ => gatewayReady (stateRef m1) = false
    | Pending => False
    end.
Proof.
  destruct (gatewayReady (stateRef m)) eqn:G.
  - exists (Returned tt), m.
    split; [exact (Part000_ensure_fast host env m G) | auto].
  - destruct (Part000_ensure_run host env m G) as (o & m1 & evs & R & F & P).
    exists o, m1. split; [exact R |]. split; [apply F |].
    destruct o as [[] | e |]; [apply P | apply P | exact P].
Qed.

Lemma Part000_restart_settles (m : Machine W) :
  exists o m1,
    Part000.restartGatewayLogic host env m = (o, m1) /\
    startLock m1 = startLock m /\
    match o with
    | Returned _ => gatewayReady (stateRef m1) = true
    | Threw _ => gatewayReady (stateRef m1) = false
    | Pending => False
    end.
Proof.
  destruct (Part000_restart_run host env m)
    as (m1 & m2 & m3 & e1 & e2 & e3 & _ & U1 & _ & U2 & _ & U3 & E & _).
  rewrite E. destruct (Part000_ensure_settles m3) as (o & m4 & R & L & P).
  exists o, m4. split; [exact R |]. split; [| exact P].
  destruct U1 as (_ & L1 & _). destruct U2 as (_ & L2 & _).
  destruct U3 as (_ & L3 & _). rewrite L, L3, L2. exact L1.
Qed.

Lemma handler_answers (op : M W unit) (m : Machine W) :
  startLock m = false ->
  (exists o m1,
     op (setLock true m) = (o, m1) /\
     match o with
     | Returned _ => gatewayReady (stateRef m1) = true
     | Threw _ => gatewayReady (stateRef m1) = false
     | Pending => False
     end) ->
  exists o m1 resp m',
    op (setLock true m) = (o, m1) /\
    tryCatch (Part000.runWithLock op ;; Part000.okResponse)
      Part000.errorResponse m = (Returned resp, m') /\
    m' = setLock false m1 /\
    startLock m' = false /\ answerMatches o resp m'.
Proof.
  intros L (o & m1 & R & P).
  rewrite (handler_run op m L o m1 R).
  destruct o as [[] | e |]; [| | contradiction].
  - exists (Returned tt), m1. do 2 eexists. split; [exact R |].
    split; [reflexivity |]. split; [reflexivity |]. split; [reflexivity |].
    cbn [answerMatches setLock stateRef]. rewrite P. auto.
  - exists (Threw e), m1. do 2 eexists. split; [exact R |].
    split; [reflexivity |]. split; [reflexivity |]. split; [reflexivity |].
    cbn [answerMatches setLock stateRef]. auto.
Qed.

(** X15.  With the slot free, the ensure and restart handlers always
    answer: the engine, run with the slot taken, resolves or rejects, no
    error of it crosses the boundary and no call is left pending.  The
    slot is free again afterwards and nothing else is changed after the
    engine ended.  When the engine resolved the answer is 200 with
    [gatewayReady: true] and the cached process id; when it rejected with
    a value, the answer is 503 with the message of that very value, and
    the state left is not ready. *)
Theorem handlers_always_answer (m : Machine W) :
  startLock m = false ->
  (exists o m1 resp m',
     Part000.ensureGatewayRunningLogic host env (setLock true m) = (o, m1) /\
     Part000.handleEnsure host env m = (Returned resp, m') /\
     m' = setLock false m1 /\
     startLock m' = false /\ answerMatches o resp m') /\
  (exists o m1 resp m',
     Part000.restartGatewayLogic host env (setLock true m) = (o, m1) /\
     Part000.handleRestart host env m = (Returned resp, m') /\
     m' = setLock false m1 /\
     startLock m' = false /\ answerMatches o resp m').
Proof.
  intros L. split.
  - apply (handler_answers (Part000.ensureGatewayRunningLogic host env) m L).
    destruct (Part000_ensure_settles (setLock true m)) as (o & m1 & R & _ & P).
    eauto.
  - apply (handler_answers (Part000.restartGatewayLogic host env) m L).
    destruct (Part000_restart_settles (setLock true m)) as (o & m1 & R & _ & P).
    eauto.
Qed.

(** X16.  A failure is not remembered: after [ensure] or [restart] has
    answered 503, the next [ensure] does not take the fast path but starts
    over with a probe of the port, and answers in its turn. *)
Theorem failure_is_not_cached (m m1 : Machine W) (resp : Response) :
  startLock m = false ->
  Part000.handleEnsure host env m = (Returned resp, m1) \/
  Part000.handleRestart host env m = (Returned resp, m1) ->
  status resp = 503 ->
  exists resp' m2 probe rest,
    Part000.handleEnsure host env m1 = (Returned resp', m2) /\
    trace m2 = (trace m1 ++ probe :: rest)%list /\ isFetch probe.
Proof.
  intros L H S.
  assert (A : startLock m1 = false /\ gatewayReady (stateRef m1) = false).
  { destruct H as [H | H].
    - destruct (handler_answers (Part000.ensureGatewayRunningLogic host env) m L)
        as (o & m0 & r & m' & _ & R & _ & L' & Q).
      { destruct (Part000_ensure_settles (setLock true m))
          as (o & m0 & R & _ & P). eauto. }
      unfold Part000.handleEnsure in H. rewrite H in R.
      injection R as <- <-.
      destruct o as [[] | e |]; [| | contradiction]; destruct Q as (-> & Q);
        [discriminate S | auto].
    - destruct (handler_answers (Part000.restartGatewayLogic host env) m L)
        as (o & m0 & r & m' & _ & R & _ & L' & Q).
      { destruct (Part000_restart_settles (setLock true m))
          as (o & m0 & R & _ & P). eauto. }
      unfold Part000.handleRestart in H. rewrite H in R.
      injection R as <- <-.
      destruct o as [[] | e |]; [| | contradiction]; destruct Q as (-> & Q);
        [discriminate S | auto]. }
  destruct A as (L1 & NR).
  assert (NR' : gatewayReady (stateRef (setLock true m1)) = false) by exact NR.
  destruct (Part000_ensure_trace host env (setLock true m1) NR')
    as (o & m2 & w & dt & r & rest & R & _ & F & _ & P).
  unfold Part000.handleEnsure.
  rewrite (handler_run _ m1 L1 o m2 R).
  destruct F as (_ & _ & T).
  destruct o as [[] | e |]; [| | contradiction];
    do 4 eexists; (split; [reflexivity |]);
    (split; [cbn [setLock trace]; exact T | exact I]).
Qed.
End Boundary.

(* ===================================================================== *)
(** * Concrete runs of the statements above *)
(* ===================================================================== *)

Lemma healthy_probe_starts_nothing_witness :
  let host := scripted (answering 200) in
  let m1 := snd (Part000.isGatewayHealthy host (boot 1000)) in
  exists m' rest,
    Part000.ensureGatewayRunningLogic host tt (boot 1000) = (Returned tt, m') /\
    trace m' = (trace m1 ++ rest)%list /\
    endedByProbe (boot 1000) m' rest /\
    lastHealthCheck (stateRef m') = clock m1.
Proof.
  cbv zeta.
  apply (healthy_probe_starts_nothing (scripted (answering 200)) tt (boot 1000)).
  - reflexivity.
  - vm_compute. reflexivity.
Defined.

Lemma ready_needs_evidence_witness :
  let host := scripted coldStart in
  let m' := snd (Part000.ensureGatewayRunningLogic host tt (boot 1000)) in
  exists dt r rest,
    trace m' =
      (trace (boot 1000) ++
       EvContainerFetch (Part000.healthUrl host) (MOLTBOT_PORT host) dt r :: rest)%list /\
    ((strictVerdict r = true /\ endedByProbe (boot 1000) m' rest) \/
     (strictVerdict r = false /\ endedByPortWait host m' rest)).
Proof.
  cbv zeta.
  apply (ready_needs_evidence (scripted coldStart) tt (boot 1000)).
  - reflexivity.
  - vm_compute. reflexivity.
Defined.

Lemma restart_result_witness :
  let m := machineWith (mkState (Some "proc-0") 5 true 5) in
  let m' := snd (Part000.restartGatewayLogic (scripted coldStart) tt m) in
  gatewayReady (stateRef m') = true /\
  (gatewayProcessId (stateRef m') = None \/
   exists evs p src,
     trace m' = (trace m ++ evs)%list /\ In src evs /\ introduces p src /\
     gatewayProcessId (stateRef m') = Some (proc_id p)).
Proof.
  cbv zeta.
  apply (restart_result (scripted coldStart) tt).
  vm_compute. reflexivity.
Defined.

Lemma timestamps_stay_past_witness :
  stampsPast (snd (Part000.restartGatewayLogic (scripted bootFailure) tt
                     (boot 1000))).
Proof.
  apply (timestamps_stay_past (scripted bootFailure) tt (boot 1000) _
           (Threw (JsError "waitForPort timeout"))).
  - unfold stampsPast. simpl. lia.
  - right. vm_compute. reflexivity.
Defined.

Lemma stuck_process_is_killed_witness :
  let host := scripted stuck in
  let p := mkProcess "proc-0" "starting" in
  let m1 := snd (Part000.isGatewayHealthy host (boot 1000)) in
  exists o m' k dt r pre attempt,
    Part000.ensureGatewayRunningLogic host tt (boot 1000) = (o, m') /\
    o <> Pending /\
    snd (kill host p tt) = k /\
    trace m' =
      (trace m1 ++
       [EvFindExisting (Some p);
        EvWaitForPort p (MOLTBOT_PORT host) (STARTUP_TIMEOUT_MS host)
          (inl (JsError "waitForPort timeout"));
        EvKill p k] ++
       EvContainerFetch (Part000.healthUrl host) (MOLTBOT_PORT host) dt r
         :: pre ++ attempt)%list /\
    (if strictVerdict r
     then exists r0 rest0, pre = EvStartProcess stopCommand None r0 :: rest0
     else pre = []) /\
    StartAttempt host tt m' o attempt.
Proof.
  cbv zeta.
  apply (stuck_process_is_killed (scripted stuck) tt (boot 1000) _
           tt 5%N (mkProcess "proc-0" "starting")
           tt 5%N (JsError "waitForPort timeout")).
  - reflexivity.
  - vm_compute. reflexivity.
  - reflexivity.
  - reflexivity.
Defined.

Lemma legacy_healthy_probe_witness :
  let host := scripted (answering 503) in
  exists m' found,
    Lifecycle.ensureGatewayRunningLogic host tt (boot 1000) = (Returned tt, m') /\
    trace m' =
      (trace (boot 1000) ++
       [EvContainerFetch (Lifecycle.healthUrl host) (MOLTBOT_PORT host) 5 (inr 503);
        EvFindExisting found])%list /\
    stateRef m' =
      mkState
        (match found with
         | Some p => Some (proc_id p)
         | None => gatewayProcessId (stateRef (boot 1000))
         end)
        (lastGatewayStartAttempt (stateRef (boot 1000))) true
        (clock (boot 1000) + Z.of_N 5).
Proof.
  cbv zeta.
  apply (legacy_healthy_probe (scripted (answering 503)) tt (boot 1000) tt).
  - reflexivity.
  - reflexivity.
  - reflexivity.
Defined.

Lemma handlers_always_answer_witness :
  let host := scripted bootFailureNoLogs in
  let m := boot 1000 in
  (exists o m1 resp m',
     Part000.ensureGatewayRunningLogic host tt (setLock true m) = (o, m1) /\
     Part000.handleEnsure host tt m = (Returned resp, m') /\
     m' = setLock false m1 /\
     startLock m' = false /\ answerMatches o resp m') /\
  (exists o m1 resp m',
     Part000.restartGatewayLogic host tt (setLock true m) = (o, m1) /\
     Part000.handleRestart host tt m = (Returned resp, m') /\
     m' = setLock false m1 /\
     startLock m' = false /\ answerMatches o resp m').
Proof.
  cbv zeta.
  apply (handlers_always_answer (scripted bootFailureNoLogs) tt (boot 1000)).
  reflexivity.
Defined.

Lemma failure_is_not_cached_witness :
  let m1 := snd (Part000.handleEnsure (scripted bootFailure) tt (boot 1000)) in
  exists resp' m2 probe rest,
    Part000.handleEnsure (scripted bootFailure) tt m1 = (Returned resp', m2) /\
    trace m2 = (trace m1 ++ probe :: rest)%list /\ isFetch probe.
Proof.
  cbv zeta.
  apply (failure_is_not_cached (scripted bootFailure) tt (boot 1000) _
           (mkResponse 503 (BodyError "waitForPort timeout"))).
  - reflexivity.
  - left. vm_compute. reflexivity.
  - reflexivity.
Defined.


(* ===================================================================== *)
(** * The slot as the mark of a transition in progress *)
(* ===================================================================== *)

Section LockSlot.
Import LockModel.

(** X17.  Along every schedule the slot is occupied exactly while an
    operation runs, and it names the call that runs it; and nobody waits
    in a chain: a waiting call waits for a call that runs or has settled,
    never for another waiting call or for one not yet issued. *)
Theorem slot_marks_running (acts : list Action) (o : Owner) :
  run initial acts = Some o ->
  (slot o = None <-> forall i, calls o i <> Running) /\
  (forall i, slot o = Some i <-> calls o i = Running) /\
  (forall i p, calls o i = Awaiting p ->
     calls o p <> NotIssued /\ forall q, calls o p <> Awaiting q).
Proof.
  intros H.
  pose proof (reachable_coherent o (run_reachable acts initial o reach_initial H))
    as (C1 & C2).
  split; [| split].
  - split.
    + intros S i R. apply C1 in R. rewrite S in R. discriminate R.
    + intros N. destruct (slot o) as [i |] eqn:S; [| reflexivity].
      exfalso. apply (N i). apply C1. reflexivity.
  - exact C1.
  - intros i p A. destruct (C2 i p A) as [R | (r & R)]; rewrite R;
      split; try discriminate; intros q; discriminate.
Qed.

Lemma slot_marks_running_witness :
  (slot busy = None <-> forall i, calls busy i <> Running) /\
  (forall i, slot busy = Some i <-> calls busy i = Running) /\
  (forall i p, calls busy i = Awaiting p ->
     calls busy p <> NotIssued /\ forall q, calls busy p <> Awaiting q).
Proof.
  apply (slot_marks_running [Issue 0%nat; Issue 1%nat] busy).
  reflexivity.
Defined.
End LockSlot.
